(** * OHIP payment-summary parser: a shallow embedding of
    [parse_payment_summary.py] and the properties of its text heuristics.

    Python [str] values are modelled by [string]; the embedding is exact on
    ASCII text (code points 0..127).  The en/em dash replacements of the
    source act on code points U+2013/U+2014 only, so on ASCII text they are
    the identity and are left out.  Python [float] values are IEEE-754
    binary64 numbers, modelled by [spec_float] at precision 53 with
    round-to-nearest-even, as the interpreter computes them.

    On text with other code points the interpreter does more than the
    embedding: [str.upper], [str.lower], [str.isalnum], [str.strip] and
    the classes [\d], [\s] and [\w] of [re] also act on the letters,
    digits and spaces outside ASCII, [float] reads every decimal digit,
    and the source names eight characters outside ASCII itself (the two
    dashes of [normalize_category] and of [line_to_category_and_numbers],
    the punctuation of [_normalize_unicode_punct]).  The properties below
    are properties of the program on ASCII text; where a property would
    fail on other text, its statement says so ([is_ascii]).

    The regular expressions of the source are embedded pattern by pattern
    as greedy matchers; functions keep the names they have in the source.
    What the program asks of the outside world (the file system, the OCR
    and text-extraction tools) is a record of answers, [world], so that
    [main] is a function from a world to an outcome.

    The file has three parts: the embedding, the vocabulary in which the
    properties are stated, and the properties with their proofs. *)

From Stdlib Require Import String Ascii List ZArith NArith Bool Lia.
From Stdlib Require Import Floats.SpecFloat DecimalString.
Import ListNotations.
Open Scope string_scope.
Open Scope bool_scope.

(** ** Python [str] builtins *)

Module PyStr.

Definition ord (c : ascii) : N := N_of_ascii c.
Definition chr (n : N) : ascii := ascii_of_N n.

Definition between (lo hi : N) (c : ascii) : bool :=
  ((lo <=? ord c) && (ord c <=? hi))%N.

(** [\d] and [str.isdigit] on ASCII. *)
Definition isdigit (c : ascii) : bool := between 48 57 c.
Definition isupper (c : ascii) : bool := between 65 90 c.
Definition islower (c : ascii) : bool := between 97 122 c.
(** [[A-Za-z]] *)
Definition isalpha (c : ascii) : bool := isupper c || islower c.
(** [\w]: letters, digits and the underscore. *)
Definition isword (c : ascii) : bool :=
  isalpha c || isdigit c || Ascii.eqb c "_".
(** [str.isspace] and [\s]: TAB, LF, VT, FF, CR, FS, GS, RS, US and space. *)
Definition isspace (c : ascii) : bool := between 9 13 c || between 28 32 c.

(** [str.upper] and [str.lower] on ASCII: the letters of [a-z] and [A-Z]
    change, every other character stays. *)
Definition upper_char (c : ascii) : ascii :=
  if islower c then chr (ord c - 32) else c.
Definition lower_char (c : ascii) : ascii :=
  if isupper c then chr (ord c + 32) else c.

Fixpoint map_chars (f : ascii -> ascii) (s : string) : string :=
  match s with
  | EmptyString => EmptyString
  | String c s' => String (f c) (map_chars f s')
  end.

Definition upper (s : string) : string := map_chars upper_char s.
Definition lower (s : string) : string := map_chars lower_char s.

Fixpoint any_char (p : ascii -> bool) (s : string) : bool :=
  match s with
  | EmptyString => false
  | String c s' => p c || any_char p s'
  end.

Fixpoint all_chars (p : ascii -> bool) (s : string) : bool :=
  match s with
  | EmptyString => true
  | String c s' => p c && all_chars p s'
  end.

(** Membership of a character in the argument of [str.strip(chars)]. *)
Definition in_chars (set : string) (c : ascii) : bool :=
  any_char (Ascii.eqb c) set.

Fixpoint lstrip_chars (p : ascii -> bool) (s : string) : string :=
  match s with
  | EmptyString => EmptyString
  | String c s' => if p c then lstrip_chars p s' else s
  end.

Fixpoint rstrip_chars (p : ascii -> bool) (s : string) : string :=
  match s with
  | EmptyString => EmptyString
  | String c s' =>
      match rstrip_chars p s' with
      | EmptyString => if p c then EmptyString else String c EmptyString
      | r => String c r
      end
  end.

Definition strip_chars (p : ascii -> bool) (s : string) : string :=
  rstrip_chars p (lstrip_chars p s).

(** [s.strip()], [s.rstrip()] *)
Definition strip (s : string) : string := strip_chars isspace s.
Definition rstrip (s : string) : string := rstrip_chars isspace s.

(** [sub in s] *)
Fixpoint contains (sub s : string) : bool :=
  match s with
  | EmptyString => prefix sub s
  | String _ s' => prefix sub s || contains sub s'
  end.

(** [s.endswith(suf)] *)
Fixpoint endswith (s suf : string) : bool :=
  String.eqb s suf
  || match s with
     | EmptyString => false
     | String _ s' => endswith s' suf
     end.

(** [s[:-n]] for [n > 0] *)
Definition drop_last (n : nat) (s : string) : string :=
  substring 0 (String.length s - n) s.

(** [s.replace(old, new)] for a non-empty [old]: occurrences are replaced
    left to right without overlap; [skip] counts the characters of the
    occurrence just replaced that are still to be passed over. *)
Fixpoint replace_from (old new : string) (skip : nat) (s : string) : string :=
  match s with
  | EmptyString => EmptyString
  | String c s' =>
      match skip with
      | S k => replace_from old new k s'
      | O =>
          if prefix old s
          then new ++ replace_from old new (String.length old - 1) s'
          else String c (replace_from old new 0 s')
      end
  end.

Definition replace (old new s : string) : string := replace_from old new 0 s.

(** [s.split(sep)] for a one-character separator: never the empty list. *)
Fixpoint split (sep : ascii) (s : string) : list string :=
  match s with
  | EmptyString => [EmptyString]
  | String c s' =>
      let l := split sep s' in
      if Ascii.eqb c sep then EmptyString :: l
      else match l with
           | h :: t => String c h :: t
           | [] => [String c EmptyString]
           end
  end.

(** Line boundaries of [str.splitlines] on ASCII text: LF, VT, FF, CR, FS,
    GS, RS; CR LF counts once. *)
Definition islinebreak (c : ascii) : bool := between 10 13 c || between 28 30 c.

Fixpoint splitlines (s : string) : list string :=
  match s with
  | EmptyString => []
  | String c s' =>
      if Ascii.eqb c "013"
      then match s' with
           | String c' s'' =>
               if Ascii.eqb c' "010" then EmptyString :: splitlines s''
               else EmptyString :: splitlines s'
           | EmptyString => EmptyString :: splitlines s'
           end
      else if islinebreak c then EmptyString :: splitlines s'
      else match splitlines s' with
           | h :: t => String c h :: t
           | [] => [String c EmptyString]
           end
  end.

(** [sep.join(l)] *)
Fixpoint join (sep : string) (l : list string) : string :=
  match l with
  | [] => EmptyString
  | [x] => x
  | x :: t => x ++ sep ++ join sep t
  end.

(** [re.sub(r"\s+", " ", s)]: every maximal whitespace run becomes one
    space. *)
Fixpoint collapse_ws (s : string) : string :=
  match s with
  | EmptyString => EmptyString
  | String c s' =>
      if isspace c
      then match s' with
           | String c' _ => if isspace c' then collapse_ws s'
                            else String " " (collapse_ws s')
           | EmptyString => String " " EmptyString
           end
      else String c (collapse_ws s')
  end.

End PyStr.
Import PyStr.

(** ** Regular-expression pieces

    The patterns of the source are matched greedily and none of them needs
    backtracking on its subject: every quantified class is followed by a
    literal or class disjoint from it, so the first greedy attempt decides. *)

Module Re.

(** A literal at the start of the subject; the rest after it. *)
Fixpoint eat_lit (lit s : string) : option string :=
  match lit with
  | EmptyString => Some s
  | String a lit' =>
      match s with
      | String c s' => if Ascii.eqb a c then eat_lit lit' s' else None
      | EmptyString => None
      end
  end.

(** [\s*] *)
Definition eat_ws (s : string) : string := lstrip_chars isspace s.

(** [\d{n}]: exactly [n] digits, returned with the rest. *)
Fixpoint take_digits (n : nat) (s : string) : option (string * string) :=
  match n with
  | O => Some (EmptyString, s)
  | S k =>
      match s with
      | String c s' =>
          if isdigit c
          then match take_digits k s' with
               | Some (d, r) => Some (String c d, r)
               | None => None
               end
          else None
      | EmptyString => None
      end
  end.

(** [re.sub(pat, repl, s)] for a pattern that never matches the empty
    string.  [m prev_is_word s] tries the pattern at the start of [s] and
    returns the replacement text and the rest of the subject; [skip] counts
    the characters of the current match still to be passed over. *)
Fixpoint sub_from (m : bool -> string -> option (string * string))
  (prev_word : bool) (skip : nat) (s : string) : string :=
  match s with
  | EmptyString => EmptyString
  | String c s' =>
      match skip with
      | S k => sub_from m (isword c) k s'
      | O =>
          match m prev_word s with
          | Some (repl, rest) =>
              repl
                ++ sub_from m (isword c)
                     (String.length s - String.length rest - 1) s'
          | None => String c (sub_from m (isword c) 0 s')
          end
      end
  end.

Definition sub (m : bool -> string -> option (string * string)) (s : string)
  : string := sub_from m false 0 s.

End Re.
Import Re.

(** ** Category normalization *)

Definition _CATEGORY_CANON : list (string * string) :=
  [ ("ACCESS BONUS PAYMENT", "ACCESS BONUS PAYMENT");
    ("LTC ACCESS BONUS PAYMENT", "LTC ACCESS BONUS PAYMENT");
    ("GROUP MANAGEMENT LEADERSHIP PAYMENT", "GROUP MANAGEMENT LEADERSHIP PAYMENT");
    ("OFFICE PRACTICE ADMINISTRATION PAYMENT", "OFFICE PRACTICE ADMINISTRATION PAYMENT");
    ("HCP RELATIVITY PAYMENT", "HCP RELATIVITY PAYMENT");
    ("RMB RELATIVITY PAYMENT", "RMB RELATIVITY PAYMENT");
    ("WSIB RELATIVITY PAYMENT", "WSIB RELATIVITY PAYMENT");
    ("YEAR 1 (2024-2025) COMPENSATION INCREASE", "YEAR 1 (2024-2025) COMPENSATION INCREASE");
    ("NETWORK BASE RATE PAYMENT", "NETWORK BASE RATE PAYMENT");
    ("BASE RATE PAYMENT RECONCILIATION ADJMT", "BASE RATE PAYMENT RECONCILIATION ADJMT");
    ("BASE RATE ACUITY PAYMENT", "BASE RATE ACUITY PAYMENT");
    ("BASE RATE ACUITY ADJUSTMENT", "BASE RATE ACUITY ADJUSTMENT");
    ("COMP CARE CAPITATION", "COMP CARE CAPITATION");
    ("COMP CARE RECONCILIATION", "COMP CARE RECONCILIATION");
    ("BLENDED FEE-FOR-SERVICE PREMIUM", "BLENDED FEE-FOR-SERVICE PREMIUM");
    ("BLENDED FEE FOR SERVICE PREMIUM", "BLENDED FEE-FOR-SERVICE PREMIUM");
    ("PREVENTIVE CARE BONUS", "PREVENTIVE CARE BONUS");
    ("TOTAL CLAIMS PAYABLE", "TOTAL CLAIMS PAYABLE");
    ("AGE PREMIUM PAYMENT", "AGE PREMIUM PAYMENT");
    ("SPECIAL PREMIUM PAYMENT", "SPECIAL PREMIUM PAYMENT") ].

(** [d.get(k)] on a dict literal with distinct keys. *)
Fixpoint dict_get (d : list (string * string)) (k : string) : option string :=
  match d with
  | [] => None
  | (k', v) :: d' => if String.eqb k k' then Some v else dict_get d' k
  end.

Definition _normalize_spaces (s : string) : string := strip (collapse_ws s).

(** The pattern
    [\bYEAR\s*(\d)\s*\((\d{4}-\d{4})\)\s*COMPENSATION\s*INCREASE]
    tried at the start of [s], with its replacement
    [YEAR \1 (\2) COMPENSATION INCREASE]. *)
Definition year_line_match (prev_word : bool) (s : string)
  : option (string * string) :=
  if prev_word then None else
  match eat_lit "YEAR" s with
  | None => None
  | Some r1 =>
  match take_digits 1 (eat_ws r1) with
  | None => None
  | Some (g1, r2) =>
  match eat_lit "(" (eat_ws r2) with
  | None => None
  | Some r3 =>
  match take_digits 4 r3 with
  | None => None
  | Some (y1, r4) =>
  match eat_lit "-" r4 with
  | None => None
  | Some r5 =>
  match take_digits 4 r5 with
  | None => None
  | Some (y2, r6) =>
  match eat_lit ")" r6 with
  | None => None
  | Some r7 =>
  match eat_lit "COMPENSATION" (eat_ws r7) with
  | None => None
  | Some r8 =>
  match eat_lit "INCREASE" (eat_ws r8) with
  | None => None
  | Some r9 =>
      Some ("YEAR " ++ g1 ++ " (" ++ y1 ++ "-" ++ y2
              ++ ") COMPENSATION INCREASE", r9)
  end end end end end end end end end.

(** The label after the rewriting steps of [normalize_category], before the
    table lookup. *)
Definition category_key (cat_raw : string) : string :=
  let cat := upper cat_raw in
  let cat := replace "  " " " cat in
  let cat := sub year_line_match cat in
  let cat := strip_chars (in_chars " :-") cat in
  let cat := replace "FEE - FOR - SERVICE" "FEE FOR SERVICE" cat in
  let cat := replace "FEE-FOR-SERVICE" "FEE-FOR-SERVICE" cat in
  _normalize_spaces cat.

Definition normalize_category (cat_raw : string) : string :=
  let cat := category_key cat_raw in
  match dict_get _CATEGORY_CANON cat with
  | Some v => v
  | None =>
      let relaxed := replace "-" " " cat in
      match dict_get _CATEGORY_CANON relaxed with
      | Some v => v
      | None => strip cat_raw
      end
  end.

(** ** Python [float]: binary64 *)

Module PyFloat.

Definition pyfloat : Type := spec_float.

Definition prec : Z := 53.
Definition emax : Z := 1024.

Definition fzero : pyfloat := S754_zero false.

(** [x + y] *)
Definition fadd (x y : pyfloat) : pyfloat := SFadd prec emax x y.

(** The double nearest to [(-1)^neg * m / 10^k] (ties to even). *)
Definition of_decimal (neg : bool) (m : N) (k : nat) : pyfloat :=
  match m with
  | N0 => S754_zero neg
  | Npos p =>
      SFdiv prec emax (S754_finite neg p 0)
        (S754_finite false (Z.to_pos (Z.pow 10 (Z.of_nat k))) 0)
  end.

Definition digit_value (c : ascii) : N := (ord c - 48)%N.

Fixpoint digits_value (acc : N) (s : string) : N :=
  match s with
  | EmptyString => acc
  | String c s' => digits_value (10 * acc + digit_value c)%N s'
  end.

Fixpoint span_digits (s : string) : string * string :=
  match s with
  | String c s' =>
      if isdigit c
      then let (d, r) := span_digits s' in (String c d, r)
      else (EmptyString, s)
  | EmptyString => (EmptyString, EmptyString)
  end.

(** [float(s)] on a string made of ASCII digits, ['.'] and ['-'], which
    is all the call sites of the source pass on ASCII text: [None] stands
    for [ValueError].  Accepted are [-?D+], [-?D+.D*] and [-?.D+]. *)
Definition float_of_string (s : string) : option pyfloat :=
  let (neg, body) :=
    match s with
    | String c r => if Ascii.eqb c "-" then (true, r) else (false, s)
    | EmptyString => (false, s)
    end in
  let (ip, r1) := span_digits body in
  let (fp, r2) :=
    match r1 with
    | String c r => if Ascii.eqb c "." then span_digits r
                    else (EmptyString, r1)
    | EmptyString => (EmptyString, r1)
    end in
  match r2 with
  | EmptyString =>
      if (String.length ip + String.length fp =? 0)%nat then None
      else Some (of_decimal neg (digits_value 0 (ip ++ fp)) (String.length fp))
  | _ => None
  end.

(** [round(m * 2^e * 100)] to the nearest integer, ties to even: the
    hundredths that the format specifier [.2f] prints. *)
Definition hundredths (m : positive) (e : Z) : N :=
  let num := (Z.pos m * 100)%Z in
  match e with
  | Zneg pe =>
      let den := Z.pow 2 (Z.pos pe) in
      let q := (num / den)%Z in
      let r := (num mod den)%Z in
      let up := match (2 * r ?= den)%Z with
                | Lt => false
                | Gt => true
                | Eq => Z.odd q
                end in
      Z.to_N (if up then q + 1 else q)
  | _ => Z.to_N (num * Z.pow 2 e)
  end.

Definition decimal_digits (n : N) : string :=
  NilZero.string_of_uint (N.to_uint n).

(** Thousands separators of the [,] format option. *)
Fixpoint group_thousands (s : string) : string :=
  match s with
  | EmptyString => EmptyString
  | String c s' =>
      String c
        (match s' with
         | EmptyString => EmptyString
         | _ => if (Nat.modulo (String.length s') 3 =? 0)%nat
                then String "," (group_thousands s')
                else group_thousands s'
         end)
  end.

Definition two_digits (n : N) : string :=
  if (n <? 10)%N then "0" ++ decimal_digits n else decimal_digits n.

Definition format_fixed2 (grouping : bool) (x : pyfloat) : string :=
  match x with
  | S754_zero s => (if s then "-" else "") ++ "0.00"
  | S754_infinity s => if s then "-inf" else "inf"
  | S754_nan => "nan"
  | S754_finite s m e =>
      let h := hundredths m e in
      let ip := decimal_digits (h / 100) in
      (if s then "-" else "")
        ++ (if grouping then group_thousands ip else ip)
        ++ "." ++ two_digits (h mod 100)
  end.

(** [f"{x:.2f}"] and [f"{x:,.2f}"] *)
Definition format_2f (x : pyfloat) : string := format_fixed2 false x.
Definition format_c2f (x : pyfloat) : string := format_fixed2 true x.

End PyFloat.
Import PyFloat.

(** ** The line-to-record heuristic *)

(** [_NUM_RE = (-?\d{1,3}(?:,\d{3})*(?:\.\d{2})?)] *)
Module _NUM_RE.

(** [\d{1,3}], greedy *)
Definition lead_digits (s : string) : option (string * string) :=
  match s with
  | String a r1 =>
      if isdigit a then
        match r1 with
        | String b r2 =>
            if isdigit b then
              match r2 with
              | String c r3 =>
                  if isdigit c
                  then Some (String a (String b (String c EmptyString)), r3)
                  else Some (String a (String b EmptyString), r2)
              | EmptyString => Some (String a (String b EmptyString), r2)
              end
            else Some (String a EmptyString, r1)
        | EmptyString => Some (String a EmptyString, r1)
        end
      else None
  | EmptyString => None
  end.

(** [(?:,\d{3})*], greedy *)
Fixpoint comma_groups (s : string) : string * string :=
  match s with
  | String p (String a (String b (String c r))) =>
      if Ascii.eqb p "," && isdigit a && isdigit b && isdigit c
      then let (g, r') := comma_groups r in
           (String p (String a (String b (String c g))), r')
      else (EmptyString, s)
  | _ => (EmptyString, s)
  end.

(** [(?:\.\d{2})?] *)
Definition fraction (s : string) : string * string :=
  match s with
  | String p (String a (String b r)) =>
      if Ascii.eqb p "." && isdigit a && isdigit b
      then (String p (String a (String b EmptyString)), r)
      else (EmptyString, s)
  | _ => (EmptyString, s)
  end.

Definition unsigned_match (s : string) : option (string * string) :=
  match lead_digits s with
  | None => None
  | Some (d, r1) =>
      let (g, r2) := comma_groups r1 in
      let (f, r3) := fraction r2 in
      Some (d ++ g ++ f, r3)
  end.

(** The pattern tried at the start of [s]: the token and the rest. *)
Definition match_at (s : string) : option (string * string) :=
  match s with
  | String c r =>
      if Ascii.eqb c "-"
      then match unsigned_match r with
           | Some (t, r') => Some (String c t, r')
           | None => None
           end
      else unsigned_match s
  | EmptyString => None
  end.

Fixpoint findall_from (skip : nat) (s : string) : list string :=
  match s with
  | EmptyString => []
  | String _ s' =>
      match skip with
      | S k => findall_from k s'
      | O =>
          match match_at s with
          | Some (tok, _) => tok :: findall_from (String.length tok - 1) s'
          | None => findall_from 0 s'
          end
      end
  end.

(** [_NUM_RE.findall(s)] *)
Definition findall (s : string) : list string := findall_from 0 s.

(** The matches with their start offsets, as [_NUM_RE.finditer(s)] gives
    them through [m.start()] and [m.group()]. *)
Fixpoint finditer_from (pos skip : nat) (s : string) : list (nat * string) :=
  match s with
  | EmptyString => []
  | String _ s' =>
      match skip with
      | S k => finditer_from (S pos) k s'
      | O =>
          match match_at s with
          | Some (tok, _) =>
              (pos, tok) :: finditer_from (S pos) (String.length tok - 1) s'
          | None => finditer_from (S pos) 0 s'
          end
      end
  end.

Definition finditer (s : string) : list (nat * string) := finditer_from 0 0 s.

End _NUM_RE.

(** The text before the last occurrence of [sep] in [s], if [sep] occurs. *)
Fixpoint before_last (sep s : string) : option string :=
  match s with
  | EmptyString => None
  | String c s' =>
      match before_last sep s' with
      | Some h => Some (String c h)
      | None => if prefix sep s then Some EmptyString else None
      end
  end.

(** [s.rsplit(sep, 1)[0]] for a non-empty [sep] *)
Definition rsplit1_head (sep s : string) : string :=
  match before_last sep s with
  | Some h => h
  | None => s
  end.

Definition record : Type := option string * option pyfloat * option pyfloat.

Definition no_record : record := (None, None, None).

(** The source strips the head of the characters [':'], ['-'], en dash, em
    dash and space; the two dashes other than ['-'] are not ASCII, which
    leaves [":- "]. *)
Definition line_to_category_and_numbers (line : string) : record :=
  let line := strip line in
  match line with
  | EmptyString => no_record
  | _ =>
      match rev (_NUM_RE.findall line) with
      | last :: prev :: _ =>
          match float_of_string (replace "," "" prev),
                float_of_string (replace "," "" last) with
          | Some cur_val, Some ytd_val =>
              let tail := prev ++ " " ++ last in
              let head :=
                if endswith line tail
                then rstrip (drop_last (String.length tail) line)
                else
                  let tmp := rstrip (rsplit1_head last line) in
                  rstrip (rsplit1_head prev tmp) in
              if negb (any_char isalpha head) then no_record
              else
                let head := strip_chars (in_chars ":- ") (collapse_ws head) in
                let canon := normalize_category head in
                (Some canon, Some cur_val, Some ytd_val)
          | _, _ => no_record
          end
      | _ => no_record
      end
  end.

(** A category row: [(category, current_month, year_to_date)]. *)
Definition row : Type := string * pyfloat * pyfloat.

Definition row_cat (r : row) : string := fst (fst r).
Definition row_cur (r : row) : pyfloat := snd (fst r).
Definition row_ytd (r : row) : pyfloat := snd r.

(** [any(k in text for k in keys)] *)
Definition any_in (keys : list string) (text : string) : bool :=
  existsb (fun k => contains k text) keys.

(** The records of the lines of a page that parse, in order: the loops
    of the source skip a line when its category is [None].  The three
    components of a record are present together or not at all. *)
Fixpoint rows_of_lines (lines : list string) : list row :=
  match lines with
  | [] => []
  | raw :: rest =>
      match line_to_category_and_numbers raw with
      | (Some cat, Some cur, Some ytd) => (cat, cur, ytd) :: rows_of_lines rest
      | _ => rows_of_lines rest
      end
  end.

(** [d[k] = v] on an insertion-ordered dict. *)
Fixpoint dict_set {V : Type} (d : list (string * V)) (k : string) (v : V)
  : list (string * V) :=
  match d with
  | [] => [(k, v)]
  | (k', v') :: d' =>
      if String.eqb k k' then (k', v) :: d' else (k', v') :: dict_set d' k v
  end.

Definition group_noise_keys : list string :=
  ["REPORT:"; "GROUP #"; "RUN DATE"; "PAGE:"; "BROOKLIN MEDICAL CENTRE";
   "OHIP PAYMENT SUMMARY"].

Definition parse_group_categories (pages : list string) : list row :=
  let categories :=
    fold_left
      (fun d page =>
         fold_left
           (fun d r =>
              if any_in group_noise_keys (upper (row_cat r)) then d
              else dict_set d (row_cat r) (row_cur r, row_ytd r))
           (rows_of_lines (splitlines page)) d)
      (firstn 2 pages) [] in
  map (fun kv => (fst kv, fst (snd kv), snd (snd kv))) categories.

(** ** Provider names *)

(** [$]: the end of the subject, or just before a final newline. *)
Definition at_end (s : string) : bool :=
  match s with
  | EmptyString => true
  | String "010" EmptyString => true
  | _ => false
  end.

Definition is_sc (c : ascii) : bool := in_chars "scSC" c.
Definition is_name_char (c : ascii) : bool :=
  isalpha c || Ascii.eqb c "-" || Ascii.eqb c "'".

(** [_ONLY_SC_RE = ^[scSC]{2,}$], with [re.match] *)
Definition _ONLY_SC_RE (tok : string) : bool :=
  let r := lstrip_chars is_sc tok in
  (2 <=? String.length tok - String.length r)%nat && at_end r.

(** [_WORD_RE = ^[A-Za-z][A-Za-z\-']*$], with [re.match] *)
Definition _WORD_RE (tok : string) : bool :=
  match tok with
  | String c r => isalpha c && at_end (lstrip_chars is_name_char r)
  | EmptyString => false
  end.

Definition _META_TOKENS : list string :=
  ["REPORT"; "RUN DATE"; "PAGE:"; "GROUP #"; "REMITTANCE"; "FOR PERIOD";
   "OHIP PAYMENT SUMMARY"].

(** [str.title] on ASCII text: a letter is upper-cased when the character
    before it is not a letter and lower-cased otherwise. *)
Fixpoint title_from (prev_cased : bool) (s : string) : string :=
  match s with
  | EmptyString => EmptyString
  | String c s' =>
      String (if isalpha c
              then if prev_cased then lower_char c else upper_char c
              else c)
        (title_from (isalpha c) s')
  end.

Definition title (s : string) : string := title_from false s.

Definition fix_case (t : string) : string :=
  if (3 <=? String.length t)%nat && String.eqb (lower (substring 0 2 t)) "mc"
  then "Mc" ++ title (substring 2 (String.length t - 2) t)
  else title t.

(** The [while] loop that pops trailing one-letter tokens, on the reversed
    token list. *)
Fixpoint drop_trailing_initials (rev_tokens : list string) : list string :=
  match rev_tokens with
  | t :: (_ :: _) as rest =>
      if (String.length t =? 1)%nat then drop_trailing_initials rest
      else rev_tokens
  | _ => rev_tokens
  end.

(** The tokens that [clean_provider_name_raw] keeps, before re-casing. *)
Definition provider_name_tokens (cand : string) : list string :=
  let clean :=
    map_chars (fun c => if is_name_char c || isspace c then c else " "%char)
      cand in
  let clean := _normalize_spaces clean in
  match clean with
  | EmptyString => []
  | _ =>
      let tokens :=
        filter (fun tok => _WORD_RE tok && negb (_ONLY_SC_RE tok))
          (split " " clean) in
      if (List.length tokens <? 2)%nat then []
      else rev (drop_trailing_initials (rev (firstn 4 tokens)))
  end.

Definition clean_provider_name_raw (cand : string) : string :=
  join " " (map fix_case (provider_name_tokens cand)).

(** [re.sub(r"[\x00-\x08\x0b-\x0c\x0e-\x1f]", " ", s)] *)
Definition control_to_space (s : string) : string :=
  map_chars
    (fun c => if between 0 8 c || between 11 12 c || between 14 31 c
              then " "%char else c) s.

Fixpoint find_index (p : string -> bool) (i : nat) (l : list string)
  : option nat :=
  match l with
  | [] => None
  | x :: t => if p x then Some i else find_index p (S i) t
  end.

Definition extract_provider_name_from_page (page_text : string) : string :=
  let lines := splitlines (control_to_space page_text) in
  let idx : Z :=
    match find_index
            (fun ln => contains "NETWORK BASE RATE PAYMENT" (upper ln)) 0 lines
    with
    | Some i => Z.of_nat i
    | None =>
        if existsb
             (fun ln => let cand := strip ln in
                        any_char isalpha cand
                        && (String.length cand <=? 60)%nat)
             (firstn 10 lines)
        then 0%Z else (-1)%Z
    end in
  let lo := Z.to_nat (Z.max 0 (idx - 6)) in
  let window := firstn (Z.to_nat idx - lo) (skipn lo lines) in
  let name :=
    fold_left
      (fun name ln =>
         match clean_provider_name_raw (strip ln) with
         | EmptyString => name
         | cleaned => Some cleaned
         end)
      window None in
  match name with
  | Some n => n
  | None => "Unknown Provider"
  end.

Definition provider_noise_keys : list string :=
  ["REPORT:"; "GROUP #"; "RUN DATE"; "PAGE:"; "BROOKLIN MEDICAL CENTRE";
   "OHIP PAYMENT SUMMARY"; "FOR PERIOD"; "REMITTANCE"].

Definition parse_provider_page (page_text : string) : string * list row :=
  (extract_provider_name_from_page page_text,
   filter (fun r => negb (any_in provider_noise_keys (upper (row_cat r))))
     (rows_of_lines (splitlines page_text))).

(** ** The text-layer decode *)

(** One character of [decode_caesar_shift]: [chr(o + shift)] when
    [low <= o <= high].  The shifted code stays below 128 for the shift and
    ranges the program uses. *)
Definition decode_char (shift low high : N) (ch : ascii) : ascii :=
  let o := ord ch in
  if ((low <=? o) && (o <=? high))%N then chr (o + shift) else ch.

Definition decode_caesar_shift_with (shift low high : N) (text : string)
  : string := map_chars (decode_char shift low high) text.

(** The defaults of the signature: [shift=29, low=33, high=94]. *)
Definition decode_caesar_shift (text : string) : string :=
  decode_caesar_shift_with 29 33 94 text.

(** ** Provider entries and the CSV writer *)

(** The dict built per provider page; a missing key reads as [None]. *)
Record provider_entry : Type := {
  p_name : string;
  p_rows : list row;
  p_total_cur : option pyfloat;
  p_total_ytd : option pyfloat;
  p_id : option string
}.

(** [sum(xs)]: the additions run left to right from [0], as a [+=] loop
    runs them.  (From Python 3.12 on the interpreter compensates the
    rounding error of the partial sums of [sum]; nothing below depends on
    how the sum is rounded, and nothing compares [sum] with a loop.) *)
Definition pysum (xs : list pyfloat) : pyfloat := fold_left fadd xs fzero.

Definition is_total_claims_row (r : row) : bool :=
  contains "TOTAL CLAIMS PAYABLE" (upper (row_cat r)).

(** The loop of [main] that looks for the explicit total row and stops at
    the first one. *)
Fixpoint find_total_row (rows : list row) : option pyfloat * option pyfloat :=
  match rows with
  | [] => (None, None)
  | r :: rest =>
      if is_total_claims_row r then (Some (row_cur r), Some (row_ytd r))
      else find_total_row rest
  end.

(** Totals as [main] computes them for one provider. *)
Definition provider_totals (rows : list row) : pyfloat * pyfloat :=
  match find_total_row rows with
  | (Some total_cur, Some total_ytd) => (total_cur, total_ytd)
  | _ => (pysum (map row_cur rows), pysum (map row_ytd rows))
  end.

(** The hybrid branch sums only a non-empty row list and takes [0.0]
    otherwise. *)
Definition provider_totals_hybrid (rows : list row) : pyfloat * pyfloat :=
  match find_total_row rows with
  | (Some total_cur, Some total_ytd) => (total_cur, total_ytd)
  | _ =>
      match rows with
      | [] => (fzero, fzero)
      | _ => (pysum (map row_cur rows), pysum (map row_ytd rows))
      end
  end.

(** [x or ""] *)
Definition or_empty (o : option string) : string :=
  match o with
  | Some x => x
  | None => EmptyString
  end.

Definition is_meta_row (r : row) : bool :=
  any_in _META_TOKENS (upper (row_cat r)).

(** A CSV file as the rows handed to [csv.writer.writerow]. *)
Definition table : Type := list (list string).

Definition provider_categories_header : list string :=
  ["provider"; "provider_id"; "category"; "current_month"; "year_to_date"].

Definition provider_totals_header : list string :=
  ["provider"; "provider_id"; "current_month_total_claims_payable";
   "ytd_total_claims_payable"].

(** The totals line of one entry in [write_provider_csvs_from_entries]. *)
Definition totals_line (p : provider_entry) : list string :=
  let (total_cur, total_ytd) :=
    match p_total_cur p, p_total_ytd p with
    | Some c, Some y => (c, y)
    | _, _ => (pysum (map row_cur (p_rows p)), pysum (map row_ytd (p_rows p)))
    end in
  [p_name p; or_empty (p_id p); format_2f total_cur; format_2f total_ytd].

Definition category_lines (p : provider_entry) : table :=
  map (fun r => [p_name p; or_empty (p_id p); row_cat r;
                 format_2f (row_cur r); format_2f (row_ytd r)])
    (filter (fun r => negb (is_meta_row r)) (p_rows p)).

(** [write_provider_csvs_from_entries]: the contents of
    [provider_categories.csv] and [provider_totals.csv]. *)
Definition write_provider_csvs_from_entries
  (provider_entries : list provider_entry) : table * table :=
  (provider_categories_header :: flat_map category_lines provider_entries,
   provider_totals_header :: map totals_line provider_entries).

(** ** The entry point *)

(** What the outside world answers to one invocation: the file system, the
    OCR and text-extraction tools, and the identifier-recovery probes of the
    hybrid mode (which run the OCR engine on page images). *)
Record world : Type := {
  input_exists : bool;
  arg_hybrid : bool;
  arg_source_poppler : bool;
  (** [read_text_from_input(...)[0]]; [None] when the call raises *)
  text_from_input : option string;
  (** the [pdftotext] output read back; [None] when the call raises *)
  text_from_poppler : option string;
  (** whether rendering the page images for the probes succeeds *)
  page_images_ok : bool;
  (** name and identifier recovered for the provider page of this index *)
  name_and_id : nat -> string * option string
}.

Record outputs : Type := {
  out_group_rows : list row;
  out_provider_entries : list provider_entry;
  out_provider_categories_csv : table;
  out_provider_totals_csv : table
}.

Inductive outcome : Type :=
| SysExit (code : Z)
| Raised
| Returned (out : outputs).

Definition export (grp_rows : list row) (provider_entries : list provider_entry)
  : outcome :=
  let (cats, tots) := write_provider_csvs_from_entries provider_entries in
  Returned {| out_group_rows := grp_rows;
              out_provider_entries := provider_entries;
              out_provider_categories_csv := cats;
              out_provider_totals_csv := tots |}.

Definition form_feed : ascii := "012".

Definition is_provider_page (page_dec : string) : bool :=
  contains "GROUP PAYMENTS TO PROVIDER" (upper (control_to_space page_dec)).

Definition hybrid_provider_indices (pages_ocr pages_dec : list string)
  : list nat :=
  let n := Nat.min (List.length pages_ocr) (List.length pages_dec) in
  match filter (fun i => is_provider_page (nth i pages_dec EmptyString))
          (seq 1 (n - 1)) with
  | [] => seq 2 (n - 2)
  | l => l
  end.

Definition hybrid_entry (w : world) (pages_ocr : list string) (i : nat)
  : provider_entry :=
  let (name, provider_id) := name_and_id w i in
  let rows := rows_of_lines (splitlines (nth i pages_ocr EmptyString)) in
  let (total_cur, total_ytd) := provider_totals_hybrid rows in
  {| p_name := name; p_rows := rows; p_total_cur := Some total_cur;
     p_total_ytd := Some total_ytd; p_id := provider_id |}.

Definition plain_entry (page : string) : provider_entry :=
  let (name, rows) := parse_provider_page page in
  let (total_cur, total_ytd) := provider_totals rows in
  {| p_name := name; p_rows := rows; p_total_cur := Some total_cur;
     p_total_ytd := Some total_ytd; p_id := None |}.

Definition main (w : world) : outcome :=
  if negb (input_exists w) then SysExit 1
  else if arg_hybrid w then
    match text_from_input w with
    | None => Raised
    | Some ocr_text =>
    match text_from_poppler w with
    | None => Raised
    | Some raw_dec =>
        let decoded_text := decode_caesar_shift_with 29 19 94 raw_dec in
        let pages_ocr := split form_feed ocr_text in
        let pages_dec := split form_feed decoded_text in
        match pages_ocr, pages_dec with
        | [], _ | _, [] => SysExit 2
        | _, _ =>
            let grp_rows := parse_group_categories pages_ocr in
            let provider_indices :=
              hybrid_provider_indices pages_ocr pages_dec in
            if page_images_ok w
            then export grp_rows
                   (map (hybrid_entry w pages_ocr) provider_indices)
            else Raised
        end
    end end
  else
    match (if arg_source_poppler w
           then option_map (decode_caesar_shift_with 29 19 94)
                  (text_from_poppler w)
           else text_from_input w) with
    | None => Raised
    | Some text =>
        let pages := split form_feed text in
        match pages with
        | [] => SysExit 2
        | _ =>
            let grp_rows := parse_group_categories pages in
            export grp_rows (map plain_entry (skipn 2 pages))
        end
    end.

Definition plain_world (exists_ : bool) (text : string) : world :=
  {| input_exists := exists_; arg_hybrid := false;
     arg_source_poppler := false; text_from_input := Some text;
     text_from_poppler := None; page_images_ok := false;
     name_and_id := fun _ => (EmptyString, None) |}.

(** ** Group sections of the decoded text *)

Definition remove_chars (p : ascii -> bool) (s : string) : string :=
  String.concat EmptyString
    (map (fun c => String c EmptyString)
       (filter (fun c => negb (p c)) (list_ascii_of_string s))).

(** [(?:\s\d{3})*], greedy: the matched text and the rest. *)
Fixpoint spaced_groups (s : string) : string * string :=
  match s with
  | String w (String a (String b (String c r))) =>
      if isspace w && isdigit a && isdigit b && isdigit c
      then let (g, r') := spaced_groups r in
           (String w (String a (String b (String c g))), r')
      else (EmptyString, s)
  | _ => (EmptyString, s)
  end.

Definition split_sign (s : string) : string * string :=
  match s with
  | String "-" r => ("-", r)
  | _ => (EmptyString, s)
  end.

(** [re.fullmatch(r"(-?\d+(?:\s\d{3})+)\s(\d{2})", s)]: groups 1 and 2. *)
Definition fullmatch_grouped (s : string) : option (string * string) :=
  let (sign, r0) := split_sign s in
  let (d, r1) := span_digits r0 in
  match d with
  | EmptyString => None
  | _ =>
      let (g, r2) := spaced_groups r1 in
      match g, r2 with
      | String _ _, String w (String a (String b EmptyString)) =>
          if isspace w && isdigit a && isdigit b
          then Some (sign ++ d ++ g, String a (String b EmptyString))
          else None
      | _, _ => None
      end
  end.

(** [re.fullmatch(r"(-?\d+)\s+(\d{2})", s)]: groups 1 and 2. *)
Definition fullmatch_spaced (s : string) : option (string * string) :=
  let (sign, r0) := split_sign s in
  let (d, r1) := span_digits r0 in
  match d, r1 with
  | String _ _, String w r2 =>
      if isspace w then
        match eat_ws r2 with
        | String a (String b EmptyString) =>
            if isdigit a && isdigit b
            then Some (sign ++ d, String a (String b EmptyString))
            else None
        | _ => None
        end
      else None
  | _, _ => None
  end.

Definition is_num_char (c : ascii) : bool :=
  isdigit c || Ascii.eqb c "." || Ascii.eqb c "-".

Definition _decoded_num_to_float (token : string) : option pyfloat :=
  match token with
  | EmptyString => None
  | _ =>
      let orig :=
        replace (String "016" EmptyString) "-"
          (replace (String "017" EmptyString) "."
             (replace (String "015" EmptyString) "," token)) in
      let orig_trim := strip orig in
      let general :=
        let s := replace " " "" (replace "," "" orig) in
        let s := remove_chars (fun c => negb (is_num_char c)) s in
        if String.eqb s "" || String.eqb s "-" || String.eqb s "."
           || String.eqb s "-."
        then None
        else float_of_string s in
      if contains "." orig_trim then general
      else
        match
          match fullmatch_grouped orig_trim with
          | Some (g1, g2) =>
              float_of_string (remove_chars isspace g1 ++ "." ++ g2)
          | None => None
          end
        with
        | Some v => Some v
        | None =>
            match
              match fullmatch_spaced orig_trim with
              | Some (g1, g2) => float_of_string (g1 ++ "." ++ g2)
              | None => None
              end
            with
            | Some v => Some v
            | None => general
            end
        end
  end.

(** A yielded tuple: [(payment_type, label, current, year_to_date)]. *)
Definition section_row : Type := string * string * pyfloat * pyfloat.

Definition section_label (r : section_row) : string := snd (fst (fst r)).

(** The loop variables [payment_type] and [expect_matrix]. *)
Definition section_state : Type := option string * bool.

Definition last_two (l : list string) : option (string * string) :=
  match rev l with
  | z :: y :: _ => Some (y, z)
  | _ => None
  end.

(** One iteration of the inner loop: the new state and the tuple yielded,
    if any. *)
Definition section_step (st : section_state) (raw : string)
  : section_state * option section_row :=
  let (payment_type, expect_matrix) := st in
  let up := upper raw in
  if contains "GROUP PAYMENTS TO PROVIDER" up then ((None, false), None)
  else if contains "GROUP PAYMENTS ALL PROVIDERS" up
  then ((Some "GROUP PAYMENTS ALL PROVIDERS", false), None)
  else if contains "SUMMARY" up && contains "ALL PROVIDERS" up
  then ((Some "SUMMARY ALL PROVIDERS", false), None)
  else
    let has_matrix_header :=
      contains "CURRENT MONTH" up && contains "YEAR TO DATE" up in
    if contains "GROUP PAYMENTS" up && negb (contains "EXCEPTION" up)
    then ((Some "GROUP PAYMENTS", has_matrix_header || expect_matrix), None)
    else if contains "EXCEPTION PAYMENTS" up
    then ((Some "EXCEPTION PAYMENTS", has_matrix_header || expect_matrix), None)
    else
      match payment_type with
      | None => (st, None)
      | Some ptype =>
          if has_matrix_header then ((payment_type, true), None)
          else if negb expect_matrix then (st, None)
          else if negb (contains "=" raw) then (st, None)
          else
            let parts := map strip (split "=" raw) in
            if (List.length parts <? 3)%nat then (st, None)
            else
              let label := normalize_category (hd EmptyString parts) in
              if contains "TOTAL" (upper label) then (st, None)
              else
                match last_two parts with
                | Some (c, y) =>
                    match _decoded_num_to_float c, _decoded_num_to_float y with
                    | Some cur, Some ytd => (st, Some (ptype, label, cur, ytd))
                    | _, _ => (st, None)
                    end
                | None => (st, None)
                end
      end.

Fixpoint section_lines (st : section_state) (lines : list string)
  : section_state * list section_row :=
  match lines with
  | [] => (st, [])
  | raw :: rest =>
      let (st1, y) := section_step st raw in
      let (st2, ys) := section_lines st1 rest in
      (st2, match y with Some r => r :: ys | None => ys end)
  end.

Fixpoint section_pages (st : section_state) (pages : list string)
  : list section_row :=
  match pages with
  | [] => []
  | pg :: rest =>
      let (st1, ys) :=
        section_lines st (map control_to_space (splitlines pg)) in
      ys ++ section_pages st1 rest
  end.

(** The tuples the generator yields, in order. *)
Definition _iter_group_sections_from_decoded (pages_dec : list string)
  : list section_row := section_pages (None, false) pages_dec.

(** ** The readable export *)

Record metadata : Type := {
  period_from : option string;
  period_to : option string;
  remittance_advice : option string;
  run_date : option string;
  group_name : option string;
  payment_to : option string;
  group_no : option string
}.

(** Truth value of [meta.get(key)] *)
Definition truthy (o : option string) : bool :=
  match o with
  | Some (String _ _) => true
  | _ => false
  end.

Definition newline : string := String "010" EmptyString.

(** The line [- {cat}: {cur:,.2f}; {ytd:,.2f}] after [indent]. *)
Definition row_line (indent : string) (r : row) : string :=
  indent ++ "- " ++ row_cat r ++ ": " ++ format_c2f (row_cur r) ++ "; "
    ++ format_c2f (row_ytd r).

Definition id_suffix (p : provider_entry) : string :=
  if truthy (p_id p) then " (ID: " ++ or_empty (p_id p) ++ ")"
  else EmptyString.

(** The index line of an entry; [None] when a total is missing, where the
    format raises. *)
Definition index_line (p : provider_entry) : option string :=
  match p_total_cur p, p_total_ytd p with
  | Some c, Some y =>
      Some ("- " ++ p_name p ++ id_suffix p ++ ": " ++ format_c2f c ++ "; "
              ++ format_c2f y)
  | _, _ => None
  end.

Fixpoint index_lines (ps : list provider_entry) : option (list string) :=
  match ps with
  | [] => Some []
  | p :: rest =>
      match index_line p, index_lines rest with
      | Some l, Some ls => Some (l :: ls)
      | _, _ => None
      end
  end.

Definition detail_lines (p : provider_entry) : list string :=
  ("Provider: " ++ p_name p ++ id_suffix p)
    :: List.app
         (map (row_line "  ")
            (filter (fun r => negb (is_meta_row r)) (p_rows p)))
         [EmptyString].

(** [lines.append(x)] under a condition *)
Definition when (b : bool) (x : string) : list string :=
  if b then [x] else [].

Definition group_bits (meta : metadata) : list string :=
  List.concat
    [ when (truthy (group_name meta)) (or_empty (group_name meta));
      when (truthy (group_no meta)) ("#" ++ or_empty (group_no meta));
      when (truthy (payment_to meta))
        ("(Payment to: " ++ or_empty (payment_to meta) ++ ")") ].

Definition header_lines (meta : metadata) : list string :=
  List.concat
    [ ["OHIP Payment Summary"];
      when (truthy (period_from meta) && truthy (period_to meta))
        ("Period: " ++ or_empty (period_from meta) ++ " to "
           ++ or_empty (period_to meta));
      when (truthy (remittance_advice meta))
        ("Remittance Advice: " ++ or_empty (remittance_advice meta));
      when (truthy (run_date meta))
        ("Run Date: " ++ or_empty (run_date meta));
      when (truthy (group_name meta) || truthy (group_no meta)
            || truthy (payment_to meta))
        ("Group: " ++ join " " (group_bits meta)) ].

(** The list [lines] of [build_text], given the index lines. *)
Definition readable_lines (meta : metadata) (group_rows : list row)
  (index : list string) (provider_entries : list provider_entry)
  : list string :=
  List.concat
    [ header_lines meta;
      [EmptyString; "Group Summary (Current Month; Year to Date):"];
      map (row_line EmptyString) group_rows;
      [EmptyString; "Providers Index (TOTAL CLAIMS PAYABLE):"];
      index;
      [EmptyString; "Provider Details:"];
      flat_map detail_lines provider_entries ].

(** [build_text] of [write_combined_readable_text]: the contents of
    [combined_readable.txt]. *)
Definition build_text (meta : metadata) (group_rows : list row)
  (provider_entries : list provider_entry) : option string :=
  match index_lines provider_entries with
  | None => None
  | Some index =>
      Some (strip (join newline
                     (readable_lines meta group_rows index provider_entries))
              ++ newline)
  end.

(** Re-reading a text with the line-to-record heuristic. *)
Definition reextract (text : string) : list row :=
  rows_of_lines (splitlines text).

Definition no_metadata : metadata :=
  {| period_from := None; period_to := None; remittance_advice := None;
     run_date := None; group_name := None; payment_to := None;
     group_no := None |}.

(** ** Names for matching *)

(** [re.sub(r"[...]+", " ", s)] for a character class [p]: every maximal
    run of characters of the class becomes one space. *)
Fixpoint collapse_runs (p : ascii -> bool) (s : string) : string :=
  match s with
  | EmptyString => EmptyString
  | String c s' =>
      if p c
      then match s' with
           | String c' _ => if p c' then collapse_runs p s'
                            else String " " (collapse_runs p s')
           | EmptyString => String " " EmptyString
           end
      else String c (collapse_runs p s')
  end.

Definition _canon_name_for_match (name : string) : string :=
  let name := upper name in
  let name := collapse_runs (fun c => negb (isupper c)) name in
  strip (collapse_ws name).

(** ** The page-based provider CSV writer *)

(** The loop variables [total_cur], [total_ytd], [sum_cur], [sum_ytd] of
    [write_provider_csvs]. *)
Definition totals_state : Type :=
  option pyfloat * option pyfloat * pyfloat * pyfloat.

Definition totals_step (st : totals_state) (r : row) : totals_state :=
  let '(total_cur, total_ytd, sum_cur, sum_ytd) := st in
  let sum_cur := fadd sum_cur (row_cur r) in
  let sum_ytd := fadd sum_ytd (row_ytd r) in
  if is_total_claims_row r
  then (Some (row_cur r), Some (row_ytd r), sum_cur, sum_ytd)
  else (total_cur, total_ytd, sum_cur, sum_ytd).

(** The totals of one page as [write_provider_csvs] computes them. *)
Definition page_totals (rows : list row) : pyfloat * pyfloat :=
  let '(total_cur, total_ytd, sum_cur, sum_ytd) :=
    fold_left totals_step rows (None, None, fzero, fzero) in
  match total_cur, total_ytd with
  | Some c, Some y => (c, y)
  | _, _ => (sum_cur, sum_ytd)
  end.

Definition page_category_lines (page : string) : table :=
  let (provider, rows) := parse_provider_page page in
  map (fun r => [provider; row_cat r; format_2f (row_cur r);
                 format_2f (row_ytd r)]) rows.

Definition page_totals_line (page : string) : list string :=
  let (provider, rows) := parse_provider_page page in
  let (total_cur, total_ytd) := page_totals rows in
  [provider; format_2f total_cur; format_2f total_ytd].

(** [write_provider_csvs]: the contents of [provider_categories.csv] and
    [provider_totals.csv]. *)
Definition write_provider_csvs (provider_pages : list string)
  : table * table :=
  (["provider"; "category"; "current_month"; "year_to_date"]
     :: flat_map page_category_lines provider_pages,
   ["provider"; "current_month_total_claims_payable";
    "ytd_total_claims_payable"]
     :: map page_totals_line provider_pages).

(** ** The Markdown export *)

Definition md_meta_lines (meta : metadata) : list string :=
  List.concat
    [ when (truthy (period_from meta) && truthy (period_to meta))
        ("**Period**: " ++ or_empty (period_from meta) ++ " to "
           ++ or_empty (period_to meta));
      when (truthy (remittance_advice meta))
        ("**Remittance Advice**: " ++ or_empty (remittance_advice meta));
      when (truthy (run_date meta))
        ("**Run Date**: " ++ or_empty (run_date meta));
      when (truthy (group_name meta) || truthy (group_no meta)
            || truthy (payment_to meta))
        ("**Group**: " ++ join " " (group_bits meta)) ].

Definition md_detail_lines (p : provider_entry) : list string :=
  ("### " ++ p_name p ++ id_suffix p)
    :: List.app
         (map (row_line EmptyString)
            (filter (fun r => negb (is_meta_row r)) (p_rows p)))
         [EmptyString].

(** The list [lines] of [build_markdown], given the index lines. *)
Definition markdown_lines (meta : metadata) (group_rows : list row)
  (index : list string) (provider_entries : list provider_entry)
  : list string :=
  List.concat
    [ ["# OHIP Payment Summary"];
      match md_meta_lines meta with
      | [] => []
      | md_meta => [join newline md_meta]
      end;
      [newline ++ "## Group Summary (Current Month; Year to Date)"];
      map (row_line EmptyString) group_rows;
      [newline ++ "## Providers Index (TOTAL CLAIMS PAYABLE)"];
      index;
      [newline ++ "## Provider Details"];
      flat_map md_detail_lines provider_entries ].

(** [build_markdown] of [write_combined_readable_text]: the contents of
    [combined_readable.md]. *)
Definition build_markdown (meta : metadata) (group_rows : list row)
  (provider_entries : list provider_entry) : option string :=
  match index_lines provider_entries with
  | None => None
  | Some index =>
      Some (strip (join newline
                     (markdown_lines meta group_rows index provider_entries))
              ++ newline)
  end.

(** ** Cleaning the OCR text *)

(** The eight replacements of [_normalize_unicode_punct] rewrite code
    points above 127 (dashes, typographic quotes, the no-break space): on
    ASCII text nothing is replaced. *)
Definition _normalize_unicode_punct (s : string) : string := s.

(** [str.isalnum] on ASCII *)
Definition isalnum (c : ascii) : bool := isalpha c || isdigit c.

(** The class [[~*_\-\s\[\]\(\)\|=\\/]] *)
Definition is_decoration (c : ascii) : bool :=
  in_chars "~*_-[]()|=\/" c || isspace c.

(** The class [[SC\s]] *)
Definition is_sc_or_space (c : ascii) : bool := in_chars "SC" c || isspace c.

(** [sum(p(ch) for ch in s)] *)
Fixpoint count_chars (p : ascii -> bool) (s : string) : N :=
  match s with
  | EmptyString => 0%N
  | String c s' => ((if p c then 1 else 0) + count_chars p s')%N
  end.

(** [a / b] for integers [a >= 0] and [b > 0]: the double nearest to the
    quotient. *)
Definition true_div (a : N) (b : positive) : pyfloat :=
  match a with
  | N0 => S754_zero false
  | Npos p => SFdiv prec emax (S754_finite false p 0) (S754_finite false b 0)
  end.

(** [x < y] *)
Definition flt (x y : pyfloat) : bool := SFltb x y.

(** In the last test [Pos.of_nat (String.length s)] is [max(len(s), 1)]. *)
Definition _looks_like_noise (line : string) : bool :=
  let s := strip line in
  match s with
  | EmptyString => true
  | _ =>
      if all_chars is_decoration s then true
      else if contains "~~~" s || contains "***" s || contains "___" s
              || contains "-----" s
      then true
      else
        let up := upper s in
        if all_chars is_sc_or_space up
           && (6 <=? String.length (replace " " "" up))%nat
        then true
        else
          let alnum := count_chars isalnum s in
          flt (true_div alnum (Pos.of_nat (String.length s)))
            (of_decimal false 15 2)
  end.

(** The inner loop of [clean_ocr_text]: the lines of a page that are
    kept. *)
Fixpoint clean_lines (lines : list string) : list string :=
  match lines with
  | [] => []
  | ln :: rest =>
      let ln := _normalize_unicode_punct ln in
      let ln := strip (collapse_ws ln) in
      match ln with
      | EmptyString => clean_lines rest
      | _ => if _looks_like_noise ln then clean_lines rest
             else ln :: clean_lines rest
      end
  end.

(** The separator ["\n\f\n"] between the cleaned pages. *)
Definition page_break : string := newline ++ String form_feed newline.

Definition clean_ocr_text (raw_text : string) : string :=
  join page_break
    (map (fun pg => join newline (clean_lines (splitlines pg)))
       (split form_feed raw_text)).

(** ** Name and identifier of a decoded provider page *)

(** [re.findall(r"[A-Z]+", s)]: the maximal runs of capital letters. *)
Fixpoint upper_runs (s : string) : list string :=
  match s with
  | EmptyString => []
  | String c s' =>
      if isupper c
      then match s' with
           | String c' _ =>
               if isupper c'
               then match upper_runs s' with
                    | h :: t => String c h :: t
                    | [] => [String c EmptyString]
                    end
               else String c EmptyString :: upper_runs s'
           | EmptyString => [String c EmptyString]
           end
      else upper_runs s'
  end.

(** [re.search(r"\b(\d{5,})\b", s)]: group 1 of the leftmost match.  A run
    of digits matches when it is at least five long and no word character
    touches it on either side. *)
Fixpoint search_long_number (prev_word : bool) (s : string) : option string :=
  match s with
  | EmptyString => None
  | String c s' =>
      let (d, r) := span_digits s in
      if negb prev_word && (5 <=? String.length d)%nat
         && match r with
            | String x _ => negb (isword x)
            | EmptyString => true
            end
      then Some d
      else search_long_number (isword c) s'
  end.

(** The first element of a list that satisfies [p], with its position
    counted from [i]: a [for] loop left by [break]. *)
Fixpoint find_from {A : Type} (p : A -> bool) (i : nat) (l : list A)
  : option (nat * A) :=
  match l with
  | [] => None
  | x :: t => if p x then Some (i, x) else find_from p (S i) t
  end.

Definition is_provider_header (up : string) : bool :=
  forallb (fun w => contains w up) ["GROUP"; "PAYMENTS"; "TO"; "PROVIDER"].

Definition is_matrix_header (up : string) : bool :=
  contains "CURRENT MONTH" up && contains "YEAR TO DATE" up.

Definition extract_provider_name_and_id_from_decoded (page_text : string)
  : string * option string :=
  let page_text_norm := control_to_space page_text in
  let lines :=
    map (fun ln => strip (collapse_ws ln))
      (filter (fun ln => negb (String.eqb (strip ln) EmptyString))
         (splitlines page_text_norm)) in
  let upper_lines := map (fun ln => join " " (upper_runs (upper ln))) lines in
  (* the index of the name line and the name, when the header is found *)
  let found : option (nat * string) :=
    match find_from is_provider_header 0 upper_lines with
    | None => None
    | Some (i, _) =>
        let window := firstn (Nat.min (i + 8) (List.length lines) - (i + 1))
                        (skipn (i + 1) lines) in
        match
          find_from
            (fun cand =>
               negb (is_matrix_header (join " " (upper_runs (upper cand))))
               && negb (String.eqb (clean_provider_name_raw cand) EmptyString))
            (i + 1) window
        with
        | Some (j, cand) => Some (j, clean_provider_name_raw cand)
        | None => None
        end
    end in
  let name :=
    match found with
    | Some (_, n) => n
    | None =>
        match clean_provider_name_raw page_text_norm with
        | EmptyString => "Unknown Provider"
        | n => n
        end
    end in
  let provider_id :=
    match found with
    | None => None
    | Some (name_line_idx, _) =>
        let window_start := name_line_idx - 1 in
        let window_end := Nat.min (List.length lines) (name_line_idx + 4) in
        let window := firstn (window_end - window_start)
                        (skipn window_start lines) in
        match
          find_from
            (fun ln => match search_long_number false ln with
                       | Some _ => true
                       | None => false
                       end)
            0
            (filter
               (fun ln => negb (2 <=? List.length (_NUM_RE.findall ln))%nat)
               window)
        with
        | Some (_, ln) => search_long_number false ln
        | None => None
        end
    end in
  (name, provider_id).

(** ** Provider sections of the decoded text *)

(** One iteration of the loop of
    [_iter_provider_section_rows_from_decoded]: the new [expect_matrix] and
    the row appended, if any. *)
Definition provider_section_step (section_name : string)
  (expect_matrix : bool) (raw : string) : bool * option row :=
  let up := upper raw in
  if String.eqb section_name "GROUP PAYMENTS TO PROVIDER"
     && contains "GROUP PAYMENTS TO PROVIDER" up
  then (false, None)
  else if String.eqb section_name "PROVIDER SUMMARY"
          && contains "PROVIDER SUMMARY" up
  then (false, None)
  else if contains "CURRENT MONTH" up && contains "YEAR TO DATE" up
  then (true, None)
  else if negb expect_matrix then (expect_matrix, None)
  else if negb (contains "=" raw) then (expect_matrix, None)
  else
    let parts := map strip (split "=" raw) in
    if (List.length parts <? 3)%nat then (expect_matrix, None)
    else
      let label := normalize_category (hd EmptyString parts) in
      if contains "TOTAL" (upper label) then (expect_matrix, None)
      else
        match last_two parts with
        | Some (c, y) =>
            match _decoded_num_to_float c, _decoded_num_to_float y with
            | Some cur, Some ytd => (expect_matrix, Some (label, cur, ytd))
            | _, _ => (expect_matrix, None)
            end
        | None => (expect_matrix, None)
        end.

Fixpoint provider_section_lines (section_name : string)
  (expect_matrix : bool) (lines : list string) : list row :=
  match lines with
  | [] => []
  | raw :: rest =>
      let (em, y) := provider_section_step section_name expect_matrix raw in
      match y with
      | Some r => r :: provider_section_lines section_name em rest
      | None => provider_section_lines section_name em rest
      end
  end.

Definition _iter_provider_section_rows_from_decoded (page_text : string)
  (section_name : string) : list row :=
  provider_section_lines section_name false
    (map control_to_space (splitlines page_text)).

(** ** The metadata of the first page

    Two of the five patterns of [parse_metadata] need the matcher to give
    characters back: the lazy [.*?] and [.+?], and the class of the run
    date, which holds the space that [\s*] has taken. *)

(** [re.search]: the pattern is tried at every position, from the left. *)
Fixpoint search {A : Type} (m : string -> option A) (s : string) : option A :=
  match m s with
  | Some r => Some r
  | None =>
      match s with
      | String _ s' => search m s'
      | EmptyString => None
      end
  end.

(** The longest prefix made of characters of a class, and the rest. *)
Fixpoint span (p : ascii -> bool) (s : string) : string * string :=
  match s with
  | String c s' =>
      if p c then let (d, r) := span p s' in (String c d, r)
      else (EmptyString, s)
  | EmptyString => (EmptyString, EmptyString)
  end.

(** A literal at the start of the subject under [re.IGNORECASE]. *)
Fixpoint eat_lit_nocase (lit s : string) : option string :=
  match lit with
  | EmptyString => Some s
  | String a lit' =>
      match s with
      | String c s' =>
          if Ascii.eqb (lower_char a) (lower_char c)
          then eat_lit_nocase lit' s' else None
      | EmptyString => None
      end
  end.

(** [\d{4}-\d{2}-\d{2}] *)
Definition take_date (s : string) : option (string * string) :=
  match take_digits 4 s with
  | None => None
  | Some (y, r1) =>
  match eat_lit "-" r1 with
  | None => None
  | Some r2 =>
  match take_digits 2 r2 with
  | None => None
  | Some (m, r3) =>
  match eat_lit "-" r3 with
  | None => None
  | Some r4 =>
  match take_digits 2 r4 with
  | None => None
  | Some (d, r5) => Some (y ++ "-" ++ m ++ "-" ++ d, r5)
  end end end end end.

(** [:\s*(\d{4}-\d{2}-\d{2})\s*TO\s*(\d{4}-\d{2}-\d{2})]: the two groups. *)
Definition period_tail (s : string) : option (string * string) :=
  match eat_lit ":" s with
  | None => None
  | Some r1 =>
  match take_date (eat_ws r1) with
  | None => None
  | Some (d1, r2) =>
  match eat_lit "TO" (eat_ws r2) with
  | None => None
  | Some r3 =>
  match take_date (eat_ws r3) with
  | None => None
  | Some (d2, _) => Some (d1, d2)
  end end end end.

(** [.*?] in front of [tail]: the fewest characters, none of them a
    newline, after which [tail] matches. *)
Fixpoint lazy_dots {A : Type} (tail : string -> option A) (s : string)
  : option A :=
  match tail s with
  | Some r => Some r
  | None =>
      match s with
      | String c s' => if Ascii.eqb c "010" then None else lazy_dots tail s'
      | EmptyString => None
      end
  end.

(** [FOR PERIOD .*?:\s*(\d{4}-\d{2}-\d{2})\s*TO\s*(\d{4}-\d{2}-\d{2})] *)
Definition m_period_at (s : string) : option (string * string) :=
  match eat_lit "FOR PERIOD " s with
  | None => None
  | Some r => lazy_dots period_tail r
  end.

(** [REMITTANCE ADVICE:\s*([A-Za-z]+\s+\d{4})] *)
Definition m_remit_at (s : string) : option string :=
  match eat_lit "REMITTANCE ADVICE:" s with
  | None => None
  | Some r =>
      let (letters, r1) := span isalpha (eat_ws r) in
      let (ws, r2) := span isspace r1 in
      match letters, ws, take_digits 4 r2 with
      | String _ _, String _ _, Some (d, _) => Some (letters ++ ws ++ d)
      | _, _, _ => None
      end
  end.

(** The class [[0-9\-: ]] *)
Definition is_run_date_char (c : ascii) : bool :=
  isdigit c || in_chars "-: " c.

(** [Run Date:\s*([0-9\-: ]+[AP]M)] under [re.IGNORECASE].  The class
    holds the space: when nothing of the class follows the whitespace, the
    whitespace run gives its last character back if it is a space. *)
Definition m_run_at (s : string) : option string :=
  match eat_lit_nocase "Run Date:" s with
  | None => None
  | Some r =>
      let (ws, r1) := span isspace r in
      let (run, r2) := span is_run_date_char r1 in
      match r2 with
      | String a (String m _) =>
          if in_chars "APap" a && in_chars "Mm" m
          then match run with
               | String _ _ => Some (run ++ String a (String m EmptyString))
               | EmptyString =>
                   if endswith ws " "
                   then Some (String " " (String a (String m EmptyString)))
                   else None
               end
          else None
      | _ => None
      end
  end.

(** [\s+PAYMENT TO:\s*(\w+)]: group 2 *)
Definition payment_to_tail (s : string) : option string :=
  let (ws, r1) := span isspace s in
  match ws with
  | EmptyString => None
  | _ =>
      match eat_lit "PAYMENT TO:" r1 with
      | None => None
      | Some r2 =>
          let (w, _) := span isword (eat_ws r2) in
          match w with
          | EmptyString => None
          | _ => Some w
          end
      end
  end.

(** [(.+?)] in front of the tail: the fewest characters, at least one and
    none of them a newline, after which the tail matches. *)
Fixpoint lazy_name (s : string) : option (string * string) :=
  match s with
  | EmptyString => None
  | String c s' =>
      if Ascii.eqb c "010" then None
      else match payment_to_tail s' with
           | Some g2 => Some (String c EmptyString, g2)
           | None =>
               match lazy_name s' with
               | Some (g1, g2) => Some (String c g1, g2)
               | None => None
               end
           end
  end.

(** [\s*] in front of [(.+?)]: the whitespace run is taken whole first and
    given back character by character while the rest does not match. *)
Fixpoint name_after_ws (s : string) : option (string * string) :=
  match s with
  | String c s' =>
      if isspace c
      then match name_after_ws s' with
           | Some r => Some r
           | None => lazy_name s
           end
      else lazy_name s
  | EmptyString => None
  end.

(** [GROUP:\s*(.+?)\s+PAYMENT TO:\s*(\w+)] *)
Definition m_group_at (s : string) : option (string * string) :=
  match eat_lit "GROUP:" s with
  | None => None
  | Some r => name_after_ws r
  end.

(** [GROUP\s*#:\s*([A-Z0-9]+)] *)
Definition m_group_no_at (s : string) : option string :=
  match eat_lit "GROUP" s with
  | None => None
  | Some r =>
      match eat_lit "#:" (eat_ws r) with
      | None => None
      | Some r1 =>
          let (g, _) := span (fun c => isupper c || isdigit c) (eat_ws r1) in
          match g with
          | EmptyString => None
          | _ => Some g
          end
      end
  end.

Definition parse_metadata (header_text : string) : metadata :=
  let m_period := search m_period_at header_text in
  let m_remit := search m_remit_at header_text in
  let m_run := search m_run_at header_text in
  let m_group := search m_group_at header_text in
  let m_group_no := search m_group_no_at header_text in
  {| period_from := option_map fst m_period;
     period_to := option_map snd m_period;
     remittance_advice := m_remit;
     run_date := m_run;
     group_name := option_map (fun g => strip (fst g)) m_group;
     payment_to := option_map snd m_group;
     group_no := m_group_no |}.

(** * Vocabulary of the properties *)

Import _NUM_RE.

Definition tab : ascii := "009".

(** A row that is not an explicit total row. *)
Definition not_total (r : row) : Prop := is_total_claims_row r = false.

(** What the claim asks of the two totals of a row list: the amounts of
    the first explicit total row, or the sums of all rows when there is
    none. *)
Definition totals_as_claimed (rows : list row) (c y : pyfloat) : Prop :=
  (exists pre r post,
      rows = (pre ++ r :: post)%list /\ Forall not_total pre
      /\ is_total_claims_row r = true /\ c = row_cur r /\ y = row_ytd r)
  \/ (Forall not_total rows
      /\ c = pysum (map row_cur rows) /\ y = pysum (map row_ytd rows)).



(** A three-page report: two empty summary pages and one provider page. *)
Definition sample_report : string :=
  String form_feed
    (String form_feed
       ("JOHN SMITH" ++ newline ++ "NETWORK BASE RATE PAYMENT 1.00 2.00")).


(** A yielded tuple whose label does not mention a total. *)
Definition label_without_total (r : section_row) : Prop :=
  contains "TOTAL" (upper (section_label r)) = false.

(** A decoded group page with one line item and two subtotal lines. *)
Definition sample_group_page : string :=
  "GROUP PAYMENTS" ++ newline ++ "CURRENT MONTH=YEAR TO DATE" ++ newline
    ++ "ACCESS BONUS PAYMENT=1.00=2.00" ++ newline
    ++ "GROUP PAYMENTS TOTAL=1.00=2.00" ++ newline
    ++ "sub total=1.00=2.00".

(** A stretch of text without digits: no token starts in it. *)
Definition no_digit (s : string) : Prop := any_char isdigit s = false.

(** A non-empty text whose last character is a digit, as every token is. *)
Definition ends_digit (s : string) : Prop :=
  exists s0 d, s = s0 ++ String d "" /\ isdigit d = true.

(** The shape of a token once its sign is taken off: leading digits,
    comma groups, fraction. *)
Record token_shape (d g f : string) : Prop := {
  shape_lead : all_chars isdigit d = true;
  shape_lead_digit : ends_digit d;
  shape_groups : all_chars (fun c => isdigit c || Ascii.eqb c ",") g = true;
  shape_groups_end : g = "" \/ ends_digit g;
  shape_fraction :
    f = ""
    \/ exists a b, f = String "." (String a (String b ""))
                   /\ isdigit a = true /\ isdigit b = true
}.

(** Some match of the pattern. *)
Definition is_token (tok : string) : Prop :=
  exists s r, match_at s = Some (tok, r).

(** The category that the heuristic makes of the text [pre] in front of
    the last two tokens: right-trimmed, whitespace-collapsed, stripped of
    separators at both ends, normalized. *)
Definition category_of_head (pre : string) : string :=
  normalize_category (strip_chars (in_chars ":- ") (collapse_ws (rstrip pre))).

(** A character at which no token can go on. *)
Definition stops (c : ascii) : Prop :=
  isdigit c = false /\ Ascii.eqb c "," = false /\ Ascii.eqb c "." = false
  /\ Ascii.eqb c "-" = false.

(** Text as [collapse_ws] leaves it: every whitespace character is a
    space and is followed by a character that is not whitespace, or by
    nothing. *)
Fixpoint tidy (s : string) : bool :=
  match s with
  | EmptyString => true
  | String c s' =>
      (if isspace c
       then Ascii.eqb c " "
            && match s' with
               | String c' _ => negb (isspace c')
               | EmptyString => true
               end
       else true)
      && tidy s'
  end.

(** A string that [lstrip] leaves alone: empty, or led by a kept
    character. *)
Definition led (p : ascii -> bool) (s : string) : Prop :=
  match s with
  | EmptyString => True
  | String c _ => p c = false
  end.

(** The characters that the heuristic trims off a label. *)
Definition separator : ascii -> bool := in_chars ":- ".

(** What the heuristic needs of a label to read it back. *)
Record label_clean (cat : string) : Prop := {
  clean_alpha : any_char isalpha cat = true;
  clean_tidy : tidy cat = true;
  clean_led : led separator cat;
  clean_rstrip : rstrip_chars separator cat = cat;
  clean_fixed : normalize_category cat = cat
}.

(** An amount whose [,.2f] rendering is one numeric token that converts
    back to the amount. *)
Definition reads_back (a : pyfloat) : Prop :=
  match_at (format_c2f a) = Some (format_c2f a, "")
  /\ float_of_string (replace "," "" (format_c2f a)) = Some a.

(** A text that [splitlines] keeps in one piece. *)
Definition no_linebreak (l : string) : Prop :=
  any_char islinebreak l = false.

(** The characters a token is made of. *)
Definition is_token_char (c : ascii) : bool :=
  isdigit c || Ascii.eqb c "," || Ascii.eqb c "." || Ascii.eqb c "-".

(** Rows, and dict keys, whose labels are clean. *)
Definition clean_rows (rows : list row) : Prop :=
  Forall (fun r => label_clean (row_cat r)) rows.

Definition clean_keys {V : Type} (d : list (string * V)) : Prop :=
  Forall (fun kv => label_clean (fst kv)) d.

(** A string of plain spaces. *)
Definition blank (s : string) : Prop :=
  all_chars (fun c => Ascii.eqb c " ") s = true.

(** A string that does not end in whitespace. *)
Definition tight (s : string) : Prop := rstrip s = s.

(** An input whose surrounding whitespace is made of plain spaces. *)
Definition space_padded (s : string) : Prop :=
  exists L R, blank L /\ blank R /\ s = L ++ strip s ++ R.

(** [cat.replace("  ", " ")] *)
Definition squeeze (s : string) : string := replace "  " " " s.

(** The result of a step of a pattern, with [pad] put back after the
    rest of the subject. *)
Definition lift_rest {A : Type} (pad : string) (o : option (A * string))
  : option (A * string) :=
  match o with
  | Some (a, r) => Some (a, r ++ pad)
  | None => None
  end.

(** ASCII text: every code point is below 128.  On such text the
    embedding computes what the interpreter computes. *)
Definition is_ascii (s : string) : Prop :=
  all_chars (fun c => (ord c <? 128)%N) s = true.

(** A line that mentions the marker row of a provider page. *)
Definition marker_line (ln : string) : bool :=
  contains "NETWORK BASE RATE PAYMENT" (upper ln).

(** The lines that [extract_provider_name_from_page] scans. *)
Definition page_lines (page_text : string) : list string :=
  splitlines (control_to_space page_text).

(** The characters of a cleaned provider name. *)
Definition is_name_text (c : ascii) : bool :=
  is_name_char c || Ascii.eqb c " ".

(** A word of a cleaned provider name: not empty, made of letters,
    hyphens and apostrophes. *)
Definition is_name_word (w : string) : Prop :=
  w <> "" /\ all_chars is_name_char w = true.

(** A text without the character [sep]. *)
Definition no_char (sep : ascii) (s : string) : Prop :=
  any_char (fun c => Ascii.eqb c sep) s = false.

(** Every character that is not a capital letter. *)
Definition not_upper (c : ascii) : bool := negb (isupper c).

(** The characters of a canonical name: capital letters and the space. *)
Definition is_name_or_space (c : ascii) : bool :=
  isupper c || Ascii.eqb c " ".

(** What [write_provider_csvs] takes for the two totals of a row list: the
    amounts of the last explicit total row, or, when there is none, the
    sums of all rows as its [+=] loop adds them, left to right from
    [0.0]. *)
Definition totals_by_last_row (rows : list row) (c y : pyfloat) : Prop :=
  (exists pre r post,
      rows = (pre ++ r :: post)%list /\ is_total_claims_row r = true
      /\ Forall not_total post /\ c = row_cur r /\ y = row_ytd r)
  \/ (Forall not_total rows
      /\ c = pysum (map row_cur rows) /\ y = pysum (map row_ytd rows)).

(** The length of the longest run of digits of a text. *)
Fixpoint longest_digit_run (s : string) : nat :=
  match s with
  | EmptyString => 0
  | String _ s' =>
      Nat.max (String.length (fst (span_digits s))) (longest_digit_run s')
  end.

(** A text that is empty or starts with a character that is not a digit. *)
Definition digit_stop (s : string) : Prop :=
  match s with
  | EmptyString => True
  | String c _ => isdigit c = false
  end.

(** The separators of a number as the text layer of the PDF encodes them:
    [\x0f] for the comma, [\x11] for the point, [\x10] for the minus. *)
Definition control_separator (c : ascii) : ascii :=
  if Ascii.eqb c "," then "015"%char
  else if Ascii.eqb c "." then "017"%char
  else if Ascii.eqb c "-" then "016"%char
  else c.

Definition with_control_separators (token : string) : string :=
  map_chars control_separator token.

(** The four section names of [_iter_group_sections_from_decoded]. *)
Definition payment_types : list string :=
  ["GROUP PAYMENTS"; "EXCEPTION PAYMENTS"; "GROUP PAYMENTS ALL PROVIDERS";
   "SUMMARY ALL PROVIDERS"].

Definition section_type (r : section_row) : string := fst (fst (fst r)).

(** A loop state whose section name, if any, is one of the four. *)
Definition state_ok (st : section_state) : Prop :=
  match fst st with
  | Some t => In t payment_types
  | None => True
  end.

(** A line that carries both column titles of an amount matrix. *)
Definition matrix_header_line (raw : string) : bool :=
  contains "CURRENT MONTH" (upper raw) && contains "YEAR TO DATE" (upper raw).

(** The lines that the section scanners read from a decoded page. *)
Definition decoded_lines (page_text : string) : list string :=
  map control_to_space (splitlines page_text).

(** One page of the cleaned text. *)
Definition clean_page (pg : string) : string :=
  join newline (clean_lines (splitlines pg)).

(** A line as [clean_ocr_text] keeps it: not empty, with normalized
    spacing, and not noise. *)
Definition kept_line (l : string) : Prop :=
  l <> "" /\ _normalize_spaces l = l /\ _looks_like_noise l = false.

(** A page of the cleaned text as [split] finds it again: the cleaned
    page, with the newline that the page separator leaves on either
    side. *)
Definition decorated (pg c : string) : Prop :=
  exists pre post,
    (pre = "" \/ pre = newline) /\ (post = "" \/ post = newline)
    /\ pg = pre ++ c ++ post.

(** A date written [YYYY-MM-DD]. *)
Definition is_date (d : string) : Prop :=
  exists y m dd,
    d = y ++ "-" ++ m ++ "-" ++ dd
    /\ String.length y = 4 /\ String.length m = 2 /\ String.length dd = 2
    /\ all_chars isdigit (y ++ m ++ dd) = true.

(** Whether [meta.get(key)] is not [None]. *)
Definition present (o : option string) : bool :=
  match o with
  | Some _ => true
  | None => false
  end.

(** A data line of a provider CSV whose [provider_id] field is empty. *)
Definition without_id (line : list string) : Prop :=
  nth_error line 1 = Some "".

(** * Properties *)

(** ** Facts about strings *)

Lemma append_assoc : forall a b c : string, (a ++ b) ++ c = a ++ (b ++ c).
Proof. induction a; intros; simpl; [reflexivity | now rewrite IHa]. Qed.

Lemma append_nil_r : forall a : string, a ++ "" = a.
Proof. induction a; simpl; [reflexivity | now rewrite IHa]. Qed.

Lemma length_append :
  forall a b : string,
    String.length (a ++ b) = String.length a + String.length b.
Proof. induction a; intros; simpl; [reflexivity | now rewrite IHa]. Qed.

Lemma append_inv_head : forall a b c : string, a ++ b = a ++ c -> b = c.
Proof.
  induction a; simpl; intros b c H; [exact H|].
  injection H as H. auto.
Qed.

(** Two splittings of one string: the shorter head is a prefix of the
    longer one. *)
Lemma append_eq_split :
  forall a b c d : string,
    a ++ b = c ++ d -> String.length a <= String.length c ->
    exists m, c = a ++ m /\ b = m ++ d.
Proof.
  induction a as [|x a IH]; intros b c d H L; simpl in *.
  - exists c. split; [reflexivity | exact H].
  - destruct c as [|y c]; simpl in *; [lia|].
    injection H as -> H.
    destruct (IH b c d H ltac:(lia)) as (m & -> & ->).
    exists m. split; reflexivity.
Qed.

Lemma append_inv_tail : forall a b c : string, a ++ c = b ++ c -> a = b.
Proof.
  intros a b c H.
  assert (L : String.length a = String.length b).
  { apply (f_equal String.length) in H. rewrite !length_append in H. lia. }
  destruct (append_eq_split a c b c H ltac:(lia)) as (m & -> & E).
  rewrite length_append in L. destruct m; [|simpl in L; lia].
  now rewrite append_nil_r.
Qed.

Lemma any_char_append :
  forall p a b, any_char p (a ++ b) = any_char p a || any_char p b.
Proof.
  induction a; intros; simpl; [reflexivity|].
  now rewrite IHa, orb_assoc.
Qed.

Lemma prefix_append : forall a b : string, prefix a (a ++ b) = true.
Proof.
  induction a as [|x a IH]; intros b; simpl.
  - destruct b; reflexivity.
  - destruct (ascii_dec x x); [apply IH | congruence].
Qed.

Lemma prefix_split :
  forall a s : string, prefix a s = true -> exists r, s = a ++ r.
Proof.
  induction a as [|x a IH]; intros s H.
  - exists s. reflexivity.
  - destruct s as [|y s]; simpl in H; [discriminate|].
    destruct (ascii_dec x y) as [->|]; [|discriminate].
    destruct (IH s H) as (r & ->). exists r. reflexivity.
Qed.

Lemma substring_0_append :
  forall a b : string, substring 0 (String.length a) (a ++ b) = a.
Proof.
  induction a as [|x a IH]; intros b; simpl.
  - destruct b; reflexivity.
  - now rewrite IH.
Qed.

Lemma endswith_cons :
  forall c s suf,
    endswith (String c s) suf = String.eqb (String c s) suf || endswith s suf.
Proof. reflexivity. Qed.

Lemma endswith_split :
  forall s suf, endswith s suf = true -> exists p, s = p ++ suf.
Proof.
  induction s as [|c s IH]; intros suf.
  - destruct suf; simpl; [|discriminate].
    exists "". reflexivity.
  - rewrite endswith_cons. intros H.
    apply orb_true_iff in H. destruct H as [H|H].
    + apply String.eqb_eq in H. exists "". simpl. exact H.
    + destruct (IH _ H) as (p & ->). exists (String c p). reflexivity.
Qed.

Lemma endswith_append : forall p suf, endswith (p ++ suf) suf = true.
Proof.
  induction p as [|c p IH]; intros suf.
  - simpl. destruct suf.
    + reflexivity.
    + rewrite endswith_cons, String.eqb_refl. reflexivity.
  - change (String c p ++ suf) with (String c (p ++ suf)).
    rewrite endswith_cons, IH. apply orb_true_r.
Qed.

Lemma drop_last_append :
  forall p suf, drop_last (String.length suf) (p ++ suf) = p.
Proof.
  intros p suf. unfold drop_last. rewrite length_append.
  replace (String.length p + String.length suf - String.length suf)
    with (String.length p) by lia.
  apply substring_0_append.
Qed.

(** ** Category normalization *)

Lemma dict_get_no_key :
  forall (d : list (string * string)) (x : string),
    (forall k v, In (k, v) d -> k <> x) -> dict_get d x = None.
Proof.
  induction d as [|[k v] d IH]; intros x H; simpl.
  - reflexivity.
  - destruct (String.eqb_spec x k) as [E|_].
    + exfalso. apply (H k v); [left; reflexivity | congruence].
    + apply IH. intros k' v' Hin. apply (H k' v'). right; exact Hin.
Qed.

Lemma dict_get_some_value :
  forall (d : list (string * string)) (x v : string),
    dict_get d x = Some v -> In v (map snd d).
Proof.
  induction d as [|[k w] d IH]; intros x v; simpl.
  - discriminate.
  - destruct (String.eqb x k).
    + intros [= <-]. left; reflexivity.
    + intros H. right. exact (IH _ _ H).
Qed.

(** Every value of the canonical table is a fixed point. *)
Lemma canonical_values_fixed :
  forall v, In v (map snd _CATEGORY_CANON) -> normalize_category v = v.
Proof.
  intros v H. simpl in H.
  repeat (destruct H as [<-|H]; [vm_compute; reflexivity|]).
  contradiction.
Qed.

(** What [normalize_category] returns: a table value, or the stripped
    input when neither lookup succeeds. *)
Lemma normalize_category_cases :
  forall s,
    In (normalize_category s) (map snd _CATEGORY_CANON)
    \/ (dict_get _CATEGORY_CANON (category_key s) = None
        /\ dict_get _CATEGORY_CANON (replace "-" " " (category_key s)) = None
        /\ normalize_category s = strip s).
Proof.
  intros s. unfold normalize_category.
  destruct (dict_get _CATEGORY_CANON (category_key s)) as [v|] eqn:E1.
  - left. exact (dict_get_some_value _ _ _ E1).
  - destruct (dict_get _CATEGORY_CANON (replace "-" " " (category_key s)))
      as [v|] eqn:E2.
    + left. exact (dict_get_some_value _ _ _ E2).
    + right. auto.
Qed.

(** C7: both spellings of the blended fee-for-service premium map to the
    canonical "BLENDED FEE-FOR-SERVICE PREMIUM"; the bare forms without the
    "BLENDED " prefix come back unchanged; and in general a label whose
    rewritten form is no key of the canonical table, neither as it is nor
    with its dashes turned into spaces, is returned as the original input
    stripped of surrounding whitespace. *)
Theorem normalize_category_fee_for_service :
  normalize_category "BLENDED FEE-FOR-SERVICE PREMIUM"
    = "BLENDED FEE-FOR-SERVICE PREMIUM"
  /\ normalize_category "BLENDED FEE FOR SERVICE PREMIUM"
      = "BLENDED FEE-FOR-SERVICE PREMIUM"
  /\ normalize_category "FEE-FOR-SERVICE PREMIUM" = "FEE-FOR-SERVICE PREMIUM"
  /\ normalize_category "FEE FOR SERVICE PREMIUM" = "FEE FOR SERVICE PREMIUM"
  /\ (forall cat_raw,
        (forall k v, In (k, v) _CATEGORY_CANON ->
           k <> category_key cat_raw
           /\ k <> replace "-" " " (category_key cat_raw)) ->
        normalize_category cat_raw = strip cat_raw).
Proof.
  do 4 (split; [vm_compute; reflexivity|]).
  intros s H. unfold normalize_category.
  rewrite (dict_get_no_key _ (category_key s)).
  - rewrite (dict_get_no_key _ (replace "-" " " (category_key s))).
    + reflexivity.
    + intros k v Hin. exact (proj2 (H k v Hin)).
  - intros k v Hin. exact (proj1 (H k v Hin)).
Qed.

Lemma dict_get_none_no_key :
  forall (d : list (string * string)) (z : string),
    dict_get d z = None -> forall k v, In (k, v) d -> k <> z.
Proof.
  induction d as [|[k' v'] d IH]; intros z Hz k v Hi.
  - destruct Hi.
  - simpl in Hz. destruct (String.eqb_spec z k') as [E|Hne].
    + discriminate Hz.
    + destruct Hi as [Hi|Hi].
      * injection Hi as E1 _. subst k'. intros E2. apply Hne. now symmetry.
      * exact (IH z Hz k v Hi).
Qed.

Lemma no_key_of_lookups :
  forall x y,
    dict_get _CATEGORY_CANON x = None ->
    dict_get _CATEGORY_CANON y = None ->
    forall k v, In (k, v) _CATEGORY_CANON -> k <> x /\ k <> y.
Proof.
  intros x y Hx Hy k v Hin. split.
  - exact (dict_get_none_no_key _ x Hx k v Hin).
  - exact (dict_get_none_no_key _ y Hy k v Hin).
Qed.

(** An unmatched label with surrounding blanks, passed through stripped. *)
Lemma normalize_category_fee_for_service_witness :
  normalize_category " FEE-FOR-SERVICE PREMIUM "
  = strip " FEE-FOR-SERVICE PREMIUM ".
Proof.
  apply (proj2 (proj2 (proj2 (proj2 normalize_category_fee_for_service)))).
  apply no_key_of_lookups; vm_compute; reflexivity.
Defined.

(** ** Provider names *)

(** C3 as stated fails: the cleaned name has three tokens, not two. *)
Lemma clean_provider_name_raw_john_not_two_tokens :
  List.length (split " " (clean_provider_name_raw "JOHN   Q.  SC SMITH")) <> 2.
Proof. vm_compute. discriminate. Qed.

(** C3, amended: on "JOHN   Q.  SC SMITH" the "SC" noise token is dropped,
    the initial "Q" stays because it is not the last token, and the cleaned
    name is "John Q Smith", of exactly 3 tokens. *)
Theorem clean_provider_name_raw_john :
  provider_name_tokens "JOHN   Q.  SC SMITH" = ["JOHN"; "Q"; "SMITH"]
  /\ clean_provider_name_raw "JOHN   Q.  SC SMITH" = "John Q Smith"
  /\ List.length (split " " (clean_provider_name_raw "JOHN   Q.  SC SMITH"))
      = 3.
Proof. repeat split; vm_compute; reflexivity. Qed.

(** ** The text-layer decode *)

Lemma decode_char_moves :
  forall c, between 33 94 c = true ->
    decode_char 29 33 94 (decode_char 29 33 94 c) <> c.
Proof.
  intros [[] [] [] [] [] [] [] []]; vm_compute; intros H;
    discriminate || (intros E; discriminate E).
Qed.

(** C5: decoding twice is not the identity: the letter A, of code 65 in
    the range 33..94, is sent to a different character by two decodes, so
    the decode map is not an involution. *)
Theorem decode_caesar_shift_not_involutive :
  (exists c, (33 <= ord c <= 94)%N
             /\ decode_caesar_shift (decode_caesar_shift (String c ""))
                <> String c "")
  /\ ~ (forall text, decode_caesar_shift (decode_caesar_shift text) = text).
Proof.
  assert (E : decode_caesar_shift (decode_caesar_shift "A") <> "A")
    by (vm_compute; discriminate).
  split.
  - exists "A"%char. split; [vm_compute; split; discriminate | exact E].
  - intros H. exact (E (H "A")).
Qed.

(** ** The line-to-record heuristic *)

(** C10: [line_to_category_and_numbers] never returns a partial result:
    the three components are all [None] or all present. *)
Theorem line_to_category_and_numbers_all_or_nothing :
  forall line,
    line_to_category_and_numbers line = (None, None, None)
    \/ exists cat cur ytd,
         line_to_category_and_numbers line = (Some cat, Some cur, Some ytd).
Proof.
  intros line. unfold line_to_category_and_numbers, no_record.
  destruct (strip line) as [|c l]; [left; reflexivity|].
  destruct (rev (_NUM_RE.findall (String c l))) as [|last [|prev rest]];
    try (left; reflexivity).
  destruct (float_of_string (replace "," "" prev)) as [cur|];
    [|left; reflexivity].
  destruct (float_of_string (replace "," "" last)) as [ytd|];
    [|left; reflexivity].
  match goal with
  | |- context [if negb ?b then _ else _] => destruct (negb b)
  end.
  - left; reflexivity.
  - right. eexists _, cur, ytd. reflexivity.
Qed.

(** ** Facts about numeric tokens *)

Lemma ends_digit_single :
  forall d, isdigit d = true -> ends_digit (String d "").
Proof. intros d H. exists "", d. split; [reflexivity | exact H]. Qed.

Lemma ends_digit_append : forall a b, ends_digit b -> ends_digit (a ++ b).
Proof.
  intros a b (s0 & d & -> & H). exists (a ++ s0), d.
  split; [now rewrite append_assoc | exact H].
Qed.

Lemma ends_digit_cons : forall c b, ends_digit b -> ends_digit (String c b).
Proof. intros c b H. exact (ends_digit_append (String c "") b H). Qed.

Lemma ends_digit_not_nil : forall s, ends_digit s -> s <> "".
Proof. intros s (s0 & d & -> & _). destruct s0; discriminate. Qed.

(** A string that ends in a digit has a digit. *)
Lemma ends_digit_has_digit :
  forall s, ends_digit s -> any_char isdigit s = true.
Proof.
  intros s (s0 & d & -> & H). rewrite any_char_append. simpl.
  rewrite H. apply orb_true_r.
Qed.

Ltac ends_digit_tac :=
  first [ apply ends_digit_single; assumption
        | apply ends_digit_cons; ends_digit_tac ].

Lemma lead_digits_spec :
  forall s d r,
    lead_digits s = Some (d, r) ->
    s = d ++ r /\ all_chars isdigit d = true /\ ends_digit d.
Proof.
  intros s d r. unfold lead_digits.
  destruct s as [|a r1]; [discriminate|].
  destruct (isdigit a) eqn:Ha; [|discriminate].
  destruct r1 as [|b r2];
    [|destruct (isdigit b) eqn:Hb;
      [destruct r2 as [|c r3]; [|destruct (isdigit c) eqn:Hc]|]];
    intros [= <- <-]; (split; [reflexivity|]); (split;
      [simpl; rewrite ?Ha, ?Hb, ?Hc; reflexivity
      |ends_digit_tac]).
Qed.

Lemma comma_groups_spec :
  forall n s g r,
    String.length s <= n -> comma_groups s = (g, r) ->
    s = g ++ r
    /\ all_chars (fun c => isdigit c || Ascii.eqb c ",") g = true
    /\ (g = "" \/ ends_digit g).
Proof.
  induction n as [|n IH]; intros s g r L.
  - destruct s; [|simpl in L; lia]. intros [= <- <-]. auto.
  - destruct s as [|p [|a [|b [|c s']]]]; try (intros [= <- <-]; now auto).
    simpl.
    destruct (Ascii.eqb p "," && isdigit a && isdigit b && isdigit c) eqn:E;
      [|intros [= <- <-]; now auto].
    apply andb_true_iff in E. destruct E as [E Hc].
    apply andb_true_iff in E. destruct E as [E Hb].
    apply andb_true_iff in E. destruct E as [Hp Ha].
    destruct (comma_groups s') as [g' r'] eqn:E'.
    intros [= <- <-].
    destruct (IH s' g' r' ltac:(simpl in L; lia) E') as (-> & Hall & Hend).
    split; [reflexivity|]. split.
    + simpl. rewrite Hp, Ha, Hb, Hc, Hall.
      now rewrite !orb_true_r.
    + right. destruct Hend as [->|Hend].
      * ends_digit_tac.
      * now do 4 apply ends_digit_cons.
Qed.

Lemma fraction_spec :
  forall s f r,
    fraction s = (f, r) ->
    s = f ++ r
    /\ (f = ""
        \/ exists a b, f = String "." (String a (String b ""))
                       /\ isdigit a = true /\ isdigit b = true).
Proof.
  intros s f r. unfold fraction.
  destruct s as [|p [|a [|b s']]]; try (intros [= <- <-]; now auto).
  destruct (Ascii.eqb p "." && isdigit a && isdigit b) eqn:E;
    [|intros [= <- <-]; now auto].
  apply andb_true_iff in E. destruct E as [E Hb].
  apply andb_true_iff in E. destruct E as [Hp Ha].
  apply Ascii.eqb_eq in Hp. subst p.
  intros [= <- <-]. split; [reflexivity|]. right. exists a, b. auto.
Qed.

Lemma unsigned_match_spec :
  forall s tok r,
    unsigned_match s = Some (tok, r) ->
    exists d g f, tok = d ++ g ++ f /\ s = tok ++ r /\ token_shape d g f.
Proof.
  intros s tok r. unfold unsigned_match.
  destruct (lead_digits s) as [[d r1]|] eqn:E1; [|discriminate].
  destruct (comma_groups r1) as [g r2] eqn:E2.
  destruct (fraction r2) as [f r3] eqn:E3.
  intros [= <- <-].
  destruct (lead_digits_spec _ _ _ E1) as (-> & Hd & Hde).
  destruct (comma_groups_spec _ _ _ _ (le_n _) E2) as (-> & Hg & Hge).
  destruct (fraction_spec _ _ _ E3) as (-> & Hf).
  exists d, g, f. split; [reflexivity|]. split.
  - now rewrite ?append_assoc.
  - constructor; assumption.
Qed.

Lemma token_shape_ends_digit :
  forall d g f, token_shape d g f -> ends_digit (d ++ g ++ f).
Proof.
  intros d g f [Hd Hde Hg Hge Hf].
  destruct Hf as [->|(a & b & -> & Ha & Hb)].
  - rewrite append_nil_r. destruct Hge as [->|Hge].
    + now rewrite append_nil_r.
    + now apply ends_digit_append.
  - do 2 apply ends_digit_append. ends_digit_tac.
Qed.

(** A match is a prefix of its subject and ends in a digit. *)
Lemma match_at_spec :
  forall s tok r,
    match_at s = Some (tok, r) -> s = tok ++ r /\ ends_digit tok.
Proof.
  intros s tok r. unfold match_at. destruct s as [|c s']; [discriminate|].
  destruct (Ascii.eqb c "-").
  - destruct (unsigned_match s') as [[t r']|] eqn:E; [|discriminate].
    intros [= <- <-].
    destruct (unsigned_match_spec _ _ _ E) as (d & g & f & -> & -> & Hs).
    split; [reflexivity|].
    apply ends_digit_cons. now apply token_shape_ends_digit.
  - intros E.
    destruct (unsigned_match_spec _ _ _ E) as (d & g & f & -> & -> & Hs).
    split; [reflexivity|]. now apply token_shape_ends_digit.
Qed.

(** Where no match starts there is no digit. *)
Lemma match_at_none_not_digit :
  forall c s, match_at (String c s) = None -> isdigit c = false.
Proof.
  intros c s. unfold match_at.
  destruct (Ascii.eqb_spec c "-") as [->|_]; [reflexivity|].
  unfold unsigned_match, lead_digits.
  destruct (isdigit c); [|reflexivity].
  destruct s as [|b [|c3 r]]; repeat
    match goal with
    | |- context [if ?x then _ else _] => destruct x
    | |- context [let (_, _) := ?x in _] => destruct x
    end; discriminate.
Qed.

(** ** Scanning for tokens *)

Lemma finditer_from_skip :
  forall u r pos,
    finditer_from pos (String.length u) (u ++ r)
    = finditer_from (pos + String.length u) 0 r.
Proof.
  induction u as [|c u IH]; intros r pos; simpl.
  - now rewrite Nat.add_0_r.
  - rewrite IH. f_equal. lia.
Qed.

(** One step of the scan: a match is recorded and passed over, any other
    character is passed over alone. *)
Lemma finditer_from_step :
  forall s pos,
    finditer_from pos 0 s
    = match match_at s with
      | Some (tok, r) =>
          (pos, tok) :: finditer_from (pos + String.length tok) 0 r
      | None =>
          match s with
          | EmptyString => []
          | String _ s' => finditer_from (S pos) 0 s'
          end
      end.
Proof.
  intros [|c s'] pos; [reflexivity|].
  cbn [finditer_from].
  destruct (match_at (String c s')) as [[tok r]|] eqn:E; [|reflexivity].
  destruct (match_at_spec _ _ _ E) as (Hs & Hd).
  destruct tok as [|c' tok']; [now apply ends_digit_not_nil in Hd|].
  injection Hs as <- ->. f_equal.
  cbn [String.length]. rewrite Nat.sub_succ, Nat.sub_0_r.
  rewrite finditer_from_skip. f_equal. lia.
Qed.

Lemma findall_from_finditer :
  forall s pos skip,
    findall_from skip s = map snd (finditer_from pos skip s).
Proof.
  induction s as [|c s IH]; intros pos skip; [reflexivity|].
  cbn [findall_from finditer_from].
  destruct skip; [|apply IH].
  destruct (match_at (String c s)) as [[tok r]|]; [|apply IH].
  cbn [map snd]. f_equal. apply IH.
Qed.

Lemma findall_finditer : forall s, findall s = map snd (finditer s).
Proof. intros s. apply findall_from_finditer. Qed.

Lemma is_token_ends_digit : forall tok, is_token tok -> ends_digit tok.
Proof. intros tok (s & r & H). exact (proj2 (match_at_spec _ _ _ H)). Qed.

Lemma finditer_nil_no_digit :
  forall n s pos,
    String.length s <= n -> finditer_from pos 0 s = [] -> no_digit s.
Proof.
  induction n as [|n IH]; intros s pos L; rewrite finditer_from_step.
  - destruct s; [reflexivity | simpl in L; lia].
  - destruct (match_at s) as [[tok r]|] eqn:E; [discriminate|].
    destruct s as [|c s']; [reflexivity|]. intros H.
    unfold no_digit. cbn [any_char].
    rewrite (match_at_none_not_digit _ _ E).
    apply (IH s' (S pos)); [simpl in L; lia | exact H].
Qed.

Lemma finditer_single :
  forall n s pos j B,
    String.length s <= n -> finditer_from pos 0 s = [(j, B)] ->
    exists g t,
      s = g ++ B ++ t /\ no_digit g /\ no_digit t
      /\ j = pos + String.length g /\ is_token B.
Proof.
  induction n as [|n IH]; intros s pos j B L; rewrite finditer_from_step.
  - destruct s; [discriminate | simpl in L; lia].
  - destruct (match_at s) as [[tok r]|] eqn:E.
    + intros [= <- <- H].
      assert (HB : is_token tok) by (exists s, r; exact E).
      destruct (match_at_spec _ _ _ E) as (-> & Hd).
      exists "", r. repeat split; auto.
      apply (finditer_nil_no_digit _ _ _ (le_n _) H).
    + destruct s as [|c s']; [discriminate|]. intros H.
      destruct (IH s' (S pos) j B ltac:(simpl in L; lia) H)
        as (g & t & -> & Hg & Ht & -> & HB).
      exists (String c g), t.
      split; [reflexivity|].
      split; [unfold no_digit; cbn [any_char];
              now rewrite (match_at_none_not_digit _ _ E)|].
      split; [exact Ht|]. split; [simpl; lia | exact HB].
Qed.

(** The subject around its last two matches: the text before them, the
    two tokens, and two stretches without digits. *)
Lemma finditer_last_two :
  forall n s pos l i A j B,
    String.length s <= n ->
    finditer_from pos 0 s = (l ++ [(i, A); (j, B)])%list ->
    exists pre g t,
      s = pre ++ A ++ g ++ B ++ t /\ i = pos + String.length pre
      /\ no_digit g /\ no_digit t /\ is_token A /\ is_token B.
Proof.
  induction n as [|n IH]; intros s pos l i A j B L; rewrite finditer_from_step.
  - destruct s; [|simpl in L; lia]. destruct l; discriminate.
  - destruct (match_at s) as [[tok r]|] eqn:E.
    + assert (HT : is_token tok) by (exists s, r; exact E).
      destruct (match_at_spec _ _ _ E) as (-> & Hd).
      assert (Lr : String.length r <= n).
      { rewrite length_append in L.
        destruct tok; [now apply ends_digit_not_nil in Hd|].
        simpl in L. lia. }
      destruct l as [|x l]; cbn [app].
      * intros [= <- <- H].
        destruct (finditer_single _ _ _ _ _ (le_n _) H)
          as (g & t & -> & Hg & Ht & _ & HB).
        exists "", g, t. repeat split; auto.
      * intros [= _ H].
        destruct (IH r _ l i A j B Lr H)
          as (pre & g & t & -> & -> & Hg & Ht & HA & HB).
        exists (tok ++ pre), g, t.
        split; [now rewrite append_assoc|].
        split; [rewrite length_append; lia|]. auto.
    + destruct s as [|c s']; [destruct l; discriminate|]. intros H.
      destruct (IH s' _ l i A j B ltac:(simpl in L; lia) H)
        as (pre & g & t & -> & -> & Hg & Ht & HA & HB).
      exists (String c pre), g, t.
      split; [reflexivity|]. split; [simpl; lia|]. auto.
Qed.

(** ** The text before the last occurrence of a token *)

Lemma before_last_split :
  forall sep s h, before_last sep s = Some h -> exists r, s = h ++ sep ++ r.
Proof.
  intros sep. induction s as [|c s IH]; intros h; [discriminate|].
  cbn [before_last].
  destruct (before_last sep s) as [h'|].
  - intros [= <-]. destruct (IH h' eq_refl) as (r & ->).
    exists r. reflexivity.
  - destruct (prefix sep (String c s)) eqn:P; [|discriminate].
    intros [= <-]. destruct (prefix_split _ _ P) as (r & ->).
    exists r. reflexivity.
Qed.

Lemma before_last_prepend :
  forall sep p s h,
    before_last sep s = Some h -> before_last sep (p ++ s) = Some (p ++ h).
Proof.
  intros sep. induction p as [|c p IH]; intros s h H; [exact H|].
  change (String c p ++ s) with (String c (p ++ s)).
  cbn [before_last]. now rewrite (IH _ _ H).
Qed.

Lemma before_last_none_short :
  forall sep u r,
    ends_digit sep -> no_digit r -> String.length u < String.length sep ->
    before_last sep (u ++ r) = None.
Proof.
  intros sep u r (s0 & d & -> & Hd) Hr L.
  destruct (before_last _ (u ++ r)) as [h|] eqn:E; [|reflexivity].
  exfalso. destruct (before_last_split _ _ _ E) as (r' & H).
  rewrite append_assoc, <- (append_assoc h) in H.
  rewrite length_append in L. simpl in L.
  destruct (append_eq_split u r (h ++ s0) _ H) as (m & _ & Hm).
  { rewrite length_append. lia. }
  unfold no_digit in Hr. rewrite Hm, any_char_append in Hr.
  simpl in Hr. rewrite Hd in Hr. simpl in Hr.
  rewrite orb_true_r in Hr. discriminate.
Qed.

(** A separator that ends in a digit does not occur again where its last
    character would fall on a stretch without digits. *)
Lemma before_last_at_digit_end :
  forall sep r p,
    ends_digit sep -> no_digit r ->
    before_last sep (p ++ sep ++ r) = Some p.
Proof.
  intros sep r p Hd Hr.
  rewrite <- (append_nil_r p) at 2. apply before_last_prepend.
  destruct sep as [|c u]; [now apply ends_digit_not_nil in Hd|].
  change (String c u ++ r) with (String c (u ++ r)).
  cbn [before_last].
  rewrite (before_last_none_short (String c u) u r Hd Hr (le_n _)).
  change (String c (u ++ r)) with (String c u ++ r).
  now rewrite prefix_append.
Qed.

(** ** Trimming on the right *)

Lemma digit_not_space : forall c, isdigit c = true -> isspace c = false.
Proof.
  intros c. unfold isdigit, isspace, between.
  destruct (N.leb_spec 48 (ord c)), (N.leb_spec (ord c) 57); try discriminate.
  intros _.
  destruct (N.leb_spec 9 (ord c)), (N.leb_spec (ord c) 13),
    (N.leb_spec 28 (ord c)), (N.leb_spec (ord c) 32); simpl; try reflexivity;
    lia.
Qed.

Lemma alpha_not_space : forall c, isalpha c = true -> isspace c = false.
Proof.
  intros c. unfold isalpha, isupper, islower, isspace, between.
  destruct (N.leb_spec 65 (ord c)), (N.leb_spec (ord c) 90),
    (N.leb_spec 97 (ord c)), (N.leb_spec (ord c) 122); simpl;
    try discriminate; intros _;
    destruct (N.leb_spec 9 (ord c)), (N.leb_spec (ord c) 13),
      (N.leb_spec 28 (ord c)), (N.leb_spec (ord c) 32); simpl;
      try reflexivity; lia.
Qed.

Lemma snoc_view :
  forall s : string, s = "" \/ exists s0 x, s = s0 ++ String x "".
Proof.
  induction s as [|c s IH]; [left; reflexivity|]. right.
  destruct IH as [->|(s0 & x & ->)].
  - exists "", c. reflexivity.
  - exists (String c s0), x. reflexivity.
Qed.

Lemma snoc_inj :
  forall a b x y, a ++ String x "" = b ++ String y "" -> a = b /\ x = y.
Proof.
  induction a as [|c a IH]; intros [|d b] x y H; simpl in H.
  - injection H as ->. auto.
  - injection H as -> H. destruct b; discriminate.
  - injection H as -> H. destruct a; discriminate.
  - injection H as -> H. destruct (IH _ _ _ H) as [-> ->]. auto.
Qed.

Lemma rstrip_chars_append :
  forall p x y,
    rstrip_chars p (x ++ y)
    = match rstrip_chars p y with
      | EmptyString => rstrip_chars p x
      | r => x ++ r
      end.
Proof.
  intros p. induction x as [|c x IH]; intros y.
  - simpl. destruct (rstrip_chars p y); reflexivity.
  - change (String c x ++ y) with (String c (x ++ y)).
    cbn [rstrip_chars]. rewrite IH.
    destruct (rstrip_chars p y) as [|c' r]; [reflexivity|].
    destruct x; reflexivity.
Qed.

Lemma rstrip_chars_snoc :
  forall p x c,
    p c = false -> rstrip_chars p (x ++ String c "") = x ++ String c "".
Proof.
  intros p x c H. rewrite rstrip_chars_append. simpl. now rewrite H.
Qed.

(** Trimming removes a stretch of trimmed characters at the end. *)
Lemma rstrip_chars_split :
  forall p s, exists t, s = rstrip_chars p s ++ t /\ all_chars p t = true.
Proof.
  intros p. induction s as [|c s IH].
  - exists "". auto.
  - destruct IH as (t & Hs & Ht). cbn [rstrip_chars].
    destruct (rstrip_chars p s) as [|c' r] eqn:E.
    + simpl in Hs. subst t. destruct (p c) eqn:Hc.
      * exists (String c s). simpl. now rewrite Hc, Ht.
      * exists s. auto.
    + exists t. split; [|exact Ht]. simpl. now rewrite Hs at 1.
Qed.

Lemma any_char_rstrip :
  forall p q s,
    (forall c, p c = true -> q c = false) ->
    any_char p (rstrip_chars q s) = any_char p s.
Proof.
  intros p q s H. destruct (rstrip_chars_split q s) as (t & Hs & Ht).
  rewrite Hs at 2. rewrite any_char_append.
  assert (E : any_char p t = false).
  { clear Hs. induction t as [|c t IH]; [reflexivity|]. simpl in *.
    apply andb_true_iff in Ht. destruct Ht as [Hc Ht].
    destruct (p c) eqn:Hp; [apply H in Hp; congruence | now apply IH]. }
  now rewrite E, orb_false_r.
Qed.

Lemma rstrip_keeps_token :
  forall x A g,
    ends_digit A -> rstrip (x ++ A ++ g) = x ++ A ++ rstrip g.
Proof.
  intros x A g (A0 & d & -> & Hd). unfold rstrip.
  rewrite <- !append_assoc. rewrite rstrip_chars_append.
  destruct (rstrip_chars isspace g) as [|c r].
  - rewrite rstrip_chars_snoc by now apply digit_not_space.
    now rewrite append_nil_r.
  - reflexivity.
Qed.

Lemma no_digit_rstrip : forall g, no_digit g -> no_digit (rstrip g).
Proof.
  intros g H. unfold no_digit, rstrip.
  rewrite any_char_rstrip; [exact H | exact digit_not_space].
Qed.

(** ** The category text of a line with two tokens *)

Section Head.

Variables pre A g B t : string.
Hypothesis HA : ends_digit A.
Hypothesis HB : ends_digit B.
Hypothesis Hg : no_digit g.
Hypothesis Ht : no_digit t.

Let s := pre ++ A ++ g ++ B ++ t.

Lemma head_when_tail_fits :
  endswith s (A ++ " " ++ B) = true ->
  drop_last (String.length (A ++ " " ++ B)) s = pre.
Proof.
  intros H. apply endswith_split in H. destruct H as (p & H).
  assert (E : pre = p); [|rewrite H, E; apply drop_last_append].
  unfold s in H. clear s.
  destruct HB as (B0 & d & -> & Hd).
  (* nothing follows the last token *)
  assert (Et : t = "").
  { destruct (snoc_view t) as [E|(t0 & x & ->)]; [exact E|exfalso].
    assert (H' : (pre ++ A ++ g ++ (B0 ++ String d "") ++ t0) ++ String x ""
                 = (p ++ A ++ " " ++ B0) ++ String d "")
      by (rewrite ?append_assoc; now rewrite ?append_assoc in H).
    apply snoc_inj in H'. destruct H' as [_ ->].
    unfold no_digit in Ht. rewrite any_char_append in Ht. simpl in Ht.
    rewrite Hd, orb_true_r in Ht. discriminate. }
  subst t. rewrite append_nil_r in H.
  assert (H1 : pre ++ A ++ g = p ++ A ++ " ").
  { apply (append_inv_tail _ _ (B0 ++ String d "")).
    rewrite ?append_assoc. now rewrite ?append_assoc in H. }
  clear H. destruct HA as (A0 & a & -> & Ha).
  destruct (snoc_view g) as [->|(g0 & x & ->)].
  - exfalso. rewrite append_nil_r in H1.
    assert (H' : (pre ++ A0) ++ String a ""
                 = (p ++ A0 ++ String a "") ++ String " " "")
      by (rewrite ?append_assoc; now rewrite ?append_assoc in H1).
    apply snoc_inj in H'. destruct H' as [_ ->]. discriminate.
  - assert (H' : (pre ++ (A0 ++ String a "") ++ g0) ++ String x ""
                 = (p ++ A0 ++ String a "") ++ String " " "")
      by (rewrite ?append_assoc; now rewrite ?append_assoc in H1).
    apply snoc_inj in H'. destruct H' as [H2 ->].
    destruct (snoc_view g0) as [->|(g1 & y & ->)].
    + rewrite append_nil_r in H2. now apply append_inv_tail in H2.
    + exfalso.
      assert (H' : (pre ++ (A0 ++ String a "") ++ g1) ++ String y ""
                   = (p ++ A0) ++ String a "")
        by (rewrite ?append_assoc; now rewrite ?append_assoc in H2).
      apply snoc_inj in H'. destruct H' as [_ ->].
      unfold no_digit in Hg. rewrite !any_char_append in Hg. simpl in Hg.
      rewrite Ha in Hg. rewrite !orb_true_r in Hg. discriminate.
Qed.

Lemma head_by_rsplit :
  rstrip (rsplit1_head A (rstrip (rsplit1_head B s))) = rstrip pre.
Proof.
  unfold rsplit1_head, s.
  replace (pre ++ A ++ g ++ B ++ t) with ((pre ++ A ++ g) ++ B ++ t)
    by now rewrite ?append_assoc.
  rewrite (before_last_at_digit_end B t _ HB Ht).
  rewrite (rstrip_keeps_token pre A g HA).
  rewrite (before_last_at_digit_end A _ pre HA (no_digit_rstrip g Hg)).
  reflexivity.
Qed.

(** Either way the heuristic cuts the line just before the second-to-last
    token. *)
Lemma head_of_line :
  (if endswith s (A ++ " " ++ B)
   then rstrip (drop_last (String.length (A ++ " " ++ B)) s)
   else rstrip (rsplit1_head A (rstrip (rsplit1_head B s))))
  = rstrip pre.
Proof.
  destruct (endswith s (A ++ " " ++ B)) eqn:E.
  - now rewrite head_when_tail_fits.
  - apply head_by_rsplit.
Qed.

End Head.

(** ** Tokens convert to floats *)

Lemma replace_comma_cons :
  forall c s,
    replace "," "" (String c s)
    = if Ascii.eqb c "," then replace "," "" s
      else String c (replace "," "" s).
Proof.
  intros c s. unfold replace. cbn [replace_from prefix].
  destruct (ascii_dec "," c) as [<-|N].
  - destruct s; reflexivity.
  - apply not_eq_sym in N. apply Ascii.eqb_neq in N. now rewrite N.
Qed.

Lemma replace_comma_append :
  forall a b, replace "," "" (a ++ b) = replace "," "" a ++ replace "," "" b.
Proof.
  induction a as [|c a IH]; intros b; [reflexivity|].
  change (String c a ++ b) with (String c (a ++ b)).
  rewrite !replace_comma_cons, IH. destruct (Ascii.eqb c ","); reflexivity.
Qed.

Lemma digit_not_comma : forall c, isdigit c = true -> Ascii.eqb c "," = false.
Proof.
  intros c H. apply Ascii.eqb_neq. intros ->. discriminate.
Qed.

Lemma digit_not_minus : forall c, isdigit c = true -> Ascii.eqb c "-" = false.
Proof.
  intros c H. apply Ascii.eqb_neq. intros ->. discriminate.
Qed.

Lemma digit_not_dot : forall c, isdigit c = true -> Ascii.eqb c "." = false.
Proof.
  intros c H. apply Ascii.eqb_neq. intros ->. discriminate.
Qed.

Lemma replace_comma_digits :
  forall d, all_chars isdigit d = true -> replace "," "" d = d.
Proof.
  induction d as [|c d IH]; [reflexivity|]. simpl. intros H.
  apply andb_true_iff in H. destruct H as [Hc Hd].
  rewrite replace_comma_cons, (digit_not_comma _ Hc), (IH Hd). reflexivity.
Qed.

Lemma replace_comma_groups :
  forall g,
    all_chars (fun c => isdigit c || Ascii.eqb c ",") g = true ->
    all_chars isdigit (replace "," "" g) = true.
Proof.
  induction g as [|c g IH]; [reflexivity|]. simpl. intros H.
  apply andb_true_iff in H. destruct H as [Hc Hg].
  rewrite replace_comma_cons. destruct (Ascii.eqb c ",") eqn:E.
  - now apply IH.
  - rewrite orb_false_r in Hc. simpl. now rewrite Hc, IH.
Qed.

Lemma all_chars_append :
  forall p a b, all_chars p (a ++ b) = all_chars p a && all_chars p b.
Proof.
  induction a; intros; simpl; [reflexivity|].
  now rewrite IHa, andb_assoc.
Qed.

Lemma span_digits_append :
  forall D f,
    all_chars isdigit D = true ->
    (f = "" \/ exists c f', f = String c f' /\ isdigit c = false) ->
    span_digits (D ++ f) = (D, f).
Proof.
  induction D as [|c D IH]; intros f HD Hf.
  - destruct Hf as [->|(c & f' & -> & Hc)]; simpl; [reflexivity|].
    now rewrite Hc.
  - simpl in HD. apply andb_true_iff in HD. destruct HD as [Hc HD].
    simpl. rewrite Hc, (IH f HD Hf). reflexivity.
Qed.

(** The digits and the fraction of a token without its commas parse. *)
Lemma float_of_digits_fraction :
  forall D f,
    all_chars isdigit D = true -> D <> "" ->
    (f = ""
     \/ exists a b, f = String "." (String a (String b ""))
                    /\ isdigit a = true /\ isdigit b = true) ->
    (exists v, float_of_string (D ++ f) = Some v)
    /\ (exists v, float_of_string (String "-" (D ++ f)) = Some v).
Proof.
  intros D f HD HN Hf.
  assert (Hspan : span_digits (D ++ f) = (D, f)).
  { apply span_digits_append; [exact HD|].
    destruct Hf as [->|(a & b & -> & _)]; [now left|].
    right. eexists _, _. split; reflexivity. }
  assert (Hlen : forall k, (String.length D + k =? 0)%nat = false).
  { intros k. destruct D; [congruence|reflexivity]. }
  assert (Hbody :
    forall neg,
      exists v,
        (let (ip, r1) := span_digits (D ++ f) in
         let (fp, r2) :=
           match r1 with
           | String c r => if Ascii.eqb c "." then span_digits r
                           else (EmptyString, r1)
           | EmptyString => (EmptyString, r1)
           end in
         match r2 with
         | EmptyString =>
             if (String.length ip + String.length fp =? 0)%nat then None
             else Some (of_decimal neg (digits_value 0 (ip ++ fp))
                          (String.length fp))
         | _ => None
         end) = Some v).
  { intros neg. rewrite Hspan.
    destruct Hf as [->|(a & b & -> & Ha & Hb)].
    - rewrite Hlen. eexists. reflexivity.
    - rewrite Ascii.eqb_refl. simpl span_digits. rewrite Ha, Hb.
      rewrite Hlen. eexists. reflexivity. }
  split.
  - unfold float_of_string. destruct D as [|c D']; [congruence|].
    change (String c D' ++ f) with (String c (D' ++ f)).
    simpl in HD. apply andb_true_iff in HD. destruct HD as [Hc _].
    rewrite (digit_not_minus _ Hc).
    exact (Hbody false).
  - unfold float_of_string. rewrite Ascii.eqb_refl. exact (Hbody true).
Qed.

Lemma float_of_token :
  forall tok,
    is_token tok -> exists v, float_of_string (replace "," "" tok) = Some v.
Proof.
  intros tok (s & r & H).
  assert (U : forall s t r,
             unsigned_match s = Some (t, r) ->
             exists D f,
               replace "," "" t = D ++ f /\ all_chars isdigit D = true
               /\ D <> ""
               /\ (f = ""
                   \/ exists a b, f = String "." (String a (String b ""))
                                  /\ isdigit a = true /\ isdigit b = true)).
  { clear. intros s t r H.
    destruct (unsigned_match_spec _ _ _ H)
      as (d & g & f & -> & _ & [Hd Hde Hg _ Hf]).
    exists (d ++ replace "," "" g), f.
    rewrite !replace_comma_append, (replace_comma_digits _ Hd).
    split.
    - rewrite append_assoc. f_equal. f_equal.
      destruct Hf as [->|(a & b & -> & Ha & Hb)]; [reflexivity|].
      rewrite !replace_comma_cons. simpl.
      rewrite (digit_not_comma _ Ha), (digit_not_comma _ Hb). reflexivity.
    - split; [|split; [|exact Hf]].
      + rewrite all_chars_append, Hd. now apply replace_comma_groups.
      + apply ends_digit_not_nil in Hde.
        destruct d; [congruence|discriminate]. }
  unfold match_at in H. destruct s as [|c s']; [discriminate|].
  destruct (Ascii.eqb c "-") eqn:Ec.
  - apply Ascii.eqb_eq in Ec. subst c.
    destruct (unsigned_match s') as [[t r']|] eqn:E; [|discriminate].
    injection H as <- _.
    destruct (U _ _ _ E) as (D & f & HR & HD & HN & Hf).
    rewrite replace_comma_cons. simpl. rewrite HR.
    exact (proj2 (float_of_digits_fraction D f HD HN Hf)).
  - destruct (U _ _ _ H) as (D & f & HR & HD & HN & Hf). rewrite HR.
    exact (proj1 (float_of_digits_fraction D f HD HN Hf)).
Qed.

(** ** The record of a line with at least two tokens *)

Lemma line_record_core :
  forall line l i A j B,
    finditer (strip line) = (l ++ [(i, A); (j, B)])%list ->
    exists cur ytd,
      float_of_string (replace "," "" A) = Some cur
      /\ float_of_string (replace "," "" B) = Some ytd
      /\ line_to_category_and_numbers line
         = if any_char isalpha (substring 0 i (strip line))
           then (Some (category_of_head (substring 0 i (strip line))),
                 Some cur, Some ytd)
           else (None, None, None).
Proof.
  intros line l i A j B H.
  destruct (finditer_last_two _ _ _ _ _ _ _ _ (le_n _) H)
    as (pre & g & t & Hs & Hi & Hg & Ht & HA & HB).
  destruct (float_of_token A HA) as (cur & Hcur).
  destruct (float_of_token B HB) as (ytd & Hytd).
  exists cur, ytd. split; [exact Hcur|]. split; [exact Hytd|].
  unfold line_to_category_and_numbers.
  rewrite findall_finditer, H.
  rewrite map_app, rev_app_distr. cbn [map rev app snd].
  rewrite Hcur, Hytd.
  assert (Hpre : substring 0 i (strip line) = pre).
  { rewrite Hs. simpl in Hi. subst i. apply substring_0_append. }
  rewrite Hpre.
  destruct (strip line) as [|c s'] eqn:Es.
  { destruct l; discriminate. }
  rewrite Hs.
  rewrite (head_of_line pre A g B t (is_token_ends_digit _ HA)
             (is_token_ends_digit _ HB) Hg Ht).
  unfold rstrip at 1. rewrite (any_char_rstrip _ _ _ alpha_not_space).
  destruct (any_char isalpha pre); reflexivity.
Qed.





(** ** Exit codes *)

Lemma split_not_nil : forall sep s, split sep s <> [].
Proof.
  intros sep s. destruct s as [|c s']; simpl.
  - discriminate.
  - destruct (Ascii.eqb c sep); [discriminate|].
    destruct (split sep s'); discriminate.
Qed.

(** A missing input path ends the run with exit code 1. *)
Lemma main_missing_input_exits_1 :
  forall w, input_exists w = false -> main w = SysExit 1.
Proof. intros w H. unfold main. rewrite H. reflexivity. Qed.

Lemma export_returns :
  forall g ps, exists out, export g ps = Returned out.
Proof.
  intros g ps. unfold export.
  destruct (write_provider_csvs_from_entries ps). eexists. reflexivity.
Qed.

(** The page list that [str.split] returns is never empty, so neither
    [sys.exit(2)] is reachable. *)
Lemma main_never_exits_2 : forall w, main w <> SysExit 2.
Proof.
  intros w. unfold main.
  destruct (negb (input_exists w)); [discriminate|].
  destruct (arg_hybrid w).
  - destruct (text_from_input w) as [ocr|]; [|discriminate].
    destruct (text_from_poppler w) as [dec|]; [|discriminate].
    destruct (split form_feed ocr) as [|a l] eqn:E1;
      [exfalso; exact (split_not_nil _ _ E1)|].
    destruct (split form_feed (decode_caesar_shift_with 29 19 94 dec))
      as [|b l'] eqn:E2; [exfalso; exact (split_not_nil _ _ E2)|].
    destruct (page_images_ok w); [|discriminate].
    match goal with
    | |- export ?g ?ps <> _ =>
        destruct (export_returns g ps) as [out ->]; discriminate
    end.
  - match goal with
    | |- match ?t with _ => _ end <> _ => destruct t as [text|]
    end; [|discriminate].
    destruct (split form_feed text) as [|a l] eqn:E1;
      [exfalso; exact (split_not_nil _ _ E1)|].
    match goal with
    | |- export ?g ?ps <> _ =>
        destruct (export_returns g ps) as [out ->]; discriminate
    end.
Qed.

(** C1, at the failing input: an existing input whose text is empty.  The
    page list is [[""]], the emptiness test does not fire, and the run
    writes empty tables and returns (exit code 0) instead of exiting
    with code 2. *)
Theorem main_empty_text_returns :
  main (plain_world true "")
  = Returned {| out_group_rows := [];
                out_provider_entries := [];
                out_provider_categories_csv := [provider_categories_header];
                out_provider_totals_csv := [provider_totals_header] |}
  /\ main (plain_world true "") <> SysExit 2.
Proof.
  split; [vm_compute; reflexivity | apply main_never_exits_2].
Qed.

(** ** Provider totals *)

Lemma find_total_row_spec :
  forall rows,
    (exists pre r post,
        rows = (pre ++ r :: post)%list /\ Forall not_total pre
        /\ is_total_claims_row r = true
        /\ find_total_row rows = (Some (row_cur r), Some (row_ytd r)))
    \/ (Forall not_total rows /\ find_total_row rows = (None, None)).
Proof.
  induction rows as [|r rows IH]; simpl.
  - right. split; [constructor | reflexivity].
  - destruct (is_total_claims_row r) eqn:E.
    + left. exists [], r, rows. repeat split; auto.
    + destruct IH as [(pre & r0 & post & -> & Hpre & Hr0 & Hf)|[Hall Hf]].
      * left. exists (r :: pre), r0, post. repeat split; auto.
      * right. split; auto.
Qed.

Lemma provider_totals_as_claimed :
  forall rows c y, provider_totals rows = (c, y) -> totals_as_claimed rows c y.
Proof.
  intros rows c y. unfold provider_totals.
  destruct (find_total_row_spec rows)
    as [(pre & r & post & E & Hpre & Hr & ->)|[Hall ->]].
  - intros [= <- <-]. left. exists pre, r, post. auto.
  - intros [= <- <-]. right. auto.
Qed.





(** An entry that carries no stored totals is written with the sums of
    its rows. *)
Lemma totals_line_without_stored_totals :
  forall p,
    p_total_cur p = None \/ p_total_ytd p = None ->
    totals_line p
    = [p_name p; or_empty (p_id p);
       format_2f (pysum (map row_cur (p_rows p)));
       format_2f (pysum (map row_ytd (p_rows p)))].
Proof.
  intros p H. unfold totals_line.
  destruct (p_total_cur p), (p_total_ytd p); try reflexivity.
  destruct H; discriminate.
Qed.


Lemma Forall_map_intro :
  forall (A B : Type) (P : B -> Prop) (f : A -> B) (l : list A),
    (forall a, P (f a)) -> Forall P (map f l).
Proof. induction l; simpl; intros; constructor; auto. Qed.



(** ** Group sections *)

Lemma section_step_label :
  forall st raw st' r,
    section_step st raw = (st', Some r) -> label_without_total r.
Proof.
  intros [ptype expect] raw st' r. unfold section_step.
  repeat match goal with
         | |- context [if ?b then _ else _] =>
             lazymatch b with
             | contains "TOTAL" _ => fail
             | _ => destruct b
             end
         | |- (_, None) = (_, Some _) -> _ => discriminate
         | |- context [match ptype with _ => _ end] => destruct ptype
         end.
  destruct (contains "TOTAL" _) eqn:E; [discriminate|].
  destruct (last_two _) as [[c y]|]; [|discriminate].
  destruct (_decoded_num_to_float c); [|discriminate].
  destruct (_decoded_num_to_float y); [|discriminate].
  intros [= _ <-]. exact E.
Qed.

Lemma section_lines_labels :
  forall lines st st' ys,
    section_lines st lines = (st', ys) -> Forall label_without_total ys.
Proof.
  induction lines as [|raw rest IH]; intros st st' ys; simpl.
  - intros [= _ <-]. constructor.
  - destruct (section_step st raw) as [st1 y] eqn:E1.
    destruct (section_lines st1 rest) as [st2 ys'] eqn:E2.
    intros [= _ <-]. specialize (IH _ _ _ E2).
    destruct y as [r|]; [|exact IH].
    constructor; [exact (section_step_label _ _ _ _ E1) | exact IH].
Qed.

Lemma section_pages_labels :
  forall pages st, Forall label_without_total (section_pages st pages).
Proof.
  induction pages as [|pg rest IH]; intros st; simpl.
  - constructor.
  - destruct (section_lines st _) as [st1 ys] eqn:E.
    apply Forall_app.
    split; [exact (section_lines_labels _ _ _ _ E) | apply IH].
Qed.

(** C8: no tuple yielded by [_iter_group_sections_from_decoded] has a
    normalized label that contains "TOTAL" once upper-cased: subtotal rows
    are not among the yielded line items, whatever the pages. *)
Theorem iter_group_sections_excludes_totals :
  forall pages_dec r,
    In r (_iter_group_sections_from_decoded pages_dec) ->
    contains "TOTAL" (upper (section_label r)) = false.
Proof.
  intros pages r Hin.
  exact (proj1 (Forall_forall _ _) (section_pages_labels pages _) r Hin).
Qed.

Lemma iter_group_sections_excludes_totals_witness :
  In ("GROUP PAYMENTS", "ACCESS BONUS PAYMENT",
      of_decimal false 100 2, of_decimal false 200 2)
    (_iter_group_sections_from_decoded [sample_group_page])
  /\ contains "TOTAL" (upper "ACCESS BONUS PAYMENT") = false.
Proof.
  assert (H : In ("GROUP PAYMENTS", "ACCESS BONUS PAYMENT",
                  of_decimal false 100 2, of_decimal false 200 2)
                (_iter_group_sections_from_decoded [sample_group_page]))
    by (vm_compute; left; reflexivity).
  split; [exact H|].
  exact (iter_group_sections_excludes_totals [sample_group_page] _ H).
Defined.

(** ** Tokens are matched locally *)

Section Local.

Variables (c0 : ascii) (R : string).
Hypothesis Hstop : stops c0.

Let x := String c0 R.

Lemma lead_digits_local :
  forall s,
    lead_digits (s ++ x)
    = match lead_digits s with
      | Some (d, r) => Some (d, r ++ x)
      | None => None
      end.
Proof.
  destruct Hstop as (Hd & _).
  intros s. unfold lead_digits, x.
  destruct s as [|a [|b [|c r3]]]; simpl; rewrite ?Hd; try reflexivity;
    repeat match goal with
           | |- context [if ?b then _ else _] => destruct b
           end; reflexivity.
Qed.

Lemma comma_groups_local :
  forall n s,
    String.length s <= n ->
    comma_groups (s ++ x)
    = let (g, r) := comma_groups s in (g, r ++ x).
Proof.
  destruct Hstop as (Hd & Hc & _).
  induction n as [|n IH]; intros s L.
  - destruct s; [|simpl in L; lia]. unfold x. simpl.
    destruct R as [|? [|? [|? ?]]]; rewrite ?Hc; reflexivity.
  - destruct s as [|p [|a [|b [|c s']]]]; unfold x in *.
    + simpl. destruct R as [|? [|? [|? ?]]]; rewrite ?Hc; reflexivity.
    + simpl. destruct R as [|? [|? ?]]; try reflexivity;
        rewrite Hd, ?andb_false_r; reflexivity.
    + simpl. destruct R as [|? ?]; try reflexivity;
        rewrite Hd, ?andb_false_r; reflexivity.
    + simpl. rewrite Hd, ?andb_false_r. reflexivity.
    + change ((String p (String a (String b (String c s'))) ++ String c0 R))
        with (String p (String a (String b (String c (s' ++ String c0 R))))).
      cbn [comma_groups].
      destruct (Ascii.eqb p "," && isdigit a && isdigit b && isdigit c);
        [|reflexivity].
      rewrite (IH s' ltac:(simpl in L; lia)).
      destruct (comma_groups s'). reflexivity.
Qed.

Lemma fraction_local :
  forall s,
    fraction (s ++ x) = let (f, r) := fraction s in (f, r ++ x).
Proof.
  destruct Hstop as (Hd & _ & Hdot & _).
  intros s. unfold fraction, x.
  destruct s as [|p [|a [|b s']]]; simpl.
  - destruct R as [|? [|? ?]]; rewrite ?Hdot; reflexivity.
  - destruct R as [|? ?]; rewrite ?Hd, ?andb_false_r; reflexivity.
  - rewrite Hd, ?andb_false_r. reflexivity.
  - destruct (Ascii.eqb p "." && isdigit a && isdigit b); reflexivity.
Qed.

Lemma unsigned_match_local :
  forall s,
    unsigned_match (s ++ x)
    = match unsigned_match s with
      | Some (t, r) => Some (t, r ++ x)
      | None => None
      end.
Proof.
  intros s. unfold unsigned_match. rewrite lead_digits_local.
  destruct (lead_digits s) as [[d r1]|]; [|reflexivity].
  rewrite (comma_groups_local _ r1 (le_n _)).
  destruct (comma_groups r1) as [g r2].
  rewrite fraction_local. destruct (fraction r2) as [f r3]. reflexivity.
Qed.

(** What is matched at the start of a non-empty text does not depend on
    what follows a stopping character. *)
Lemma match_at_local :
  forall s,
    s <> "" ->
    match_at (s ++ x)
    = match match_at s with
      | Some (t, r) => Some (t, r ++ x)
      | None => None
      end.
Proof.
  intros [|c s'] N; [congruence|].
  change (String c s' ++ x) with (String c (s' ++ x)).
  unfold match_at. destruct (Ascii.eqb c "-").
  - rewrite unsigned_match_local.
    destruct (unsigned_match s') as [[t r]|]; reflexivity.
  - change (String c (s' ++ x)) with (String c s' ++ x).
    apply unsigned_match_local.
Qed.

Lemma match_at_stop : match_at x = None.
Proof.
  destruct Hstop as (Hd & _ & _ & Hm).
  unfold x, match_at. rewrite Hm. unfold unsigned_match, lead_digits.
  now rewrite Hd.
Qed.

(** The scan of a text cut at a stopping character is the scan of the two
    parts. *)
Lemma finditer_from_cut :
  forall n P pos,
    String.length P <= n ->
    finditer_from pos 0 (P ++ x)
    = (finditer_from pos 0 P
         ++ finditer_from (pos + String.length P + 1) 0 R)%list.
Proof.
  induction n as [|n IH]; intros P pos L.
  - destruct P; [|simpl in L; lia]. cbn [append String.length].
    rewrite finditer_from_step, match_at_stop. unfold x.
    cbn [app finditer_from]. f_equal. lia.
  - destruct P as [|c P'].
    + cbn [append String.length].
      rewrite finditer_from_step, match_at_stop. unfold x.
      cbn [app finditer_from]. f_equal. lia.
    + rewrite (finditer_from_step (String c P' ++ x)).
      rewrite (finditer_from_step (String c P')).
      rewrite match_at_local by discriminate.
      destruct (match_at (String c P')) as [[tok r]|] eqn:E.
      * destruct (match_at_spec _ _ _ E) as (Hs & Hd).
        assert (Lr : String.length r <= n /\
                     String.length (String c P')
                     = String.length tok + String.length r).
        { rewrite Hs, length_append. split; [|reflexivity].
          apply (f_equal String.length) in Hs.
          rewrite length_append in Hs. simpl in L, Hs.
          destruct tok; [now apply ends_digit_not_nil in Hd|].
          simpl in Hs. lia. }
        destruct Lr as [Lr El].
        rewrite (IH r _ Lr). cbn [app]. f_equal. f_equal. f_equal. lia.
      * change (String c P' ++ x) with (String c (P' ++ x)).
        cbn iota. rewrite (IH P' _ ltac:(simpl in L; lia)).
        f_equal. f_equal. simpl. lia.
Qed.

End Local.

(** ** Labels *)

Lemma tidy_collapse_ws : forall s, tidy (collapse_ws s) = true.
Proof.
  induction s as [|c s IH]; [reflexivity|].
  cbn [collapse_ws]. destruct (isspace c) eqn:Hc.
  - destruct s as [|c' s']; [reflexivity|].
    destruct (isspace c') eqn:Hc'; [exact IH|].
    cbn [collapse_ws] in *. rewrite Hc' in *.
    cbn [tidy]. cbn [tidy] in IH. rewrite Hc' in *.
    simpl. exact IH.
  - cbn [tidy]. rewrite Hc. exact IH.
Qed.

Lemma collapse_ws_tidy : forall s, tidy s = true -> collapse_ws s = s.
Proof.
  induction s as [|c s IH]; [reflexivity|].
  cbn [tidy collapse_ws]. intros H.
  apply andb_true_iff in H. destruct H as [Hc Hs].
  rewrite (IH Hs). destruct (isspace c); [|reflexivity].
  apply andb_true_iff in Hc. destruct Hc as [Hc Hn].
  apply Ascii.eqb_eq in Hc. subst c.
  destruct s as [|c' s']; [reflexivity|].
  apply negb_true_iff in Hn. now rewrite Hn.
Qed.

Lemma tidy_suffix : forall a b, tidy (a ++ b) = true -> tidy b = true.
Proof.
  induction a as [|c a IH]; intros b H; [exact H|].
  change (String c a ++ b) with (String c (a ++ b)) in H.
  cbn [tidy] in H. apply andb_true_iff in H. now apply IH.
Qed.

Lemma tidy_prefix : forall a b, tidy (a ++ b) = true -> tidy a = true.
Proof.
  induction a as [|c a IH]; intros b H; [reflexivity|].
  change (String c a ++ b) with (String c (a ++ b)) in H.
  cbn [tidy] in *. apply andb_true_iff in H. destruct H as [Hc Hs].
  rewrite (IH _ Hs), andb_true_r.
  destruct (isspace c); [|reflexivity].
  apply andb_true_iff in Hc. destruct Hc as [-> Hn].
  destruct a; [reflexivity | exact Hn].
Qed.

Lemma tidy_snoc :
  forall a x,
    tidy a = true -> isspace x = false -> tidy (a ++ String x "") = true.
Proof.
  induction a as [|c a IH]; intros x Ha Hx.
  - simpl. now rewrite Hx.
  - change (String c a ++ String x "") with (String c (a ++ String x "")).
    cbn [tidy] in *. apply andb_true_iff in Ha. destruct Ha as [Hc Hs].
    rewrite (IH _ Hs Hx), andb_true_r.
    destruct (isspace c); [|reflexivity].
    apply andb_true_iff in Hc. destruct Hc as [-> Hn].
    destruct a; simpl; [now rewrite Hx | exact Hn].
Qed.

Lemma lstrip_chars_split :
  forall p s, exists t, s = t ++ lstrip_chars p s /\ all_chars p t = true.
Proof.
  intros p. induction s as [|c s IH].
  - exists "". auto.
  - cbn [lstrip_chars]. destruct (p c) eqn:Hc.
    + destruct IH as (t & Hs & Ht). exists (String c t). simpl.
      rewrite Hc, Ht. split; [now rewrite Hs at 1 | reflexivity].
    + exists "". auto.
Qed.

Lemma tidy_strip_chars :
  forall p s, tidy s = true -> tidy (strip_chars p s) = true.
Proof.
  intros p s H. unfold strip_chars.
  destruct (lstrip_chars_split p s) as (t & Hs & _).
  rewrite Hs in H. apply tidy_suffix in H.
  destruct (rstrip_chars_split p (lstrip_chars p s)) as (u & Hu & _).
  rewrite Hu in H. now apply tidy_prefix in H.
Qed.

Lemma led_lstrip_chars : forall p s, led p (lstrip_chars p s).
Proof.
  intros p. induction s as [|c s IH]; [exact I|].
  cbn [lstrip_chars]. destruct (p c) eqn:Hc; [exact IH | exact Hc].
Qed.

Lemma lstrip_chars_led : forall p s, led p s -> lstrip_chars p s = s.
Proof. intros p [|c s] H; [reflexivity|]. simpl in *. now rewrite H. Qed.

Lemma led_rstrip_chars : forall p s, led p s -> led p (rstrip_chars p s).
Proof.
  intros p [|c s] H; [exact I|]. cbn [rstrip_chars].
  destruct (rstrip_chars p s); [|exact H].
  simpl in H. rewrite H. exact H.
Qed.

Lemma rstrip_chars_idem :
  forall p s, rstrip_chars p (rstrip_chars p s) = rstrip_chars p s.
Proof.
  intros p. induction s as [|c s IH]; [reflexivity|].
  cbn [rstrip_chars]. destruct (rstrip_chars p s) as [|c' r] eqn:E.
  - destruct (p c) eqn:Hc; [reflexivity|]. simpl. now rewrite Hc.
  - cbn [rstrip_chars]. cbn [rstrip_chars] in IH. rewrite IH. reflexivity.
Qed.

Lemma rstrip_chars_length :
  forall p s, String.length (rstrip_chars p s) <= String.length s.
Proof.
  intros p s. destruct (rstrip_chars_split p s) as (t & Hs & _).
  rewrite Hs at 2. rewrite length_append. lia.
Qed.

Lemma rstrip_fixed_last :
  forall p h x,
    rstrip_chars p (h ++ String x "") = h ++ String x "" -> p x = false.
Proof.
  intros p h x H. destruct (p x) eqn:Hx; [|reflexivity].
  rewrite rstrip_chars_append in H. simpl in H. rewrite Hx in H.
  apply (f_equal String.length) in H. rewrite length_append in H.
  pose proof (rstrip_chars_length p h). simpl in H. lia.
Qed.

Lemma alpha_not_separator : forall c, isalpha c = true -> separator c = false.
Proof.
  intros c H. unfold separator, in_chars. simpl.
  destruct (Ascii.eqb_spec c ":") as [->|_]; [discriminate|].
  destruct (Ascii.eqb_spec c "-") as [->|_]; [discriminate|].
  destruct (Ascii.eqb_spec c " ") as [->|_]; [discriminate|].
  reflexivity.
Qed.

Lemma any_char_lstrip :
  forall p q s,
    (forall c, p c = true -> q c = false) ->
    any_char p (lstrip_chars q s) = any_char p s.
Proof.
  intros p q s H. induction s as [|c s IH]; [reflexivity|].
  cbn [lstrip_chars]. destruct (q c) eqn:Hq; [|reflexivity].
  rewrite IH. simpl. destruct (p c) eqn:Hp; [|reflexivity].
  apply H in Hp. congruence.
Qed.

Lemma any_alpha_collapse_ws :
  forall s, any_char isalpha (collapse_ws s) = any_char isalpha s.
Proof.
  induction s as [|c s IH]; [reflexivity|].
  cbn [collapse_ws any_char]. destruct (isspace c) eqn:Hc.
  - assert (Ha : isalpha c = false).
    { destruct (isalpha c) eqn:E; [|reflexivity].
      apply alpha_not_space in E. congruence. }
    rewrite Ha. destruct s as [|c' s']; [reflexivity|].
    destruct (isspace c'); [exact IH|].
    cbn [any_char]. rewrite IH. reflexivity.
  - cbn [any_char]. now rewrite IH.
Qed.

Lemma canonical_values_clean :
  forall v, In v (map snd _CATEGORY_CANON) -> label_clean v.
Proof.
  intros v H. simpl in H.
  repeat (destruct H as [<-|H];
          [constructor; vm_compute; reflexivity|]).
  contradiction.
Qed.

Lemma strip_tidy_trimmed :
  forall h,
    tidy h = true -> led separator h -> rstrip_chars separator h = h ->
    strip h = h.
Proof.
  intros h Ht Hl Hr. unfold strip, strip_chars.
  assert (L : lstrip_chars isspace h = h).
  { apply lstrip_chars_led. destruct h as [|c h']; [exact I|].
    simpl in Hl |- *. destruct (isspace c) eqn:Hc; [|reflexivity].
    cbn [tidy] in Ht. rewrite Hc in Ht.
    apply andb_true_iff in Ht. destruct Ht as [Ht _].
    apply andb_true_iff in Ht. destruct Ht as [Ht _].
    apply Ascii.eqb_eq in Ht. subst c. discriminate. }
  rewrite L. destruct (snoc_view h) as [->|(h0 & x & ->)]; [reflexivity|].
  apply rstrip_chars_snoc.
  apply rstrip_fixed_last in Hr. apply tidy_suffix in Ht.
  destruct (isspace x) eqn:Hx; [|reflexivity].
  cbn [tidy] in Ht. rewrite Hx in Ht.
  apply andb_true_iff in Ht. destruct Ht as [Ht _].
  apply andb_true_iff in Ht. destruct Ht as [Ht _].
  apply Ascii.eqb_eq in Ht. subst x. discriminate.
Qed.

(** Every label that the heuristic returns is clean. *)
Lemma parsed_label_clean :
  forall line cat cur ytd,
    line_to_category_and_numbers line = (Some cat, cur, ytd) ->
    label_clean cat.
Proof.
  intros line cat cur ytd. unfold line_to_category_and_numbers, no_record.
  destruct (strip line) as [|c l]; [discriminate|].
  destruct (rev (findall (String c l))) as [|last [|prev rest]];
    try discriminate.
  destruct (float_of_string (replace "," "" prev)); [|discriminate].
  destruct (float_of_string (replace "," "" last)); [|discriminate].
  match goal with
  | |- context [any_char isalpha ?h] =>
      set (head := h); destruct (any_char isalpha head) eqn:Halpha
  end; [|discriminate].
  cbn [negb]. intros [= <- _ _].
  fold separator.
  set (h := strip_chars separator (collapse_ws head)).
  assert (Ht : tidy h = true)
    by (apply tidy_strip_chars, tidy_collapse_ws).
  assert (Hl : led separator h)
    by (apply led_rstrip_chars, led_lstrip_chars).
  assert (Hr : rstrip_chars separator h = h) by apply rstrip_chars_idem.
  assert (Ha : any_char isalpha h = true).
  { unfold h, strip_chars.
    rewrite (any_char_rstrip _ _ _ alpha_not_separator).
    rewrite (any_char_lstrip _ _ _ alpha_not_separator).
    now rewrite any_alpha_collapse_ws. }
  destruct (normalize_category_cases h) as [Hv|(_ & _ & Hs)].
  - now apply canonical_values_clean.
  - rewrite (strip_tidy_trimmed h Ht Hl Hr) in Hs.
    rewrite Hs. constructor; assumption.
Qed.

(** ** Reading a rendered row back *)

Lemma stops_space : stops " ".
Proof. repeat split. Qed.

Lemma stops_semicolon : stops ";".
Proof. repeat split. Qed.

Lemma lstrip_chars_all :
  forall p t x,
    all_chars p t = true -> led p x -> lstrip_chars p (t ++ x) = x.
Proof.
  intros p. induction t as [|c t IH]; intros x Ht Hx.
  - now apply lstrip_chars_led.
  - simpl in Ht. apply andb_true_iff in Ht. destruct Ht as [Hc Ht].
    simpl. rewrite Hc. now apply IH.
Qed.

Lemma clean_label_head :
  forall cat,
    label_clean cat ->
    exists c rest,
      cat = String c rest /\ separator c = false /\ isspace c = false.
Proof.
  intros cat [Ha Ht Hl _ _]. destruct cat as [|c rest]; [discriminate|].
  exists c, rest. split; [reflexivity|]. simpl in Hl. split; [exact Hl|].
  destruct (isspace c) eqn:Hc; [|reflexivity].
  cbn [tidy] in Ht. rewrite Hc in Ht.
  apply andb_true_iff in Ht. destruct Ht as [Ht _].
  apply andb_true_iff in Ht. destruct Ht as [Ht _].
  apply Ascii.eqb_eq in Ht. subst c. discriminate.
Qed.

(** The text in front of the amounts of a rendered row gives the label
    back. *)
Lemma category_of_rendered_head :
  forall cat,
    label_clean cat ->
    category_of_head ("- " ++ cat ++ ": ") = cat
    /\ any_char isalpha ("- " ++ cat ++ ": ") = true.
Proof.
  intros cat H.
  destruct (clean_label_head cat H) as (c & rest & E & Hsep & Hsp).
  destruct H as [Ha Ht Hl Hr Hn]. split.
  - unfold category_of_head.
    assert (E1 : rstrip ("- " ++ cat ++ ": ") = "- " ++ cat ++ ":").
    { unfold rstrip.
      replace ("- " ++ cat ++ ": ")
        with (("- " ++ cat ++ ":") ++ " ")
        by (simpl; now rewrite append_assoc).
      rewrite rstrip_chars_append. simpl rstrip_chars at 1.
      replace ("- " ++ cat ++ ":") with (("- " ++ cat) ++ ":")
        by (simpl; reflexivity).
      now apply rstrip_chars_snoc. }
    rewrite E1.
    assert (E2 : collapse_ws ("- " ++ cat ++ ":") = "- " ++ cat ++ ":").
    { apply collapse_ws_tidy.
      assert (T : tidy (cat ++ ":") = true) by now apply tidy_snoc.
      rewrite E in *. simpl. simpl in T. rewrite Hsp in *. exact T. }
    rewrite E2. fold separator.
    assert (E3 : strip_chars separator ("- " ++ cat ++ ":") = cat).
    { unfold strip_chars.
      assert (L : lstrip_chars separator ("- " ++ cat ++ ":") = cat ++ ":").
      { rewrite E. simpl. now rewrite Hsep. }
      rewrite L, rstrip_chars_append. simpl. exact Hr. }
    rewrite E3. exact Hn.
  - simpl. rewrite any_char_append, Ha. reflexivity.
Qed.

Lemma finditer_amounts :
  forall A B pos,
    match_at A = Some (A, "") -> match_at B = Some (B, "") ->
    exists j,
      finditer_from pos 0 (A ++ String ";" (String " " B))
      = [(pos, A); (j, B)].
Proof.
  intros A B pos HA HB.
  assert (NA : A <> "").
  { apply ends_digit_not_nil. exact (proj2 (match_at_spec _ _ _ HA)). }
  rewrite finditer_from_step.
  rewrite (match_at_local ";" _ stops_semicolon A NA), HA.
  cbn [append].
  rewrite finditer_from_step, (match_at_stop ";" _ stops_semicolon).
  rewrite finditer_from_step, (match_at_stop " " _ stops_space).
  rewrite finditer_from_step, HB.
  eexists. reflexivity.
Qed.

Lemma row_line_reads_back_core :
  forall indent cat cur ytd,
    label_clean cat -> reads_back cur -> reads_back ytd ->
    all_chars isspace indent = true ->
    line_to_category_and_numbers (row_line indent (cat, cur, ytd))
    = (Some cat, Some cur, Some ytd).
Proof.
  intros indent cat cur ytd Hcat (TA & FA) (TB & FB) Hind.
  unfold row_line, row_cat, row_cur, row_ytd. cbn [fst snd].
  set (A := format_c2f cur) in *. set (B := format_c2f ytd) in *.
  set (P := "- " ++ cat ++ ":").
  set (R := A ++ String ";" (String " " B)).
  assert (Ecore : "- " ++ cat ++ ": " ++ A ++ "; " ++ B
                  = P ++ String " " R).
  { unfold P, R. simpl. now rewrite append_assoc. }
  assert (HBd : ends_digit B) by exact (proj2 (match_at_spec _ _ _ TB)).
  assert (Estrip : strip (indent ++ "- " ++ cat ++ ": " ++ A ++ "; " ++ B)
                   = P ++ String " " R).
  { unfold strip, strip_chars.
    rewrite lstrip_chars_all; [|exact Hind|reflexivity].
    rewrite Ecore. destruct HBd as (B0 & d & EB & Hd).
    replace (P ++ String " " R)
      with ((P ++ String " " (A ++ String ";" (String " " B0)))
              ++ String d "").
    - apply rstrip_chars_snoc. now apply digit_not_space.
    - unfold R. rewrite EB. rewrite ?append_assoc. simpl.
      rewrite ?append_assoc. reflexivity. }
  destruct (finditer_amounts A B (0 + String.length P + 1) TA TB)
    as (j & Hfi).
  assert (Hscan :
    finditer (strip (indent ++ "- " ++ cat ++ ": " ++ A ++ "; " ++ B))
    = (finditer_from 0 0 P
         ++ [(String.length P + 1, A); (j, B)])%list).
  { rewrite Estrip. unfold finditer.
    rewrite (finditer_from_cut " " R stops_space _ P 0 (le_n _)).
    unfold R. now rewrite Hfi. }
  destruct (line_record_core _ _ _ _ _ _ Hscan)
    as (cur' & ytd' & Hc & Hy & Hrec).
  fold A in FA. fold B in FB.
  rewrite FA in Hc. rewrite FB in Hy.
  injection Hc as <-. injection Hy as <-.
  rewrite Hrec, Estrip.
  assert (Epre : substring 0 (String.length P + 1) (P ++ String " " R)
                 = "- " ++ cat ++ ": ").
  { replace (P ++ String " " R) with ((P ++ " ") ++ R)
      by now rewrite append_assoc.
    replace (String.length P + 1) with (String.length (P ++ " "))
      by (rewrite length_append; reflexivity).
    rewrite substring_0_append. unfold P. simpl. now rewrite append_assoc. }
  rewrite Epre.
  destruct (category_of_rendered_head cat Hcat) as [-> ->]. reflexivity.
Qed.

(** ** Lines of a text *)

Lemma splitlines_line :
  forall l Z,
    no_linebreak l ->
    splitlines (l ++ newline ++ Z) = l :: splitlines Z.
Proof.
  induction l as [|c l IH]; intros Z H; [reflexivity|].
  unfold no_linebreak in H. cbn [any_char] in H.
  apply orb_false_iff in H. destruct H as [Hc Hl].
  change (String c l ++ newline ++ Z) with (String c (l ++ newline ++ Z)).
  cbn [splitlines].
  assert (Hcr : Ascii.eqb c "013" = false).
  { apply Ascii.eqb_neq. intros ->. discriminate. }
  rewrite Hcr, Hc, (IH Z Hl). reflexivity.
Qed.

Lemma in_tl : forall (A : Type) (x : A) (l : list A), In x (tl l) -> In x l.
Proof. intros A x [|y l] H; [exact H | right; exact H]. Qed.

(** A line between two newlines is one of the lines of the text, and not
    the first. *)
Lemma splitlines_inner_line :
  forall l Z,
    no_linebreak l ->
    forall n X,
      String.length X <= n ->
      In l (tl (splitlines (X ++ newline ++ l ++ newline ++ Z))).
Proof.
  intros l Z Hl. induction n as [|n IH]; intros X L.
  - destruct X; [|simpl in L; lia].
    change ("" ++ newline ++ l ++ newline ++ Z)
      with (String "010" (l ++ newline ++ Z)).
    cbn [splitlines]. simpl Ascii.eqb. cbn iota.
    change (islinebreak "010") with true. cbn iota. cbn [tl].
    rewrite (splitlines_line l Z Hl). left; reflexivity.
  - destruct X as [|c X'].
    { apply (IH ""). simpl. lia. }
    assert (IH' : In l (splitlines (X' ++ newline ++ l ++ newline ++ Z))).
    { apply in_tl, IH. simpl in L; lia. }
    change (String c X' ++ newline ++ l ++ newline ++ Z)
      with (String c (X' ++ newline ++ l ++ newline ++ Z)).
    cbn [splitlines]. destruct (Ascii.eqb c "013").
    + destruct X' as [|c' X''].
      * change ("" ++ newline ++ l ++ newline ++ Z)
          with (String "010" (l ++ newline ++ Z)).
        cbn iota. simpl Ascii.eqb. cbn iota. cbn [tl].
        rewrite (splitlines_line l Z Hl). left; reflexivity.
      * change (String c' X'' ++ newline ++ l ++ newline ++ Z)
          with (String c' (X'' ++ newline ++ l ++ newline ++ Z)) in *.
        cbn iota. destruct (Ascii.eqb c' "010"); [|exact IH'].
        cbn [tl]. apply in_tl, IH. simpl in L; lia.
    + destruct (islinebreak c); [exact IH'|].
      assert (G := IH X' ltac:(simpl in L; lia)).
      destruct (splitlines (X' ++ newline ++ l ++ newline ++ Z));
        [destruct G | exact G].
Qed.

Lemma join_cons :
  forall sep x t,
    t <> [] -> join sep (x :: t) = x ++ sep ++ join sep t.
Proof. intros sep x [|y t] H; [congruence | reflexivity]. Qed.

(** The text around a line that is not the first of a joined list. *)
Lemma join_around :
  forall l L1 L2,
    L1 <> [] ->
    exists X W,
      join newline (L1 ++ l :: L2)%list = (X ++ newline) ++ l ++ W
      /\ (W = "" \/ exists W', W = newline ++ W').
Proof.
  intros l. induction L1 as [|a L1 IH]; intros L2 H; [congruence|].
  destruct L1 as [|b L1].
  - exists a. cbn [app]. rewrite join_cons by discriminate.
    destruct L2 as [|y L2].
    + exists "".
      split; [simpl; now rewrite append_nil_r, append_assoc | now left].
    + exists (newline ++ join newline (y :: L2)).
      split; [|right; eexists; reflexivity].
      rewrite join_cons by discriminate. now rewrite append_assoc.
  - destruct (IH L2 ltac:(discriminate)) as (X & W & E & HW).
    exists (a ++ newline ++ X), W. split; [|exact HW].
    change ((a :: b :: L1) ++ l :: L2)%list
      with (a :: ((b :: L1) ++ l :: L2))%list.
    rewrite join_cons by discriminate. rewrite E.
    now rewrite ?append_assoc.
Qed.

Lemma rows_of_lines_in :
  forall lines l cat cur ytd,
    In l lines ->
    line_to_category_and_numbers l = (Some cat, Some cur, Some ytd) ->
    In (cat, cur, ytd) (rows_of_lines lines).
Proof.
  induction lines as [|x lines IH]; intros l cat cur ytd Hin Hl;
    [destruct Hin|].
  cbn [rows_of_lines]. destruct Hin as [->|Hin].
  - rewrite Hl. left; reflexivity.
  - specialize (IH _ _ _ _ Hin Hl).
    destruct (line_to_category_and_numbers x) as [[[c|] [a|]] [b|]];
      try exact IH.
    right; exact IH.
Qed.

(** A line of the text that ends in a digit and is not the first line of
    the list survives the final [strip] and is found by [splitlines]. *)
Lemma line_in_stripped_text :
  forall l L1 L2,
    L1 <> [] -> no_linebreak l -> ends_digit l ->
    led isspace (join newline (L1 ++ l :: L2)%list) ->
    In l (splitlines (strip (join newline (L1 ++ l :: L2)%list) ++ newline)).
Proof.
  intros l L1 L2 HL1 Hnl Hd Hled.
  destruct (join_around l L1 L2 HL1) as (X & W & E & HW).
  unfold strip, strip_chars. rewrite (lstrip_chars_led _ _ Hled), E.
  rewrite <- append_assoc, rstrip_chars_append.
  assert (Hxl : rstrip_chars isspace ((X ++ newline) ++ l)
                = (X ++ newline) ++ l).
  { destruct Hd as (l0 & d & -> & Hdig). rewrite <- append_assoc.
    apply rstrip_chars_snoc. now apply digit_not_space. }
  assert (G : forall Z,
             In l (splitlines (((X ++ newline) ++ l) ++ newline ++ Z))).
  { intros Z. rewrite ?append_assoc.
    apply in_tl. exact (splitlines_inner_line l Z Hnl _ X (le_n _)). }
  destruct (rstrip_chars isspace W) as [|c r] eqn:EW.
  - rewrite Hxl. specialize (G ""). now rewrite append_nil_r in G.
  - destruct HW as [->|(W' & ->)]; [discriminate|].
    destruct (rstrip_chars_split isspace (newline ++ W')) as (t & Et & _).
    rewrite EW in Et. change (newline ++ W') with (String "010" W') in Et.
    injection Et as <- _.
    change (String "010" r) with (newline ++ r).
    rewrite append_assoc. rewrite (append_assoc newline).
    apply G.
Qed.

Lemma any_char_none :
  forall p q s,
    (forall c, q c = true -> p c = false) ->
    all_chars q s = true -> any_char p s = false.
Proof.
  intros p q s H. induction s as [|c s IH]; [reflexivity|].
  simpl. intros Hs. apply andb_true_iff in Hs. destruct Hs as [Hc Hs].
  now rewrite (H _ Hc), IH.
Qed.

Lemma all_chars_impl :
  forall p q s,
    (forall c, p c = true -> q c = true) ->
    all_chars p s = true -> all_chars q s = true.
Proof.
  intros p q s H. induction s as [|c s IH]; [reflexivity|].
  simpl. intros Hs. apply andb_true_iff in Hs. destruct Hs as [Hc Hs].
  now rewrite (H _ Hc), IH.
Qed.

Lemma linebreak_is_space : forall c, islinebreak c = true -> isspace c = true.
Proof.
  intros c. unfold islinebreak, isspace, between.
  destruct (N.leb_spec 10 (ord c)), (N.leb_spec (ord c) 13),
    (N.leb_spec 28 (ord c)), (N.leb_spec (ord c) 30); simpl;
    try discriminate; intros _;
    destruct (N.leb_spec 9 (ord c)), (N.leb_spec (ord c) 13),
      (N.leb_spec 28 (ord c)), (N.leb_spec (ord c) 32); simpl;
      try reflexivity; lia.
Qed.

Lemma tidy_no_linebreak : forall s, tidy s = true -> no_linebreak s.
Proof.
  unfold no_linebreak. induction s as [|c s IH]; [reflexivity|].
  cbn [tidy any_char]. intros H.
  apply andb_true_iff in H. destruct H as [Hc Hs]. rewrite (IH Hs).
  destruct (islinebreak c) eqn:E; [|reflexivity].
  rewrite (linebreak_is_space _ E) in Hc.
  apply andb_true_iff in Hc. destruct Hc as [Hc _].
  apply Ascii.eqb_eq in Hc. subst c. discriminate.
Qed.

Lemma token_char_not_linebreak :
  forall c, is_token_char c = true -> islinebreak c = false.
Proof.
  intros c H. destruct (islinebreak c) eqn:E; [|reflexivity].
  pose proof (linebreak_is_space _ E) as Hs.
  unfold is_token_char in H.
  destruct (isdigit c) eqn:Hd.
  - apply digit_not_space in Hd. congruence.
  - destruct (Ascii.eqb_spec c ",") as [->|_]; [discriminate|].
    destruct (Ascii.eqb_spec c ".") as [->|_]; [discriminate|].
    destruct (Ascii.eqb_spec c "-") as [->|_]; discriminate.
Qed.

Lemma token_chars :
  forall tok, is_token tok -> all_chars is_token_char tok = true.
Proof.
  intros tok (s & r & H).
  assert (U : forall s t r, unsigned_match s = Some (t, r) ->
                            all_chars is_token_char t = true).
  { clear. intros s t r H.
    destruct (unsigned_match_spec _ _ _ H)
      as (d & g & f & -> & _ & [Hd _ Hg _ Hf]).
    rewrite !all_chars_append.
    assert (E1 : all_chars is_token_char d = true).
    { apply (all_chars_impl isdigit); [|exact Hd].
      intros c Hc. unfold is_token_char. now rewrite Hc. }
    assert (E2 : all_chars is_token_char g = true).
    { apply (all_chars_impl (fun c => isdigit c || Ascii.eqb c ","));
        [|exact Hg].
      intros c Hc. unfold is_token_char. now rewrite Hc. }
    rewrite E1, E2.
    destruct Hf as [->|(a & b & -> & Ha & Hb)]; [reflexivity|].
    simpl. unfold is_token_char. now rewrite Ha, Hb. }
  unfold match_at in H. destruct s as [|c s']; [discriminate|].
  destruct (Ascii.eqb c "-") eqn:Ec.
  - destruct (unsigned_match s') as [[t r']|] eqn:E; [|discriminate].
    injection H as <- _. simpl. rewrite (U _ _ _ E).
    unfold is_token_char. rewrite Ec. now rewrite !orb_true_r.
  - exact (U _ _ _ H).
Qed.

Lemma token_no_linebreak : forall tok, is_token tok -> no_linebreak tok.
Proof.
  intros tok H. unfold no_linebreak.
  exact (any_char_none _ _ _ token_char_not_linebreak (token_chars _ H)).
Qed.

Lemma row_line_shape :
  forall indent cat cur ytd,
    label_clean cat -> reads_back cur -> reads_back ytd ->
    no_linebreak indent ->
    no_linebreak (row_line indent (cat, cur, ytd))
    /\ ends_digit (row_line indent (cat, cur, ytd)).
Proof.
  intros indent cat cur ytd Hcat (TA & _) (TB & _) Hind.
  assert (HA : is_token (format_c2f cur)) by (eexists _, _; exact TA).
  assert (HB : is_token (format_c2f ytd)) by (eexists _, _; exact TB).
  unfold row_line, row_cat, row_cur, row_ytd. cbn [fst snd]. split.
  - unfold no_linebreak in *. rewrite !any_char_append.
    rewrite Hind, (tidy_no_linebreak _ (clean_tidy _ Hcat)).
    rewrite (token_no_linebreak _ HA), (token_no_linebreak _ HB).
    reflexivity.
  - do 6 apply ends_digit_append. now apply is_token_ends_digit.
Qed.

Lemma join_head :
  forall sep x t, exists y, join sep (x :: t) = x ++ y.
Proof.
  intros sep x [|z t].
  - exists "". simpl. now rewrite append_nil_r.
  - eexists. reflexivity.
Qed.

Lemma readable_lines_head :
  forall meta grp index entries,
    exists rest,
      readable_lines meta grp index entries
      = "OHIP Payment Summary" :: rest.
Proof.
  intros. unfold readable_lines, header_lines. cbn [List.concat app].
  eexists. reflexivity.
Qed.

Lemma group_row_line_in :
  forall meta grp index entries r,
    In r grp -> In (row_line "" r) (readable_lines meta grp index entries).
Proof.
  intros meta grp index entries r H. unfold readable_lines.
  apply in_concat. exists (map (row_line "") grp).
  split; [simpl; auto | now apply in_map].
Qed.

Lemma provider_row_line_in :
  forall meta grp index entries p r,
    In p entries -> In r (p_rows p) -> is_meta_row r = false ->
    In (row_line "  " r) (readable_lines meta grp index entries).
Proof.
  intros meta grp index entries p r Hp Hr Hm. unfold readable_lines.
  apply in_concat. exists (flat_map detail_lines entries).
  split; [simpl; auto 10|].
  apply in_flat_map. exists p. split; [exact Hp|].
  unfold detail_lines. right. apply in_or_app. left.
  apply in_map. apply filter_In. split; [exact Hr | now rewrite Hm].
Qed.

(** A line of [combined_readable.txt] that ends in a digit is found again
    when the text is split into lines. *)
Lemma readable_line_in_text :
  forall meta grp index entries l,
    In l (readable_lines meta grp index entries) ->
    l <> "OHIP Payment Summary" -> no_linebreak l -> ends_digit l ->
    In l
      (splitlines
         (strip (join newline (readable_lines meta grp index entries))
            ++ newline)).
Proof.
  intros meta grp index entries l Hin Hne Hl Hd.
  destruct (readable_lines_head meta grp index entries) as (rest & Eh).
  destruct (in_split _ _ Hin) as (L1 & L2 & E).
  assert (HL1 : L1 <> []).
  { intros ->. rewrite Eh in E. cbn [app] in E. injection E as E _.
    now apply Hne. }
  rewrite E. apply line_in_stripped_text; auto.
  rewrite <- E, Eh.
  destruct (join_head newline "OHIP Payment Summary" rest) as (y & ->).
  exact (eq_refl : isspace "O" = false).
Qed.

(** A rendered row line is found again in the text and read back. *)
Lemma rendered_line_read_back :
  forall meta grp entries index indent cat cur ytd,
    label_clean cat -> reads_back cur -> reads_back ytd ->
    indent = "" \/ indent = "  " ->
    In (row_line indent (cat, cur, ytd))
      (readable_lines meta grp index entries) ->
    In (cat, cur, ytd)
      (reextract
         (strip (join newline (readable_lines meta grp index entries))
            ++ newline)).
Proof.
  intros meta grp entries index indent cat cur ytd Hcat Hc Hy Hind Hin.
  assert (Hsp : all_chars isspace indent = true /\ no_linebreak indent)
    by (destruct Hind as [-> | ->]; split; reflexivity).
  destruct Hsp as [Hsp Hnl].
  destruct (row_line_shape indent cat cur ytd Hcat Hc Hy Hnl) as [Hl Hd].
  unfold reextract.
  apply (rows_of_lines_in _ (row_line indent (cat, cur, ytd))).
  - apply readable_line_in_text; auto.
    unfold row_line. destruct Hind as [-> | ->]; discriminate.
  - now apply row_line_reads_back_core.
Qed.

(** ** Padding with spaces *)

Lemma blank_cons : forall c s, blank (String c s) -> c = " "%char /\ blank s.
Proof.
  intros c s H. unfold blank in *. cbn [all_chars] in H.
  apply andb_true_iff in H. destruct H as [Hc Hs].
  apply Ascii.eqb_eq in Hc. auto.
Qed.

Lemma map_chars_append :
  forall f a b, map_chars f (a ++ b) = map_chars f a ++ map_chars f b.
Proof. induction a; intros; simpl; [reflexivity | now rewrite IHa]. Qed.

Lemma upper_blank : forall s, blank s -> upper s = s.
Proof.
  induction s as [|c s IH]; intros H; [reflexivity|].
  apply blank_cons in H. destruct H as [-> H]. unfold upper in *. simpl.
  now rewrite (IH H).
Qed.

Lemma upper_char_space : forall c, isspace (upper_char c) = isspace c.
Proof.
  intros c. unfold upper_char. destruct (islower c) eqn:E; [|reflexivity].
  destruct c as [[] [] [] [] [] [] [] []]; try discriminate E; reflexivity.
Qed.

Lemma led_upper : forall s, led isspace s -> led isspace (upper s).
Proof.
  intros [|c s] H; [exact I|]. simpl in *. now rewrite upper_char_space.
Qed.

Lemma tight_snoc_view :
  forall s,
    tight s ->
    s = "" \/ exists s0 x, s = s0 ++ String x "" /\ isspace x = false.
Proof.
  intros s H. destruct (snoc_view s) as [->|(s0 & x & ->)]; [now left|].
  right. exists s0, x. split; [reflexivity|].
  exact (rstrip_fixed_last _ _ _ H).
Qed.

Lemma tight_of_snoc :
  forall s0 x, isspace x = false -> tight (s0 ++ String x "").
Proof. intros s0 x H. unfold tight, rstrip. now apply rstrip_chars_snoc. Qed.

Lemma tight_upper : forall s, tight s -> tight (upper s).
Proof.
  intros s H. destruct (tight_snoc_view s H) as [->|(s0 & x & -> & Hx)];
    [reflexivity|].
  unfold upper. rewrite map_chars_append. simpl.
  apply tight_of_snoc. now rewrite upper_char_space.
Qed.

Lemma led_strip : forall s, led isspace (strip s).
Proof. intros s. apply led_rstrip_chars, led_lstrip_chars. Qed.

Lemma tight_strip : forall s, tight (strip s).
Proof.
  intros s. unfold tight, rstrip, strip, strip_chars.
  apply rstrip_chars_idem.
Qed.

Lemma squeeze_pair :
  forall r, squeeze (String " " (String " " r)) = String " " (squeeze r).
Proof. intros [|c r]; reflexivity. Qed.

Lemma squeeze_other :
  forall c r,
    c <> " "%char \/ led (fun x => Ascii.eqb x " ") r ->
    squeeze (String c r) = String c (squeeze r).
Proof.
  intros c r H. unfold squeeze, replace.
  destruct r as [|c' r'].
  - cbn [replace_from prefix]. destruct (ascii_dec " " c); reflexivity.
  - cbn [replace_from prefix].
    destruct (ascii_dec " " c) as [<-|N]; [|reflexivity].
    destruct (ascii_dec " " c') as [<-|N']; [|reflexivity].
    destruct H as [H|H]; [congruence | discriminate H].
Qed.

Lemma squeeze_blank :
  forall n L, String.length L <= n -> blank L -> blank (squeeze L).
Proof.
  induction n as [|n IH]; intros L Hn HL.
  - destruct L; [reflexivity | simpl in Hn; lia].
  - destruct L as [|c L]; [reflexivity|].
    apply blank_cons in HL. destruct HL as [-> HL].
    destruct L as [|c' L'].
    + reflexivity.
    + apply blank_cons in HL. destruct HL as [-> HL].
      rewrite squeeze_pair. unfold blank. cbn [all_chars].
      rewrite Ascii.eqb_refl. apply IH; [simpl in Hn; lia | exact HL].
Qed.

Lemma squeeze_blank_append :
  forall n L x,
    String.length L <= n -> blank L -> led isspace x ->
    squeeze (L ++ x) = squeeze L ++ squeeze x.
Proof.
  induction n as [|n IH]; intros L x Hn HL Hx.
  - destruct L; [reflexivity | simpl in Hn; lia].
  - destruct L as [|c L]; [reflexivity|].
    apply blank_cons in HL. destruct HL as [-> HL].
    destruct L as [|c' L'].
    + cbn [append]. rewrite squeeze_other; [reflexivity|].
      right. destruct x as [|y x']; [exact I|]. simpl in Hx |- *.
      destruct (Ascii.eqb_spec y " ") as [->|_]; [discriminate|reflexivity].
    + apply blank_cons in HL. destruct HL as [-> HL].
      cbn [append]. rewrite !squeeze_pair.
      rewrite (IH L' x); [reflexivity | simpl in Hn; lia | exact HL | exact Hx].
Qed.

Lemma squeeze_tight_append :
  forall n u R,
    String.length u <= n -> tight u ->
    squeeze (u ++ R) = squeeze u ++ squeeze R.
Proof.
  induction n as [|n IH]; intros u R Hn Hu.
  - destruct u; [reflexivity | simpl in Hn; lia].
  - destruct u as [|c u']; [reflexivity|].
    destruct (tight_snoc_view _ Hu) as [E|(s0 & x & E & Hx)]; [discriminate|].
    assert (Hu' : tight u').
    { destruct s0 as [|c0 s0']; simpl in E; injection E as -> ->.
      - reflexivity.
      - now apply tight_of_snoc. }
    destruct (Ascii.eqb_spec c " ") as [->|Nc].
    + destruct u' as [|c' u''].
      * exfalso. destruct s0 as [|? [|? ?]]; simpl in E;
          try discriminate E.
        injection E as <-. discriminate Hx.
      * destruct (Ascii.eqb_spec c' " ") as [->|Nc'].
        -- assert (Hu'' : tight u'').
           { destruct s0 as [|c0 [|c1 s0']]; simpl in E.
             - discriminate E.
             - injection E as _ E. subst x. discriminate Hx.
             - injection E as _ _ ->. now apply tight_of_snoc. }
           cbn [append]. rewrite !squeeze_pair.
           rewrite (IH u'' R); [reflexivity | simpl in Hn; lia | exact Hu''].
        -- change (String " " (String c' u'') ++ R)
             with (String " " (String c' u'' ++ R)).
           rewrite (squeeze_other " " (String c' u'' ++ R)).
           2:{ right. simpl. now apply Ascii.eqb_neq. }
           rewrite (squeeze_other " " (String c' u'')).
           2:{ right. simpl. now apply Ascii.eqb_neq. }
           rewrite (IH (String c' u'') R);
             [reflexivity | simpl in Hn |- *; lia | exact Hu'].
    + change (String c u' ++ R) with (String c (u' ++ R)).
      rewrite !squeeze_other by (left; exact Nc).
      rewrite (IH u' R); [reflexivity | simpl in Hn; lia | exact Hu'].
Qed.

(** ** The YEAR line under padding *)

Section Padding.

Variable pad : string.
Hypothesis Hpad : blank pad.

Lemma eat_ws_pad :
  forall r,
    eat_ws (r ++ pad)
    = match eat_ws r with
      | EmptyString => EmptyString
      | e => e ++ pad
      end.
Proof.
  unfold eat_ws. induction r as [|c r IH].
  - simpl. clear -Hpad. induction pad as [|c p IH]; [reflexivity|].
    apply blank_cons in Hpad. destruct Hpad as [-> Hp]. simpl. now apply IH.
  - change (String c r ++ pad) with (String c (r ++ pad)).
    cbn [lstrip_chars]. destruct (isspace c); [exact IH | reflexivity].
Qed.

Lemma pad_head_not :
  forall a, a <> " "%char ->
    match pad with
    | String c _ => Ascii.eqb a c = false
    | EmptyString => True
    end.
Proof.
  intros a Ha. destruct pad as [|c p]; [exact I|].
  apply blank_cons in Hpad. destruct Hpad as [-> _]. now apply Ascii.eqb_neq.
Qed.

Lemma eat_lit_pad :
  forall lit r,
    all_chars (fun c => negb (Ascii.eqb c " ")) lit = true ->
    eat_lit lit (r ++ pad)
    = match eat_lit lit r with
      | Some r' => Some (r' ++ pad)
      | None => None
      end.
Proof.
  induction lit as [|a lit IH]; intros r Hl; [reflexivity|].
  cbn [all_chars] in Hl. apply andb_true_iff in Hl. destruct Hl as [Ha Hl].
  apply negb_true_iff, Ascii.eqb_neq in Ha.
  destruct r as [|c r].
  - cbn [append eat_lit]. pose proof (pad_head_not a Ha) as H.
    destruct pad as [|c p]; [reflexivity|]. now rewrite H.
  - change (String c r ++ pad) with (String c (r ++ pad)).
    cbn [eat_lit]. destruct (Ascii.eqb a c); [now apply IH | reflexivity].
Qed.

Lemma take_digits_pad :
  forall n r,
    take_digits n (r ++ pad) = lift_rest pad (take_digits n r).
Proof.
  induction n as [|n IH]; intros r; [reflexivity|].
  destruct r as [|c r].
  - cbn [append take_digits lift_rest].
    destruct pad as [|c p]; [reflexivity|].
    apply blank_cons in Hpad. destruct Hpad as [-> _]. reflexivity.
  - change (String c r ++ pad) with (String c (r ++ pad)).
    cbn [take_digits]. destruct (isdigit c); [|reflexivity].
    rewrite IH. destruct (take_digits n r) as [[d r']|]; reflexivity.
Qed.

Lemma take_digits_ws_pad :
  forall n r,
    take_digits (S n) (eat_ws (r ++ pad))
    = lift_rest pad (take_digits (S n) (eat_ws r)).
Proof.
  intros n r. rewrite eat_ws_pad.
  destruct (eat_ws r) as [|c e]; [reflexivity|].
  apply take_digits_pad.
Qed.

Lemma eat_lit_ws_pad :
  forall a lit r,
    all_chars (fun c => negb (Ascii.eqb c " ")) (String a lit) = true ->
    eat_lit (String a lit) (eat_ws (r ++ pad))
    = match eat_lit (String a lit) (eat_ws r) with
      | Some r' => Some (r' ++ pad)
      | None => None
      end.
Proof.
  intros a lit r Hl. rewrite eat_ws_pad.
  destruct (eat_ws r) as [|c e]; [reflexivity|].
  now apply eat_lit_pad.
Qed.

Lemma year_line_match_pad :
  forall pw s,
    year_line_match pw (s ++ pad) = lift_rest pad (year_line_match pw s).
Proof.
  intros pw s. unfold year_line_match.
  destruct pw; [reflexivity|].
  rewrite eat_lit_pad by reflexivity.
  destruct (eat_lit "YEAR" s) as [r1|]; [|reflexivity].
  rewrite take_digits_ws_pad.
  destruct (take_digits 1 (eat_ws r1)) as [[g1 r2]|]; [|reflexivity].
  cbn [lift_rest]. rewrite eat_lit_ws_pad by reflexivity.
  destruct (eat_lit "(" (eat_ws r2)) as [r3|]; [|reflexivity].
  rewrite take_digits_pad.
  destruct (take_digits 4 r3) as [[y1 r4]|]; [|reflexivity].
  cbn [lift_rest]. rewrite eat_lit_pad by reflexivity.
  destruct (eat_lit "-" r4) as [r5|]; [|reflexivity].
  rewrite take_digits_pad.
  destruct (take_digits 4 r5) as [[y2 r6]|]; [|reflexivity].
  cbn [lift_rest]. rewrite eat_lit_pad by reflexivity.
  destruct (eat_lit ")" r6) as [r7|]; [|reflexivity].
  rewrite eat_lit_ws_pad by reflexivity.
  destruct (eat_lit "COMPENSATION" (eat_ws r7)) as [r8|]; [|reflexivity].
  rewrite eat_lit_ws_pad by reflexivity.
  destruct (eat_lit "INCREASE" (eat_ws r8)) as [r9|]; reflexivity.
Qed.

Lemma year_line_match_blank :
  forall pw s, blank s -> year_line_match pw s = None.
Proof.
  intros pw s H. unfold year_line_match. destruct pw; [reflexivity|].
  destruct s as [|c s]; [reflexivity|].
  apply blank_cons in H. destruct H as [-> _]. reflexivity.
Qed.

Lemma sub_year_blank :
  forall s pw, blank s -> sub_from year_line_match pw 0 s = s.
Proof.
  induction s as [|c s IH]; intros pw H; [reflexivity|].
  cbn [sub_from]. rewrite (year_line_match_blank _ _ H).
  apply blank_cons in H. destruct H as [_ H]. now rewrite IH.
Qed.

Lemma sub_year_pad :
  forall v pw skip,
    skip <= String.length v ->
    sub_from year_line_match pw skip (v ++ pad)
    = sub_from year_line_match pw skip v ++ pad.
Proof.
  induction v as [|c v IH]; intros pw skip Hs.
  - simpl in Hs. replace skip with 0 by lia. simpl.
    now apply sub_year_blank.
  - change (String c v ++ pad) with (String c (v ++ pad)).
    cbn [sub_from]. destruct skip as [|k].
    + change (String c (v ++ pad)) with (String c v ++ pad).
      rewrite year_line_match_pad.
      destruct (year_line_match pw (String c v)) as [[repl rest]|];
        cbn [lift_rest].
      * rewrite !length_append.
        replace (String.length (String c v) + String.length pad
                 - (String.length rest + String.length pad) - 1)
          with (String.length (String c v) - String.length rest - 1) by lia.
        rewrite IH by (cbn [String.length]; lia). now rewrite append_assoc.
      * rewrite IH by lia. reflexivity.
    + apply IH. simpl in Hs. lia.
Qed.

End Padding.

Lemma sub_year_blank_append :
  forall v L pw,
    blank L ->
    sub_from year_line_match pw 0 (L ++ v)
    = L ++ sub_from year_line_match
             (match L with EmptyString => pw | _ => false end) 0 v.
Proof.
  intros v. induction L as [|c L IH]; intros pw H; [reflexivity|].
  pose proof (year_line_match_blank pw (String c "")) as Hm.
  apply blank_cons in H. destruct H as [-> H].
  change (String " " L ++ v) with (String " " (L ++ v)).
  cbn [sub_from].
  assert (E : year_line_match pw (String " " (L ++ v)) = None)
    by (destruct pw; reflexivity).
  rewrite E, (IH _ H). destruct L; reflexivity.
Qed.

Lemma lstrip_chars_pad :
  forall p w R,
    all_chars p R = true ->
    lstrip_chars p (w ++ R)
    = match lstrip_chars p w with
      | EmptyString => EmptyString
      | e => e ++ R
      end.
Proof.
  intros p w R HR. induction w as [|c w IH].
  - simpl. induction R as [|c R IH]; [reflexivity|].
    simpl in HR |- *. apply andb_true_iff in HR. destruct HR as [-> HR].
    now apply IH.
  - change (String c w ++ R) with (String c (w ++ R)).
    cbn [lstrip_chars]. destruct (p c); [exact IH | reflexivity].
Qed.

Lemma rstrip_chars_all :
  forall p R, all_chars p R = true -> rstrip_chars p R = "".
Proof.
  intros p. induction R as [|c R IH]; [reflexivity|].
  simpl. intros H. apply andb_true_iff in H. destruct H as [Hc HR].
  now rewrite (IH HR), Hc.
Qed.

Lemma blank_all_chars :
  forall p s, p " "%char = true -> blank s -> all_chars p s = true.
Proof.
  intros p s Hp H.
  apply (all_chars_impl (fun c => Ascii.eqb c " ")); [|exact H].
  intros c Hc. apply Ascii.eqb_eq in Hc. now subst c.
Qed.

Lemma strip_chars_padded :
  forall p L w R,
    p " "%char = true -> blank L -> blank R ->
    strip_chars p (L ++ w ++ R) = strip_chars p w.
Proof.
  intros p L w R Hp HL HR. unfold strip_chars.
  assert (E : lstrip_chars p (L ++ w ++ R) = lstrip_chars p (w ++ R)).
  { clear HR. induction L as [|c L IH]; [reflexivity|].
    apply blank_cons in HL. destruct HL as [-> HL]. simpl.
    rewrite Hp. now apply IH. }
  rewrite E, (lstrip_chars_pad _ _ _ (blank_all_chars _ _ Hp HR)).
  destruct (lstrip_chars p w) as [|c e]; [reflexivity|].
  rewrite rstrip_chars_append.
  now rewrite (rstrip_chars_all _ _ (blank_all_chars _ _ Hp HR)).
Qed.

(** Padding with plain spaces does not change what is looked up. *)
Lemma category_key_padded :
  forall L t R,
    blank L -> blank R -> led isspace t -> tight t -> t <> "" ->
    category_key (L ++ t ++ R) = category_key t.
Proof.
  intros L t R HL HR Hled Ht Hne. unfold category_key.
  fold (squeeze (upper (L ++ t ++ R))). fold (squeeze (upper t)).
  assert (Eu : upper (L ++ t ++ R) = L ++ upper t ++ R).
  { unfold upper. rewrite !map_chars_append.
    fold (upper L). fold (upper R).
    now rewrite (upper_blank _ HL), (upper_blank _ HR). }
  rewrite Eu.
  assert (Hu : led isspace (upper t ++ R)).
  { pose proof (led_upper _ Hled) as H.
    destruct t; [congruence | exact H]. }
  rewrite (squeeze_blank_append _ L _ (le_n _) HL Hu).
  rewrite (squeeze_tight_append _ _ R (le_n _) (tight_upper _ Ht)).
  pose proof (squeeze_blank _ L (le_n _) HL) as HL'.
  pose proof (squeeze_blank _ R (le_n _) HR) as HR'.
  unfold sub.
  rewrite (sub_year_blank_append _ _ false HL').
  replace (match squeeze L with EmptyString => false | _ => false end)
    with false by (destruct (squeeze L); reflexivity).
  rewrite (sub_year_pad _ HR' _ false 0 (Nat.le_0_l _)).
  now rewrite (strip_chars_padded _ _ _ _ eq_refl HL' HR').
Qed.

Lemma strip_idem : forall s, strip (strip s) = strip s.
Proof.
  intros s. unfold strip at 1. unfold strip_chars.
  rewrite (lstrip_chars_led _ _ (led_strip s)). apply tight_strip.
Qed.

(** C9 as stated fails: an unmatched label keeps a leading dash when a TAB
    shields it from [strip(" :-")], and the second pass strips it. *)
Lemma normalize_category_not_idempotent :
  normalize_category (normalize_category (String tab "- ACCESS BONUS PAYMENT"))
  <> normalize_category (String tab "- ACCESS BONUS PAYMENT").
Proof. vm_compute. discriminate. Qed.

(** C9, amended: [normalize_category] is idempotent on every input whose
    leading and trailing whitespace is made of plain spaces (so on every
    input without surrounding whitespace), and every output that comes
    from the canonical table is a fixed point. *)
Theorem normalize_category_idempotent_padded :
  forall s,
    space_padded s \/ In (normalize_category s) (map snd _CATEGORY_CANON) ->
    normalize_category (normalize_category s) = normalize_category s.
Proof.
  intros s H.
  destruct (normalize_category_cases s) as [Hv|(H1 & H2 & Hs)].
  - apply canonical_values_fixed. exact Hv.
  - destruct H as [(L & R & HL & HR & E)|H];
      [|apply canonical_values_fixed; exact H].
    rewrite Hs. destruct (strip s) as [|c t'] eqn:Et; [reflexivity|].
    assert (Hk : category_key s = category_key (String c t')).
    { rewrite E at 1. apply category_key_padded; auto.
      - rewrite <- Et. apply led_strip.
      - rewrite <- Et. apply tight_strip.
      - discriminate. }
    unfold normalize_category. rewrite <- Hk, H1, H2.
    rewrite <- Et. apply strip_idem.
Qed.

Lemma normalize_category_idempotent_padded_witness :
  normalize_category (normalize_category "  - Access Bonus : ")
  = normalize_category "  - Access Bonus : ".
Proof.
  apply normalize_category_idempotent_padded.
  left. exists "  ", " ". repeat split.
Defined.

(** ** Where the rows of a run come from *)

Lemma rows_of_lines_clean : forall lines, clean_rows (rows_of_lines lines).
Proof.
  induction lines as [|raw rest IH]; [constructor|].
  cbn [rows_of_lines].
  destruct (line_to_category_and_numbers raw) as [[[cat|] [cur|]] [ytd|]] eqn:E;
    try exact IH.
  constructor; [|exact IH]. exact (parsed_label_clean _ _ _ _ E).
Qed.

Lemma clean_rows_filter :
  forall f rows, clean_rows rows -> clean_rows (filter f rows).
Proof.
  intros f rows H. apply Forall_forall. intros r Hr.
  apply filter_In in Hr. exact (proj1 (Forall_forall _ _) H r (proj1 Hr)).
Qed.

Lemma dict_set_clean :
  forall (V : Type) (d : list (string * V)) k v,
    clean_keys d -> label_clean k -> clean_keys (dict_set d k v).
Proof.
  intros V. induction d as [|[k' v'] d IH]; intros k v Hd Hk.
  - constructor; [exact Hk | constructor].
  - cbn [dict_set]. inversion Hd as [|? ? Hk' Hd']; subst.
    destruct (String.eqb k k'); constructor; auto. now apply IH.
Qed.

Lemma parse_group_categories_clean :
  forall pages, clean_rows (parse_group_categories pages).
Proof.
  intros pages. unfold parse_group_categories.
  match goal with
  | |- clean_rows (map _ (fold_left ?f _ _)) =>
      assert (H : forall pgs d,
                 clean_keys d -> clean_keys (fold_left f pgs d))
  end.
  { induction pgs as [|page pgs IH]; intros d Hd; [exact Hd|].
    cbn [fold_left]. apply IH.
    pose proof (rows_of_lines_clean (splitlines page)) as Hr.
    revert d Hd.
    induction Hr as [|r rows Hr _ IHr]; intros d Hd; [exact Hd|].
    cbn [fold_left]. apply IHr.
    destruct (any_in _ _); [exact Hd | now apply dict_set_clean]. }
  specialize (H (firstn 2 pages) [] (Forall_nil _)).
  unfold clean_rows. apply Forall_map.
  eapply Forall_impl; [|exact H]. intros [k [c y]] Hk. exact Hk.
Qed.

Lemma plain_entry_clean : forall page, clean_rows (p_rows (plain_entry page)).
Proof.
  intros page. unfold plain_entry, parse_provider_page.
  destruct (provider_totals _). cbn [p_rows].
  apply clean_rows_filter, rows_of_lines_clean.
Qed.

Lemma hybrid_entry_clean :
  forall w pages i, clean_rows (p_rows (hybrid_entry w pages i)).
Proof.
  intros w pages i. unfold hybrid_entry.
  destruct (name_and_id w i). destruct (provider_totals_hybrid _).
  cbn [p_rows]. apply rows_of_lines_clean.
Qed.

(** Every label in the records of a run is one the heuristic returned. *)
Lemma main_rows_clean :
  forall w out,
    main w = Returned out ->
    clean_rows (out_group_rows out)
    /\ Forall (fun p => clean_rows (p_rows p)) (out_provider_entries out).
Proof.
  intros w out. unfold main.
  destruct (negb (input_exists w)); [discriminate|].
  destruct (arg_hybrid w).
  - destruct (text_from_input w) as [ocr|]; [|discriminate].
    destruct (text_from_poppler w) as [dec|]; [|discriminate].
    destruct (split form_feed ocr) as [|a l]; [discriminate|].
    destruct (split form_feed (decode_caesar_shift_with 29 19 94 dec))
      as [|b l']; [discriminate|].
    destruct (page_images_ok w); [|discriminate].
    unfold export, write_provider_csvs_from_entries. intros [= <-].
    cbn [out_group_rows out_provider_entries]. split.
    + apply parse_group_categories_clean.
    + apply Forall_map_intro. intros i. apply hybrid_entry_clean.
  - match goal with
    | |- match ?t with _ => _ end = _ -> _ => destruct t as [text|]
    end; [|discriminate].
    destruct (split form_feed text) as [|a l]; [discriminate|].
    unfold export, write_provider_csvs_from_entries. intros [= <-].
    cbn [out_group_rows out_provider_entries]. split.
    + apply parse_group_categories_clean.
    + apply Forall_map_intro. intros page. apply plain_entry_clean.
Qed.

(** ** The readable export, read back *)

Lemma some_inj : forall (A : Type) (a b : A), Some a = Some b -> a = b.
Proof. intros A a b H. now injection H. Qed.

(** C4 as stated fails.  On the three-page report whose provider page
    reads "JOHN SMITH" and "NETWORK BASE RATE PAYMENT 1.00 2.00", the parsed
    records hold the single triple ("NETWORK BASE RATE PAYMENT", 1.0, 2.0),
    while the rendered text, whatever the metadata, also has the index line
    "- John Smith: 1.00; 2.00", which the heuristic reads back as the
    triple ("John Smith", 1.0, 2.0). *)
Lemma combined_readable_round_trip_fails :
  exists out,
    main (plain_world true sample_report) = Returned out
    /\ forall meta text,
         build_text meta (out_group_rows out) (out_provider_entries out)
         = Some text ->
         exists t,
           In t (reextract text)
           /\ ~ In t (out_group_rows out
                       ++ flat_map p_rows (out_provider_entries out))%list.
Proof.
  eexists. split; [vm_compute; reflexivity|].
  cbv beta iota delta [out_group_rows out_provider_entries].
  intros meta text Ht.
  assert (Hl : In "- John Smith: 1.00; 2.00" (splitlines text)).
  { unfold build_text in Ht.
    match type of Ht with
    | context [index_lines ?ps] =>
        replace (index_lines ps) with (Some ["- John Smith: 1.00; 2.00"])
          in Ht by (vm_compute; reflexivity)
    end.
    apply some_inj in Ht. rewrite <- Ht.
    apply readable_line_in_text.
    - unfold readable_lines. apply in_concat.
      exists ["- John Smith: 1.00; 2.00"]. split; simpl; auto 10.
    - discriminate.
    - reflexivity.
    - exists "- John Smith: 1.00; 2.0", "0"%char. split; reflexivity. }
  exists ("John Smith", of_decimal false 100 2, of_decimal false 200 2).
  split.
  - unfold reextract.
    apply (rows_of_lines_in _ "- John Smith: 1.00; 2.00" _ _ _ Hl).
    vm_compute. reflexivity.
  - vm_compute. intros [E|[]]. discriminate E.
Qed.

(** C4, amended: in every run that returns, whatever the metadata, each
    triple of the parsed records that is rendered (every group row, and
    every provider row whose category holds no meta token) is among the
    triples re-extracted from [combined_readable.txt], provided its two
    amounts read back from their [,.2f] renderings.  The re-extracted list
    can hold more: the provider index lines are read as records too. *)
Theorem combined_readable_rows_read_back :
  forall w out meta text cat cur ytd,
    main w = Returned out ->
    build_text meta (out_group_rows out) (out_provider_entries out)
    = Some text ->
    In (cat, cur, ytd) (out_group_rows out)
    \/ (exists p, In p (out_provider_entries out)
                  /\ In (cat, cur, ytd) (p_rows p)
                  /\ is_meta_row (cat, cur, ytd) = false) ->
    reads_back cur -> reads_back ytd ->
    In (cat, cur, ytd) (reextract text).
Proof.
  intros w out meta text cat cur ytd Hmain Htext Hin Hc Hy.
  destruct (main_rows_clean _ _ Hmain) as [Hg Hp].
  unfold build_text in Htext.
  destruct (index_lines (out_provider_entries out)) as [index|];
    [|discriminate].
  injection Htext as <-.
  destruct Hin as [Hin|(p & Hpin & Hrin & Hm)].
  - apply (rendered_line_read_back _ _ _ _ ""); auto.
    + exact (proj1 (Forall_forall _ _) Hg _ Hin).
    + now apply group_row_line_in.
  - apply (rendered_line_read_back _ _ _ _ "  "); auto.
    + pose proof (proj1 (Forall_forall _ _) Hp _ Hpin) as Hrows.
      exact (proj1 (Forall_forall _ _) Hrows _ Hrin).
    + now apply (provider_row_line_in _ _ _ _ p).
Qed.

Lemma combined_readable_rows_read_back_witness :
  exists out text,
    main (plain_world true sample_report) = Returned out
    /\ build_text no_metadata (out_group_rows out) (out_provider_entries out)
       = Some text
    /\ In ("NETWORK BASE RATE PAYMENT",
           of_decimal false 100 2, of_decimal false 200 2)
         (reextract text).
Proof.
  eexists. eexists.
  assert (E1 : main (plain_world true sample_report) = Returned
    ltac:(let r := eval vm_compute in
            (match main (plain_world true sample_report) with
             | Returned o => o
             | _ => {| out_group_rows := []; out_provider_entries := [];
                       out_provider_categories_csv := [];
                       out_provider_totals_csv := [] |}
             end) in exact r)) by (vm_compute; reflexivity).
  split; [exact E1|]. split; [vm_compute; reflexivity|].
  eapply (combined_readable_rows_read_back _ _ no_metadata _ _ _ _ E1).
  - vm_compute. reflexivity.
  - right. eexists. split; [left; reflexivity|].
    split; [left; reflexivity | vm_compute; reflexivity].
  - split; vm_compute; reflexivity.
  - split; vm_compute; reflexivity.
Defined.

(** * Further properties of the program *)

(** ** Facts about lists *)

Lemma in_firstn :
  forall (A : Type) n (l : list A) x, In x (firstn n l) -> In x l.
Proof.
  intros A. induction n as [|n IH]; intros [|y l] x H; simpl in H;
    try contradiction.
  destruct H as [->|H]; [left; reflexivity | right; now apply IH].
Qed.

(** The elements of [l[lo : lo + n]] sit at positions [lo] to
    [lo + n - 1] of [l]. *)
Lemma in_firstn_skipn :
  forall (A : Type) n lo (l : list A) x,
    In x (firstn n (skipn lo l)) ->
    exists j, lo <= j /\ j < lo + n /\ nth_error l j = Some x.
Proof.
  intros A n lo. revert n. induction lo as [|lo IH]; intros n l x H.
  - cbn [skipn] in H. revert l H.
    induction n as [|n IHn]; intros [|y l] H; simpl in H; try contradiction.
    destruct H as [->|H].
    + exists 0. split; [lia|]. split; [lia | reflexivity].
    + destruct (IHn _ H) as (j & _ & Hj & E).
      exists (S j). split; [lia|]. split; [lia | exact E].
  - destruct l as [|y l]; [destruct n; simpl in H; contradiction|].
    cbn [skipn] in H. destruct (IH _ _ _ H) as (j & H1 & H2 & E).
    exists (S j). split; [lia|]. split; [lia | exact E].
Qed.

Lemma fold_left_invariant :
  forall (A B : Type) (P : A -> Prop) (f : A -> B -> A) l a,
    P a -> (forall a x, P a -> P (f a x)) -> P (fold_left f l a).
Proof.
  intros A B P f. induction l as [|x l IH]; intros a Ha Hf; [exact Ha|].
  cbn [fold_left]. apply IH; auto.
Qed.

Lemma fold_left_invariant_in :
  forall (A B : Type) (P : A -> Prop) (f : A -> B -> A) l a,
    P a -> (forall a x, In x l -> P a -> P (f a x)) -> P (fold_left f l a).
Proof.
  intros A B P f. induction l as [|x l IH]; intros a Ha Hf; [exact Ha|].
  cbn [fold_left]. apply IH.
  - apply Hf; [left; reflexivity | exact Ha].
  - intros a' x' Hin. apply Hf. right; exact Hin.
Qed.

Lemma find_index_none :
  forall p i l, Forall (fun x => p x = false) l -> find_index p i l = None.
Proof.
  intros p i l H. revert i.
  induction H as [|x l Hx _ IH]; intros i; [reflexivity|].
  cbn [find_index]. rewrite Hx. apply IH.
Qed.

Lemma find_from_some :
  forall (A : Type) (p : A -> bool) l i j x,
    find_from p i l = Some (j, x) -> p x = true /\ In x l.
Proof.
  intros A p. induction l as [|y l IH]; intros i j x H; [discriminate|].
  cbn [find_from] in H. destruct (p y) eqn:E.
  - injection H as <- <-. split; [exact E | left; reflexivity].
  - destruct (IH _ _ _ H) as [Hp Hin]. split; [exact Hp | right; exact Hin].
Qed.

(** ** Facts about the characters of a text *)

Lemma any_char_prefix_false :
  forall p a b, any_char p (a ++ b) = false -> any_char p a = false.
Proof.
  intros p a b H. rewrite any_char_append in H.
  now apply orb_false_iff in H.
Qed.

Lemma any_char_suffix_false :
  forall p a b, any_char p (a ++ b) = false -> any_char p b = false.
Proof.
  intros p a b H. rewrite any_char_append in H.
  now apply orb_false_iff in H.
Qed.

Lemma any_char_rstrip_false :
  forall p q s, any_char p s = false -> any_char p (rstrip_chars q s) = false.
Proof.
  intros p q s H. destruct (rstrip_chars_split q s) as (t & Hs & _).
  rewrite Hs in H. exact (any_char_prefix_false _ _ _ H).
Qed.

Lemma any_char_lstrip_false :
  forall p q s, any_char p s = false -> any_char p (lstrip_chars q s) = false.
Proof.
  intros p q s H. destruct (lstrip_chars_split q s) as (t & Hs & _).
  rewrite Hs in H. exact (any_char_suffix_false _ _ _ H).
Qed.

Lemma any_char_strip_false :
  forall p q s, any_char p s = false -> any_char p (strip_chars q s) = false.
Proof.
  intros p q s H. unfold strip_chars.
  now apply any_char_rstrip_false, any_char_lstrip_false.
Qed.

Lemma any_char_substring_false :
  forall p s n m,
    any_char p s = false -> any_char p (substring n m s) = false.
Proof.
  intros p. induction s as [|c s IH]; intros n m H.
  - destruct n, m; reflexivity.
  - simpl in H. apply orb_false_iff in H. destruct H as [Hc Hs].
    destruct n as [|n]; destruct m as [|m]; cbn [substring];
      try reflexivity; try (now apply IH).
    cbn [any_char]. rewrite Hc. now apply IH.
Qed.

Lemma any_char_rsplit1_false :
  forall p sep s,
    any_char p s = false -> any_char p (rsplit1_head sep s) = false.
Proof.
  intros p sep s H. unfold rsplit1_head.
  destruct (before_last sep s) as [h|] eqn:E; [|exact H].
  destruct (before_last_split _ _ _ E) as (r & Hs).
  rewrite Hs in H. exact (any_char_prefix_false _ _ _ H).
Qed.

Lemma all_chars_rstrip :
  forall p q s, all_chars p s = true -> all_chars p (rstrip_chars q s) = true.
Proof.
  intros p q s H. destruct (rstrip_chars_split q s) as (t & Hs & _).
  rewrite Hs, all_chars_append in H. now apply andb_true_iff in H.
Qed.

Lemma all_chars_lstrip :
  forall p q s, all_chars p s = true -> all_chars p (lstrip_chars q s) = true.
Proof.
  intros p q s H. destruct (lstrip_chars_split q s) as (t & Hs & _).
  rewrite Hs, all_chars_append in H. now apply andb_true_iff in H.
Qed.

Lemma all_chars_strip :
  forall p q s, all_chars p s = true -> all_chars p (strip_chars q s) = true.
Proof.
  intros p q s H. unfold strip_chars.
  now apply all_chars_rstrip, all_chars_lstrip.
Qed.

Lemma all_chars_substring :
  forall p s n m,
    all_chars p s = true -> all_chars p (substring n m s) = true.
Proof.
  intros p. induction s as [|c s IH]; intros n m H.
  - destruct n, m; reflexivity.
  - simpl in H. apply andb_true_iff in H. destruct H as [Hc Hs].
    destruct n as [|n]; destruct m as [|m]; cbn [substring];
      try reflexivity; try (now apply IH).
    cbn [all_chars]. rewrite Hc. now apply IH.
Qed.

Lemma all_chars_collapse_ws :
  forall (p : ascii -> bool) s,
    all_chars (fun c => p c || isspace c) s = true ->
    all_chars (fun c => p c || Ascii.eqb c " ") (collapse_ws s) = true.
Proof.
  intros p. induction s as [|c s IH]; [reflexivity|].
  cbn [all_chars collapse_ws]. intros H.
  apply andb_true_iff in H. destruct H as [Hc Hs].
  specialize (IH Hs). destruct (isspace c) eqn:E.
  - destruct s as [|c' s'].
    + cbn [all_chars]. now rewrite Ascii.eqb_refl, orb_true_r.
    + destruct (isspace c'); [exact IH|].
      cbn [all_chars]. rewrite IH.
      now rewrite Ascii.eqb_refl, orb_true_r.
  - rewrite orb_false_r in Hc. cbn [all_chars]. now rewrite Hc, IH.
Qed.

Lemma map_chars_map_chars :
  forall f g s, map_chars f (map_chars g s) = map_chars (fun c => f (g c)) s.
Proof.
  intros f g. induction s as [|c s IH]; [reflexivity|].
  cbn [map_chars]. now rewrite IH.
Qed.

Lemma map_chars_ext :
  forall f g s, (forall c, f c = g c) -> map_chars f s = map_chars g s.
Proof.
  intros f g s H. induction s as [|c s IH]; [reflexivity|].
  cbn [map_chars]. now rewrite H, IH.
Qed.

Lemma map_chars_fixed :
  forall (p : ascii -> bool) f s,
    (forall c, p c = true -> f c = c) -> all_chars p s = true ->
    map_chars f s = s.
Proof.
  intros p f s H. induction s as [|c s IH]; [reflexivity|].
  cbn [all_chars map_chars]. intros Hs.
  apply andb_true_iff in Hs. destruct Hs as [Hc Hs].
  now rewrite (H _ Hc), (IH Hs).
Qed.

Lemma any_char_map_chars :
  forall (p : ascii -> bool) f s,
    (forall c, p c = false -> p (f c) = false) ->
    any_char p s = false -> any_char p (map_chars f s) = false.
Proof.
  intros p f s H. induction s as [|c s IH]; [reflexivity|].
  cbn [any_char map_chars]. intros Hs. apply orb_false_iff in Hs.
  destruct Hs as [Hc Hs]. now rewrite (H _ Hc), (IH Hs).
Qed.

(** Trimming leaves a text without trimmed characters alone. *)
Lemma strip_chars_none :
  forall p s, any_char p s = false -> strip_chars p s = s.
Proof.
  intros p s H. unfold strip_chars.
  assert (L : lstrip_chars p s = s).
  { destruct s as [|c s]; [reflexivity|]. simpl in H.
    apply orb_false_iff in H. simpl. now rewrite (proj1 H). }
  rewrite L. destruct (snoc_view s) as [->|(s0 & x & ->)]; [reflexivity|].
  apply rstrip_chars_snoc. apply any_char_suffix_false in H.
  simpl in H. now rewrite orb_false_r in H.
Qed.

Lemma token_char_not_space :
  forall c, is_token_char c = true -> isspace c = false.
Proof.
  intros c H. unfold is_token_char in H.
  destruct (isdigit c) eqn:Hd; [now apply digit_not_space|].
  destruct (Ascii.eqb_spec c ",") as [->|_]; [reflexivity|].
  destruct (Ascii.eqb_spec c ".") as [->|_]; [reflexivity|].
  destruct (Ascii.eqb_spec c "-") as [->|_]; [reflexivity | discriminate].
Qed.

(** ** Replacing and removing one character *)

Lemma replace_char_cons :
  forall a new c s,
    replace (String a "") new (String c s)
    = (if Ascii.eqb c a then new else String c "")
        ++ replace (String a "") new s.
Proof.
  intros a new c s. unfold replace. cbn [replace_from prefix].
  destruct (ascii_dec a c) as [<-|N].
  - rewrite Ascii.eqb_refl. destruct s; reflexivity.
  - apply not_eq_sym in N. apply Ascii.eqb_neq in N. now rewrite N.
Qed.

Lemma replace_char_map :
  forall a b s,
    replace (String a "") (String b "") s
    = map_chars (fun c => if Ascii.eqb c a then b else c) s.
Proof.
  intros a b. induction s as [|c s IH]; [reflexivity|].
  rewrite replace_char_cons, IH. cbn [map_chars].
  destruct (Ascii.eqb c a); reflexivity.
Qed.

Lemma replace_char_absent :
  forall a new s,
    all_chars (fun c => negb (Ascii.eqb c a)) s = true ->
    replace (String a "") new s = s.
Proof.
  intros a new. induction s as [|c s IH]; [reflexivity|].
  cbn [all_chars]. intros H. apply andb_true_iff in H. destruct H as [Hc Hs].
  rewrite replace_char_cons, (IH Hs).
  apply negb_true_iff in Hc. now rewrite Hc.
Qed.

Lemma all_chars_replace_delete :
  forall (p q : ascii -> bool) a s,
    (forall c, p c = true -> Ascii.eqb c a = false -> q c = true) ->
    all_chars p s = true -> all_chars q (replace (String a "") "" s) = true.
Proof.
  intros p q a s H. induction s as [|c s IH]; [reflexivity|].
  cbn [all_chars]. intros Hs. apply andb_true_iff in Hs.
  destruct Hs as [Hc Hs]. rewrite replace_char_cons.
  destruct (Ascii.eqb c a) eqn:E; [now apply IH|].
  cbn [append all_chars]. now rewrite (H _ Hc E), (IH Hs).
Qed.

Lemma any_char_replace_delete :
  forall (p : ascii -> bool) a s,
    any_char p s = false -> any_char p (replace (String a "") "" s) = false.
Proof.
  intros p a. induction s as [|c s IH]; [reflexivity|].
  cbn [any_char]. intros H. apply orb_false_iff in H. destruct H as [Hc Hs].
  rewrite replace_char_cons.
  destruct (Ascii.eqb c a); [now apply IH|].
  cbn [append any_char]. now rewrite Hc, (IH Hs).
Qed.

Lemma concat_char_cons :
  forall c l,
    String.concat "" (String c "" :: l) = String c (String.concat "" l).
Proof. intros c [|x l]; reflexivity. Qed.

Lemma remove_chars_cons :
  forall p c s,
    remove_chars p (String c s)
    = if p c then remove_chars p s else String c (remove_chars p s).
Proof.
  intros p c s. unfold remove_chars.
  cbn [list_ascii_of_string filter]. destruct (p c); cbn [negb].
  - reflexivity.
  - cbn [map]. apply concat_char_cons.
Qed.

Lemma remove_chars_none :
  forall p s,
    all_chars (fun c => negb (p c)) s = true -> remove_chars p s = s.
Proof.
  intros p. induction s as [|c s IH]; [reflexivity|].
  cbn [all_chars]. intros H. apply andb_true_iff in H. destruct H as [Hc Hs].
  rewrite remove_chars_cons, (IH Hs).
  apply negb_true_iff in Hc. now rewrite Hc.
Qed.

Lemma any_char_remove_chars :
  forall (p : ascii -> bool) q s,
    any_char p s = false -> any_char p (remove_chars q s) = false.
Proof.
  intros p q. induction s as [|c s IH]; [reflexivity|].
  cbn [any_char]. intros H. apply orb_false_iff in H. destruct H as [Hc Hs].
  rewrite remove_chars_cons. destruct (q c); [now apply IH|].
  cbn [any_char]. now rewrite Hc, (IH Hs).
Qed.

(** ** Splitting at a character *)

Lemma split_map_chars :
  forall f sep s,
    (forall c, Ascii.eqb (f c) sep = Ascii.eqb c sep) ->
    split sep (map_chars f s) = map (map_chars f) (split sep s).
Proof.
  intros f sep s H. induction s as [|c s IH]; [reflexivity|].
  cbn [map_chars split]. rewrite H, IH.
  destruct (Ascii.eqb c sep); [reflexivity|].
  destruct (split sep s); reflexivity.
Qed.

Lemma split_no_sep :
  forall sep s, no_char sep s -> split sep s = [s].
Proof.
  intros sep. induction s as [|c s IH]; intros H; [reflexivity|].
  unfold no_char in H. cbn [any_char] in H.
  apply orb_false_iff in H. destruct H as [Hc Hs].
  cbn [split]. rewrite Hc. now rewrite (IH Hs).
Qed.

Lemma split_at_sep :
  forall sep a b,
    no_char sep a -> split sep (a ++ String sep b) = a :: split sep b.
Proof.
  intros sep. induction a as [|c a IH]; intros b H.
  - cbn [append split]. now rewrite Ascii.eqb_refl.
  - unfold no_char in H. cbn [any_char] in H.
    apply orb_false_iff in H. destruct H as [Hc Ha].
    change (String c a ++ String sep b) with (String c (a ++ String sep b)).
    cbn [split]. rewrite Hc. now rewrite (IH _ Ha).
Qed.

Lemma no_char_append :
  forall sep a b, no_char sep a -> no_char sep b -> no_char sep (a ++ b).
Proof.
  intros sep a b Ha Hb. unfold no_char in *.
  now rewrite any_char_append, Ha, Hb.
Qed.

(** The pieces of a text made of [p]-characters and separators are made
    of [p]-characters. *)
Lemma split_chars :
  forall (p : ascii -> bool) sep s,
    (forall c, p c = true -> Ascii.eqb c sep = false) ->
    all_chars (fun c => p c || Ascii.eqb c sep) s = true ->
    Forall (fun t => all_chars p t = true) (split sep s).
Proof.
  intros p sep s Hp. induction s as [|c s IH]; intros H.
  - repeat constructor.
  - cbn [all_chars] in H. apply andb_true_iff in H. destruct H as [Hc Hs].
    specialize (IH Hs). cbn [split].
    destruct (Ascii.eqb c sep) eqn:E;
      [constructor; [reflexivity | exact IH]|].
    rewrite orb_false_r in Hc.
    destruct (split sep s) as [|h t];
      [repeat constructor; simpl; now rewrite Hc|].
    inversion IH as [|? ? Hh Ht]; subst.
    constructor; [|exact Ht]. cbn [all_chars]. now rewrite Hc, Hh.
Qed.

(** ** Lines of a joined text *)

Lemma splitlines_single :
  forall l, no_linebreak l -> l <> "" -> splitlines l = [l].
Proof.
  induction l as [|c l IH]; intros H N; [congruence|].
  unfold no_linebreak in H. cbn [any_char] in H.
  apply orb_false_iff in H. destruct H as [Hc Hl].
  cbn [splitlines].
  assert (Hcr : Ascii.eqb c "013" = false).
  { apply Ascii.eqb_neq. intros ->. discriminate. }
  rewrite Hcr, Hc. destruct l as [|c' l']; [reflexivity|].
  rewrite (IH Hl); [reflexivity | discriminate].
Qed.

Lemma splitlines_join :
  forall ls,
    Forall (fun l => no_linebreak l /\ l <> "") ls ->
    splitlines (join newline ls) = ls.
Proof.
  induction ls as [|x ls IH]; intros H; [reflexivity|].
  inversion H as [|? ? [Hx Nx] Hls]; subst.
  destruct ls as [|y t].
  - cbn [join]. now apply splitlines_single.
  - rewrite join_cons by discriminate.
    rewrite (splitlines_line _ _ Hx). now rewrite (IH Hls).
Qed.

Lemma splitlines_join_newline :
  forall ls,
    ls <> [] -> Forall (fun l => no_linebreak l /\ l <> "") ls ->
    splitlines (join newline ls ++ newline) = ls.
Proof.
  induction ls as [|x ls IH]; intros N H; [congruence|].
  inversion H as [|? ? [Hx Nx] Hls]; subst.
  destruct ls as [|y t].
  - cbn [join]. rewrite <- (append_nil_r newline).
    now rewrite (splitlines_line _ _ Hx).
  - rewrite join_cons by discriminate. rewrite !append_assoc.
    rewrite (splitlines_line _ _ Hx). rewrite IH; [reflexivity| |exact Hls].
    discriminate.
Qed.

Lemma normalize_spaces_idem :
  forall s, _normalize_spaces (_normalize_spaces s) = _normalize_spaces s.
Proof.
  intros s. unfold _normalize_spaces.
  assert (T : tidy (strip (collapse_ws s)) = true)
    by (apply tidy_strip_chars, tidy_collapse_ws).
  rewrite (collapse_ws_tidy _ T). apply strip_idem.
Qed.

(** ** The metadata of the first page *)

Lemma search_some :
  forall (A : Type) (m : string -> option A) s r,
    search m s = Some r -> exists s', m s' = Some r.
Proof.
  intros A m. induction s as [|c s IH]; intros r H; cbn [search] in H.
  - destruct (m "") eqn:E; [|discriminate]. exists "". congruence.
  - destruct (m (String c s)) eqn:E.
    + exists (String c s). congruence.
    + now apply IH.
Qed.

Lemma lazy_dots_some :
  forall (A : Type) (tail : string -> option A) s r,
    lazy_dots tail s = Some r -> exists s', tail s' = Some r.
Proof.
  intros A tail. induction s as [|c s IH]; intros r H; cbn [lazy_dots] in H.
  - destruct (tail "") eqn:E; [|discriminate]. exists "". congruence.
  - destruct (tail (String c s)) eqn:E.
    + exists (String c s). congruence.
    + destruct (Ascii.eqb c "010"); [discriminate | now apply IH].
Qed.

Lemma take_digits_spec :
  forall n s d r,
    take_digits n s = Some (d, r) ->
    String.length d = n /\ all_chars isdigit d = true.
Proof.
  induction n as [|n IH]; intros s d r H; cbn [take_digits] in H.
  - injection H as <- <-. auto.
  - destruct s as [|c s]; [discriminate|].
    destruct (isdigit c) eqn:Hc; [|discriminate].
    destruct (take_digits n s) as [[d' r']|] eqn:E; [|discriminate].
    injection H as <- <-. destruct (IH _ _ _ E) as [L D].
    cbn [String.length all_chars]. now rewrite L, Hc, D.
Qed.

Lemma take_date_spec :
  forall s d r, take_date s = Some (d, r) -> is_date d.
Proof.
  intros s d r. unfold take_date.
  destruct (take_digits 4 s) as [[y r1]|] eqn:E1; [|discriminate].
  destruct (eat_lit "-" r1) as [r2|]; [|discriminate].
  destruct (take_digits 2 r2) as [[m r3]|] eqn:E2; [|discriminate].
  destruct (eat_lit "-" r3) as [r4|]; [|discriminate].
  destruct (take_digits 2 r4) as [[dd r5]|] eqn:E3; [|discriminate].
  intros [= <- <-].
  destruct (take_digits_spec _ _ _ _ E1) as [L1 D1].
  destruct (take_digits_spec _ _ _ _ E2) as [L2 D2].
  destruct (take_digits_spec _ _ _ _ E3) as [L3 D3].
  exists y, m, dd. rewrite !all_chars_append, D1, D2, D3. auto.
Qed.

Lemma m_period_at_spec :
  forall s a b, m_period_at s = Some (a, b) -> is_date a /\ is_date b.
Proof.
  intros s a b. unfold m_period_at.
  destruct (eat_lit "FOR PERIOD " s) as [r|]; [|discriminate].
  intros H. apply lazy_dots_some in H. destruct H as (s' & H).
  unfold period_tail in H.
  destruct (eat_lit ":" s') as [r1|]; [|discriminate].
  destruct (take_date (eat_ws r1)) as [[d1 r2]|] eqn:E1; [|discriminate].
  destruct (eat_lit "TO" (eat_ws r2)) as [r3|]; [|discriminate].
  destruct (take_date (eat_ws r3)) as [[d2 r4]|] eqn:E2; [|discriminate].
  injection H as <- <-.
  split; [exact (take_date_spec _ _ _ E1) | exact (take_date_spec _ _ _ E2)].
Qed.

Lemma period_search_spec :
  forall header_text a b,
    search m_period_at header_text = Some (a, b) -> is_date a /\ is_date b.
Proof.
  intros h a b E. apply search_some in E. destruct E as (s' & E).
  exact (m_period_at_spec _ _ _ E).
Qed.

(** X1: [parse_metadata] finds the two dates of the period together or
    not at all, and each date it returns is written [YYYY-MM-DD]: four
    digits, a hyphen, two digits, a hyphen, two digits. *)
Theorem parse_metadata_period_dates :
  forall header_text,
    (period_from (parse_metadata header_text) = None
     /\ period_to (parse_metadata header_text) = None)
    \/ exists a b,
         period_from (parse_metadata header_text) = Some a
         /\ period_to (parse_metadata header_text) = Some b
         /\ is_date a /\ is_date b.
Proof.
  intros h. unfold parse_metadata. cbn [period_from period_to].
  destruct (search m_period_at h) as [[a b]|] eqn:E; [|left; auto].
  right. exists a, b. cbn [option_map fst snd].
  split; [reflexivity|]. split; [reflexivity|].
  exact (period_search_spec _ _ _ E).
Qed.

Lemma is_date_not_nil : forall d, is_date d -> d <> "".
Proof.
  intros d (y & m & dd & -> & L & _). destruct y; [discriminate L|].
  discriminate.
Qed.

Lemma m_remit_at_spec : forall s v, m_remit_at s = Some v -> v <> "".
Proof.
  intros s v. unfold m_remit_at.
  destruct (eat_lit _ s) as [r|]; [|discriminate].
  destruct (span isalpha (eat_ws r)) as [letters r1].
  destruct (span isspace r1) as [ws r2].
  destruct letters as [|c l]; [discriminate|].
  destruct ws as [|w ws']; [discriminate|].
  destruct (take_digits 4 r2) as [[d r3]|]; [|discriminate].
  intros [= <-]. discriminate.
Qed.

Lemma m_run_at_spec : forall s v, m_run_at s = Some v -> v <> "".
Proof.
  intros s v. unfold m_run_at.
  destruct (eat_lit_nocase _ s) as [r|]; [|discriminate].
  destruct (span isspace r) as [ws r1].
  destruct (span is_run_date_char r1) as [run r2].
  destruct r2 as [|a [|m r3]]; try discriminate.
  destruct (_ && _); [|discriminate].
  destruct run as [|c run'].
  - destruct (endswith ws " "); [|discriminate]. intros [= <-]. discriminate.
  - intros [= <-]. discriminate.
Qed.

Lemma payment_to_tail_spec :
  forall s w, payment_to_tail s = Some w -> w <> "".
Proof.
  intros s w. unfold payment_to_tail.
  destruct (span isspace s) as [ws r1].
  destruct ws as [|c ws']; [discriminate|].
  destruct (eat_lit _ r1) as [r2|]; [|discriminate].
  destruct (span isword (eat_ws r2)) as [g r3].
  destruct g as [|x g']; [discriminate|].
  intros [= <-]. discriminate.
Qed.

Lemma lazy_name_spec :
  forall s g1 g2, lazy_name s = Some (g1, g2) -> g2 <> "".
Proof.
  induction s as [|c s IH]; intros g1 g2 H; [discriminate|].
  cbn [lazy_name] in H. destruct (Ascii.eqb c "010"); [discriminate|].
  destruct (payment_to_tail s) as [w|] eqn:E.
  - injection H as <- <-. exact (payment_to_tail_spec _ _ E).
  - destruct (lazy_name s) as [[h1 h2]|]; [|discriminate].
    injection H as <- <-. exact (IH _ _ eq_refl).
Qed.

Lemma name_after_ws_spec :
  forall s g1 g2, name_after_ws s = Some (g1, g2) -> g2 <> "".
Proof.
  induction s as [|c s IH]; intros g1 g2 H; [discriminate|].
  cbn [name_after_ws] in H. destruct (isspace c).
  - destruct (name_after_ws s) as [[h1 h2]|].
    + injection H as <- <-. exact (IH _ _ eq_refl).
    + exact (lazy_name_spec _ _ _ H).
  - exact (lazy_name_spec _ _ _ H).
Qed.

Lemma m_group_at_spec :
  forall s g1 g2, m_group_at s = Some (g1, g2) -> g2 <> "".
Proof.
  intros s g1 g2. unfold m_group_at.
  destruct (eat_lit _ s) as [r|]; [|discriminate].
  apply name_after_ws_spec.
Qed.

Lemma m_group_no_at_spec : forall s v, m_group_no_at s = Some v -> v <> "".
Proof.
  intros s v. unfold m_group_no_at.
  destruct (eat_lit "GROUP" s) as [r|]; [|discriminate].
  destruct (eat_lit "#:" _) as [r1|]; [|discriminate].
  destruct (span _ (eat_ws r1)) as [g r2].
  destruct g as [|x g']; [discriminate|].
  intros [= <-]. discriminate.
Qed.

Lemma truthy_present :
  forall o, (forall v, o = Some v -> v <> "") -> truthy o = present o.
Proof.
  intros [v|] H; [|reflexivity].
  destruct v; [now specialize (H "" eq_refl) | reflexivity].
Qed.

Lemma truthy_search :
  forall (m : string -> option string) header_text,
    (forall s v, m s = Some v -> v <> "") ->
    truthy (search m header_text) = present (search m header_text).
Proof.
  intros m h H. apply truthy_present. intros v E.
  apply search_some in E. destruct E as (s' & E). exact (H _ _ E).
Qed.

(** X2: every field that [parse_metadata] finds, the group name apart, is
    a non-empty string, so that its truth value in the exports is that of
    its presence; the group name is found exactly when the payee is, and
    it carries no whitespace at either end. *)
Theorem parse_metadata_found_fields :
  forall header_text,
    truthy (period_from (parse_metadata header_text))
    = present (period_from (parse_metadata header_text))
    /\ truthy (period_to (parse_metadata header_text))
       = present (period_to (parse_metadata header_text))
    /\ truthy (remittance_advice (parse_metadata header_text))
       = present (remittance_advice (parse_metadata header_text))
    /\ truthy (run_date (parse_metadata header_text))
       = present (run_date (parse_metadata header_text))
    /\ truthy (payment_to (parse_metadata header_text))
       = present (payment_to (parse_metadata header_text))
    /\ truthy (group_no (parse_metadata header_text))
       = present (group_no (parse_metadata header_text))
    /\ present (group_name (parse_metadata header_text))
       = present (payment_to (parse_metadata header_text))
    /\ option_map strip (group_name (parse_metadata header_text))
       = group_name (parse_metadata header_text).
Proof.
  intros h. unfold parse_metadata.
  cbn [period_from period_to remittance_advice run_date payment_to
       group_no group_name].
  assert (Hp : forall a b, search m_period_at h = Some (a, b) ->
                           a <> "" /\ b <> "").
  { intros a b E. destruct (period_search_spec _ _ _ E) as [Ha Hb].
    split; now apply is_date_not_nil. }
  assert (Hg : forall g1 g2, search m_group_at h = Some (g1, g2) ->
                             g2 <> "").
  { intros g1 g2 E. apply search_some in E. destruct E as (s' & E).
    exact (m_group_at_spec _ _ _ E). }
  split.
  { apply truthy_present. intros v E.
    destruct (search m_period_at h) as [[a b]|]; [|discriminate].
    injection E as <-. exact (proj1 (Hp _ _ eq_refl)). }
  split.
  { apply truthy_present. intros v E.
    destruct (search m_period_at h) as [[a b]|]; [|discriminate].
    injection E as <-. exact (proj2 (Hp _ _ eq_refl)). }
  split; [exact (truthy_search _ _ m_remit_at_spec)|].
  split; [exact (truthy_search _ _ m_run_at_spec)|].
  split.
  { apply truthy_present. intros v E.
    destruct (search m_group_at h) as [[g1 g2]|]; [|discriminate].
    injection E as <-. exact (Hg _ _ eq_refl). }
  split; [exact (truthy_search _ _ m_group_no_at_spec)|].
  destruct (search m_group_at h) as [[g1 g2]|]; [|split; reflexivity].
  split; [reflexivity|]. cbn [option_map fst]. now rewrite strip_idem.
Qed.

(** ** Labels of the records *)

(** X3: the category of every record that [line_to_category_and_numbers]
    returns holds a letter, has normalized spacing ([_normalize_spaces]
    leaves it unchanged) and is a fixed point of [normalize_category]. *)
Theorem line_to_category_and_numbers_label_normal :
  forall line cat cur ytd,
    line_to_category_and_numbers line = (Some cat, cur, ytd) ->
    any_char isalpha cat = true
    /\ _normalize_spaces cat = cat
    /\ normalize_category cat = cat.
Proof.
  intros line cat cur ytd H.
  destruct (parsed_label_clean _ _ _ _ H) as [Ha Ht Hl Hr Hf].
  split; [exact Ha|]. split; [|exact Hf].
  unfold _normalize_spaces. rewrite (collapse_ws_tidy _ Ht).
  now apply strip_tidy_trimmed.
Qed.

Lemma line_to_category_and_numbers_label_normal_witness :
  line_to_category_and_numbers
    "- network base rate payment: 1,234.56 2,345.67"
  = (Some "NETWORK BASE RATE PAYMENT", Some (of_decimal false 123456 2),
     Some (of_decimal false 234567 2))
  /\ any_char isalpha "NETWORK BASE RATE PAYMENT" = true
  /\ _normalize_spaces "NETWORK BASE RATE PAYMENT"
     = "NETWORK BASE RATE PAYMENT"
  /\ normalize_category "NETWORK BASE RATE PAYMENT"
     = "NETWORK BASE RATE PAYMENT".
Proof.
  assert (H : line_to_category_and_numbers
                "- network base rate payment: 1,234.56 2,345.67"
              = (Some "NETWORK BASE RATE PAYMENT",
                 Some (of_decimal false 123456 2),
                 Some (of_decimal false 234567 2)))
    by (vm_compute; reflexivity).
  split; [exact H|].
  exact (line_to_category_and_numbers_label_normal _ _ _ _ H).
Defined.

(** X4: a line without any letter yields no record, whatever numbers it
    holds. *)
Theorem line_without_letters_is_no_record :
  forall line,
    any_char isalpha line = false ->
    line_to_category_and_numbers line = no_record.
Proof.
  intros line H. unfold line_to_category_and_numbers.
  pose proof (any_char_strip_false isalpha isspace line H) as Hs.
  fold (strip line) in Hs.
  destruct (strip line) as [|c l] eqn:El; [reflexivity|].
  destruct (rev (findall (String c l))) as [|last [|prev rest]];
    try reflexivity.
  destruct (float_of_string (replace "," "" prev)); [|reflexivity].
  destruct (float_of_string (replace "," "" last)); [|reflexivity].
  match goal with
  | |- context [any_char isalpha ?h] =>
      assert (E : any_char isalpha h = false)
  end.
  { destruct (endswith _ _).
    - unfold rstrip, drop_last.
      now apply any_char_rstrip_false, any_char_substring_false.
    - unfold rstrip.
      apply any_char_rstrip_false, any_char_rsplit1_false.
      now apply any_char_rstrip_false, any_char_rsplit1_false. }
  rewrite E. reflexivity.
Qed.

Lemma line_without_letters_is_no_record_witness :
  any_char isalpha "2024-06 1,234.56 2,345.67" = false
  /\ line_to_category_and_numbers "2024-06 1,234.56 2,345.67" = no_record.
Proof.
  assert (H : any_char isalpha "2024-06 1,234.56 2,345.67" = false)
    by reflexivity.
  split; [exact H|].
  exact (line_without_letters_is_no_record _ H).
Defined.

(** ** Group categories *)

Lemma dict_set_keys :
  forall (V : Type) (d : list (string * V)) k v k',
    In k' (map fst (dict_set d k v)) -> k' = k \/ In k' (map fst d).
Proof.
  intros V. induction d as [|[k1 v1] d IH]; intros k v k' H.
  - simpl in H. destruct H as [<-|[]]. now left.
  - cbn [dict_set] in H. destruct (String.eqb k k1).
    + right. exact H.
    + cbn [map fst] in H. destruct H as [<-|H]; [right; left; reflexivity|].
      destruct (IH _ _ _ H) as [->|H']; [now left | right; right; exact H'].
Qed.

Lemma dict_set_nodup :
  forall (V : Type) (d : list (string * V)) k v,
    NoDup (map fst d) -> NoDup (map fst (dict_set d k v)).
Proof.
  intros V. induction d as [|[k1 v1] d IH]; intros k v H.
  - simpl. constructor; [intros [] | constructor].
  - cbn [dict_set]. destruct (String.eqb_spec k k1) as [->|N]; [exact H|].
    cbn [map fst] in *. inversion H as [|? ? Hn Hd]; subst.
    constructor; [|now apply IH].
    intros Hin. destruct (dict_set_keys _ _ _ _ _ Hin) as [->|Hin'];
      [congruence | contradiction].
Qed.

Lemma dict_set_in :
  forall (V : Type) (d : list (string * V)) k v kv,
    In kv (dict_set d k v) -> kv = (k, v) \/ In kv d.
Proof.
  intros V. induction d as [|[k1 v1] d IH]; intros k v kv H.
  - simpl in H. destruct H as [<-|[]]. now left.
  - cbn [dict_set] in H. destruct (String.eqb_spec k k1) as [->|N].
    + destruct H as [<-|H]; [now left | right; right; exact H].
    + destruct H as [<-|H]; [right; left; reflexivity|].
      destruct (IH _ _ _ H) as [->|H']; [now left | right; right; exact H'].
Qed.

Lemma group_rows_categories :
  forall (d : list (string * (pyfloat * pyfloat))),
    map row_cat (map (fun kv => (fst kv, fst (snd kv), snd (snd kv))) d)
    = map fst d.
Proof.
  intros d. rewrite map_map. apply map_ext. intros [k [c y]]. reflexivity.
Qed.

(** X5: no two rows that [parse_group_categories] returns carry the same
    category. *)
Theorem parse_group_categories_distinct :
  forall pages, NoDup (map row_cat (parse_group_categories pages)).
Proof.
  intros pages. unfold parse_group_categories.
  rewrite group_rows_categories.
  apply fold_left_invariant; [constructor|].
  intros d page Hd.
  apply fold_left_invariant; [exact Hd|].
  intros d' r Hd'. destruct (any_in _ _); [exact Hd'|].
  now apply dict_set_nodup.
Qed.

Lemma rows_of_lines_from_line :
  forall lines cat cur ytd,
    In (cat, cur, ytd) (rows_of_lines lines) ->
    exists l,
      In l lines
      /\ line_to_category_and_numbers l = (Some cat, Some cur, Some ytd).
Proof.
  induction lines as [|x lines IH]; intros cat cur ytd H; [destruct H|].
  cbn [rows_of_lines] in H.
  destruct (line_to_category_and_numbers x) as [[[c|] [a|]] [b|]] eqn:E;
    try (destruct (IH _ _ _ H) as (l & Hin & Hl); exists l;
         split; [right; exact Hin | exact Hl]).
  destruct H as [[= <- <- <-]|H].
  - exists x. split; [left; reflexivity | exact E].
  - destruct (IH _ _ _ H) as (l & Hin & Hl). exists l.
    split; [right; exact Hin | exact Hl].
Qed.

(** X6: every row that [parse_group_categories] returns is the record of
    some line of one of the first two pages, and its category, in upper
    case, holds none of the noise keys of the function. *)
Theorem parse_group_categories_rows_from_lines :
  forall pages cat cur ytd,
    In (cat, cur, ytd) (parse_group_categories pages) ->
    exists page line,
      In page (firstn 2 pages) /\ In line (splitlines page)
      /\ line_to_category_and_numbers line = (Some cat, Some cur, Some ytd)
      /\ any_in group_noise_keys (upper cat) = false.
Proof.
  intros pages cat cur ytd H. unfold parse_group_categories in H.
  apply in_map_iff in H. destruct H as ([k [c y]] & [= -> -> ->] & H).
  revert cat cur ytd H.
  match goal with
  | |- forall cat cur ytd, In _ (fold_left ?f ?l ?a) -> _ =>
      pattern (fold_left f l a)
  end.
  apply fold_left_invariant_in; [intros ? ? ? []|].
  intros d page Hpage Hd.
  match goal with
  | |- forall cat cur ytd, In _ (fold_left ?f ?l ?a) -> _ =>
      pattern (fold_left f l a)
  end.
  apply fold_left_invariant_in; [exact Hd|].
  intros d' [[rc ru] ry] Hr Hd' cat cur ytd.
  unfold row_cat, row_cur, row_ytd. cbn [fst snd].
  destruct (any_in group_noise_keys (upper rc)) eqn:En; [apply Hd'|].
  intros Hin. destruct (dict_set_in _ _ _ _ _ Hin) as [[= -> -> ->]|Hin'];
    [|now apply Hd'].
  destruct (rows_of_lines_from_line _ _ _ _ Hr) as (l & Hl & El).
  exists page, l. auto.
Qed.

Lemma parse_group_categories_rows_from_lines_witness :
  In ("ACCESS BONUS PAYMENT", of_decimal false 100 2, of_decimal false 200 2)
    (parse_group_categories ["ACCESS BONUS PAYMENT 1.00 2.00"])
  /\ exists page line,
       In page (firstn 2 ["ACCESS BONUS PAYMENT 1.00 2.00"])
       /\ In line (splitlines page)
       /\ line_to_category_and_numbers line
          = (Some "ACCESS BONUS PAYMENT", Some (of_decimal false 100 2),
             Some (of_decimal false 200 2))
       /\ any_in group_noise_keys (upper "ACCESS BONUS PAYMENT") = false.
Proof.
  assert (H : In ("ACCESS BONUS PAYMENT", of_decimal false 100 2,
                  of_decimal false 200 2)
                (parse_group_categories ["ACCESS BONUS PAYMENT 1.00 2.00"])).
  { vm_compute. left. reflexivity. }
  split; [exact H|].
  exact (parse_group_categories_rows_from_lines _ _ _ _ H).
Defined.

(** ** The shape of a cleaned provider name *)

Lemma drop_trailing_initials_incl :
  forall l x, In x (drop_trailing_initials l) -> In x l.
Proof.
  induction l as [|t l IH]; intros x H; [exact H|].
  cbn [drop_trailing_initials] in H. destruct l as [|u l']; [exact H|].
  destruct (String.length t =? 1)%nat; [right; now apply IH | exact H].
Qed.

Lemma drop_trailing_initials_length :
  forall l, List.length (drop_trailing_initials l) <= List.length l.
Proof.
  induction l as [|t l IH]; [apply le_n|].
  cbn [drop_trailing_initials]. destruct l as [|u l']; [apply le_n|].
  destruct (String.length t =? 1)%nat; [|apply le_n].
  cbn [List.length] in *. lia.
Qed.

Lemma name_char_not_space :
  forall c, is_name_char c = true -> Ascii.eqb c " " = false.
Proof.
  intros c H. apply Ascii.eqb_neq. intros ->. discriminate.
Qed.

(** The tokens kept of a candidate: four at most, made of letters,
    hyphens and apostrophes. *)
Lemma provider_name_tokens_shape :
  forall cand,
    List.length (provider_name_tokens cand) <= 4
    /\ Forall (fun t => all_chars is_name_char t = true)
         (provider_name_tokens cand).
Proof.
  intros cand. unfold provider_name_tokens.
  set (clean := _normalize_spaces _).
  assert (Hc : all_chars is_name_text clean = true).
  { unfold clean, _normalize_spaces. apply all_chars_strip.
    apply all_chars_collapse_ws. clear.
    induction cand as [|c s IH]; [reflexivity|].
    cbn [map_chars all_chars]. rewrite IH, andb_true_r.
    destruct (is_name_char c) eqn:E1; cbn [orb]; [now rewrite E1|].
    destruct (isspace c) eqn:E2; [now rewrite E2, orb_true_r|].
    reflexivity. }
  destruct clean as [|c0 s0] eqn:Ec; [split; [simpl; lia | constructor]|].
  rewrite <- Ec in *. clear Ec c0 s0.
  destruct (_ <? 2)%nat; [split; [simpl; lia | constructor]|].
  split.
  - rewrite length_rev.
    etransitivity; [apply drop_trailing_initials_length|].
    rewrite length_rev. apply firstn_le_length.
  - apply Forall_forall. intros t Ht.
    apply in_rev, drop_trailing_initials_incl in Ht.
    apply in_rev, in_firstn in Ht. apply filter_In in Ht.
    destruct Ht as [Ht _].
    exact (proj1 (Forall_forall _ _)
             (split_chars is_name_char " " clean name_char_not_space Hc)
             _ Ht).
Qed.

Lemma alpha_case :
  forall c,
    isalpha c = true ->
    isalpha (upper_char c) = true /\ isalpha (lower_char c) = true.
Proof.
  intros c. destruct c as [[] [] [] [] [] [] [] []];
    intros H; try discriminate H; split; reflexivity.
Qed.

Lemma title_from_chars :
  forall s b,
    all_chars is_name_char s = true ->
    all_chars is_name_char (title_from b s) = true.
Proof.
  induction s as [|c s IH]; intros b H; [reflexivity|].
  cbn [all_chars title_from] in *.
  apply andb_true_iff in H. destruct H as [Hc Hs].
  rewrite (IH _ Hs), andb_true_r.
  destruct (isalpha c) eqn:E; [|exact Hc].
  destruct (alpha_case _ E) as [U L]. unfold is_name_char.
  destruct b; [now rewrite L | now rewrite U].
Qed.

Lemma fix_case_chars :
  forall t,
    all_chars is_name_char t = true ->
    all_chars is_name_char (fix_case t) = true.
Proof.
  intros t H. unfold fix_case, title.
  destruct (_ && _).
  - change ("Mc" ++ ?x) with (String "M" (String "c" x)).
    cbn [all_chars]. change (is_name_char "M") with true.
    change (is_name_char "c") with true. cbn [andb].
    now apply title_from_chars, all_chars_substring.
  - now apply title_from_chars.
Qed.

(** The tokens kept of a candidate: four at most, each a word. *)
Lemma provider_name_tokens_words :
  forall cand,
    List.length (provider_name_tokens cand) <= 4
    /\ Forall is_name_word (provider_name_tokens cand).
Proof.
  intros cand. destruct (provider_name_tokens_shape cand) as [Hl Hf].
  split; [exact Hl|].
  apply Forall_forall. intros t Ht. split.
  - unfold provider_name_tokens in Ht.
    destruct (_normalize_spaces _) as [|c0 s0]; [destruct Ht|].
    destruct (_ <? 2)%nat; [destruct Ht|].
    apply in_rev, drop_trailing_initials_incl in Ht.
    apply in_rev, in_firstn in Ht. apply filter_In in Ht.
    destruct Ht as [_ Ht]. intros ->. discriminate Ht.
  - exact (proj1 (Forall_forall _ _) Hf _ Ht).
Qed.

Lemma title_from_length :
  forall s b, String.length (title_from b s) = String.length s.
Proof.
  induction s as [|c s IH]; intros b; [reflexivity|].
  cbn [title_from String.length]. now rewrite IH.
Qed.

Lemma fix_case_word : forall t, is_name_word t -> is_name_word (fix_case t).
Proof.
  intros t [Hn Hc]. split; [|now apply fix_case_chars].
  unfold fix_case, title. destruct (_ && _); [discriminate|].
  intros E. apply (f_equal String.length) in E.
  rewrite title_from_length in E. destruct t; [congruence | discriminate].
Qed.

Lemma split_join_space :
  forall ts,
    ts <> [] -> Forall (fun t => all_chars is_name_char t = true) ts ->
    split " " (join " " ts) = ts.
Proof.
  assert (W : forall t, all_chars is_name_char t = true -> no_char " " t).
  { intros t Ht.
    exact (any_char_none _ _ _ name_char_not_space Ht). }
  induction ts as [|t ts IH]; intros N H; [congruence|].
  inversion H as [|? ? Ht Hts]; subst.
  destruct ts as [|u ts'].
  - cbn [join]. now apply split_no_sep, W.
  - rewrite join_cons by discriminate.
    change (t ++ " " ++ join " " (u :: ts'))
      with (t ++ String " " (join " " (u :: ts'))).
    rewrite split_at_sep by now apply W.
    rewrite IH; [reflexivity | discriminate | exact Hts].
Qed.

(** X7: whatever the candidate, the name that [clean_provider_name_raw]
    returns consists of four words at most, joined by single spaces, each
    word not empty and made of letters, hyphens and apostrophes; splitting
    a name that is not empty at its spaces gives these words back. *)
Theorem clean_provider_name_raw_shape :
  forall cand,
    exists words,
      clean_provider_name_raw cand = join " " words
      /\ List.length words <= 4
      /\ Forall is_name_word words
      /\ (words <> [] ->
          split " " (clean_provider_name_raw cand) = words).
Proof.
  intros cand. unfold clean_provider_name_raw.
  destruct (provider_name_tokens_words cand) as [Hl Hf].
  assert (Hm : Forall is_name_word
                 (map fix_case (provider_name_tokens cand))).
  { apply Forall_map. eapply Forall_impl; [|exact Hf].
    exact fix_case_word. }
  exists (map fix_case (provider_name_tokens cand)).
  split; [reflexivity|]. split; [now rewrite length_map|].
  split; [exact Hm|].
  intros N. apply split_join_space; [exact N|].
  eapply Forall_impl; [|exact Hm]. intros w Hw. exact (proj2 Hw).
Qed.

(** ** Names for matching *)

Lemma collapse_runs_chars :
  forall p s,
    all_chars (fun c => negb (p c) || Ascii.eqb c " ") (collapse_runs p s)
    = true.
Proof.
  intros p. induction s as [|c s IH]; [reflexivity|].
  cbn [collapse_runs]. destruct (p c) eqn:Hc.
  - destruct s as [|c' s'].
    + cbn [all_chars]. now rewrite Ascii.eqb_refl, orb_true_r.
    + destruct (p c') eqn:Hc'; [exact IH|].
      cbn [all_chars]. rewrite IH.
      now rewrite Ascii.eqb_refl, orb_true_r.
  - cbn [all_chars]. now rewrite Hc, IH.
Qed.

Lemma collapse_runs_tidy :
  forall p s,
    (forall c, isspace c = true -> p c = true) ->
    tidy (collapse_runs p s) = true.
Proof.
  intros p s Hp. induction s as [|c s IH]; [reflexivity|].
  assert (Hn : forall x, p x = false -> isspace x = false).
  { intros x Hx. destruct (isspace x) eqn:E; [|reflexivity].
    apply Hp in E. congruence. }
  cbn [collapse_runs]. destruct (p c) eqn:Hc.
  - destruct s as [|c' s']; [reflexivity|].
    destruct (p c') eqn:Hc'; [exact IH|].
    cbn [collapse_runs] in *. rewrite Hc' in *.
    cbn [tidy] in *. rewrite (Hn _ Hc') in *. simpl. exact IH.
  - cbn [tidy]. rewrite (Hn _ Hc). exact IH.
Qed.

Lemma collapse_runs_fixed :
  forall p s,
    tidy s = true ->
    all_chars (fun c => negb (p c) || Ascii.eqb c " ") s = true ->
    collapse_runs p s = s.
Proof.
  intros p. induction s as [|c s IH]; [reflexivity|].
  cbn [tidy all_chars collapse_runs]. intros Ht Ha.
  apply andb_true_iff in Ht. destruct Ht as [Hc Ht].
  apply andb_true_iff in Ha. destruct Ha as [Hpc Ha].
  rewrite (IH Ht Ha). destruct (p c) eqn:Ep; [|reflexivity].
  cbn [negb orb] in Hpc. apply Ascii.eqb_eq in Hpc. subst c.
  destruct s as [|c' s']; [reflexivity|].
  change (isspace " ") with true in Hc. cbn iota in Hc.
  apply andb_true_iff in Hc. destruct Hc as [_ Hn].
  apply negb_true_iff in Hn.
  cbn [all_chars] in Ha. apply andb_true_iff in Ha. destruct Ha as [Hc' _].
  destruct (p c') eqn:Ep'; [|reflexivity].
  cbn [negb orb] in Hc'. apply Ascii.eqb_eq in Hc'. subst c'. discriminate.
Qed.

Lemma space_is_not_upper : forall c, isspace c = true -> not_upper c = true.
Proof.
  intros c H. unfold not_upper.
  destruct (isupper c) eqn:E; [|reflexivity].
  assert (A : isalpha c = true) by (unfold isalpha; now rewrite E).
  apply alpha_not_space in A. congruence.
Qed.

Lemma canon_name_parts :
  forall name,
    _canon_name_for_match name
    = strip (collapse_runs not_upper (upper name))
    /\ tidy (collapse_runs not_upper (upper name)) = true
    /\ all_chars is_name_or_space (collapse_runs not_upper (upper name))
       = true.
Proof.
  intros name. set (t := collapse_runs not_upper (upper name)).
  assert (Ht : tidy t = true)
    by (apply collapse_runs_tidy, space_is_not_upper).
  split; [|split; [exact Ht|]].
  - unfold _canon_name_for_match. fold not_upper. fold t.
    now rewrite (collapse_ws_tidy _ Ht).
  - apply (all_chars_impl (fun c => negb (not_upper c) || Ascii.eqb c " "));
      [|apply collapse_runs_chars].
    intros c. unfold not_upper, is_name_or_space.
    now rewrite negb_involutive.
Qed.

Lemma upper_char_fixed :
  forall c, is_name_or_space c = true -> upper_char c = c.
Proof.
  intros c H. unfold upper_char.
  destruct (islower c) eqn:E; [|reflexivity].
  unfold is_name_or_space in H. apply orb_true_iff in H.
  destruct H as [H|H].
  - exfalso. revert H E. unfold isupper, islower, between.
    destruct (N.leb_spec 65 (ord c)), (N.leb_spec (ord c) 90),
      (N.leb_spec 97 (ord c)), (N.leb_spec (ord c) 122); simpl;
      try discriminate; lia.
  - apply Ascii.eqb_eq in H. subst c. discriminate.
Qed.

(** X8: the result of [_canon_name_for_match] is made of capital letters
    and spaces, with normalized spacing, and canonicalizing it again
    changes nothing. *)
Theorem canon_name_for_match_idempotent :
  forall name,
    all_chars is_name_or_space (_canon_name_for_match name) = true
    /\ _normalize_spaces (_canon_name_for_match name)
       = _canon_name_for_match name
    /\ _canon_name_for_match (_canon_name_for_match name)
       = _canon_name_for_match name.
Proof.
  intros name.
  destruct (canon_name_parts name) as (E & Ht & Ha).
  set (t := collapse_runs not_upper (upper name)) in *.
  set (r := _canon_name_for_match name) in *.
  assert (Hr : tidy r = true) by (rewrite E; now apply tidy_strip_chars).
  assert (Har : all_chars is_name_or_space r = true)
    by (rewrite E; now apply all_chars_strip).
  assert (Hs : strip r = r) by (rewrite E; apply strip_idem).
  split; [exact Har|]. split.
  - unfold _normalize_spaces. now rewrite (collapse_ws_tidy _ Hr).
  - unfold _canon_name_for_match at 1. fold not_upper.
    assert (U : upper r = r)
      by (exact (map_chars_fixed _ _ _ upper_char_fixed Har)).
    rewrite U.
    assert (C : collapse_runs not_upper r = r).
    { apply collapse_runs_fixed; [exact Hr|].
      apply (all_chars_impl is_name_or_space); [|exact Har].
      intros c. unfold not_upper, is_name_or_space.
      now rewrite negb_involutive. }
    rewrite C, (collapse_ws_tidy _ Hr). exact Hs.
Qed.

(** Two texts that agree except where both have a character of the class
    collapse to the same text. *)
Lemma collapse_runs_related :
  forall p f g s,
    (forall c, f c = g c \/ (p (f c) = true /\ p (g c) = true)) ->
    collapse_runs p (map_chars f s) = collapse_runs p (map_chars g s).
Proof.
  intros p f g s H.
  assert (P : forall c, p (f c) = p (g c)).
  { intros c. destruct (H c) as [->|[-> ->]]; reflexivity. }
  induction s as [|c s IH]; [reflexivity|].
  cbn [map_chars collapse_runs]. rewrite (P c), IH.
  destruct (p (g c)) eqn:E.
  - destruct s as [|c' s']; [reflexivity|].
    cbn [map_chars]. now rewrite (P c').
  - destruct (H c) as [->|[A B]]; [reflexivity | congruence].
Qed.

Lemma canon_name_related :
  forall h name,
    (forall c, upper_char (h c) = upper_char c
               \/ (isalpha (h c) = false /\ isalpha c = false)) ->
    _canon_name_for_match (map_chars h name) = _canon_name_for_match name.
Proof.
  intros h name H. unfold _canon_name_for_match, upper.
  rewrite map_chars_map_chars.
  rewrite (collapse_runs_related _ (fun c => upper_char (h c)) upper_char);
    [reflexivity|].
  intros c. destruct (H c) as [E|[A B]]; [left; exact E|]. right.
  assert (N : forall x, isalpha x = false -> isupper (upper_char x) = false).
  { intros x Hx. unfold isalpha in Hx. apply orb_false_iff in Hx.
    unfold upper_char. rewrite (proj2 Hx). exact (proj1 Hx). }
  now rewrite (N _ A), (N _ B).
Qed.

(** X9: on an ASCII name, [_canon_name_for_match] ignores the case of the
    letters and treats every character that is not a letter as a space:
    lower-casing the name, or replacing each of its non-letters by a
    space, leaves the canonical name unchanged. *)
Theorem canon_name_for_match_ignores_case_and_punctuation :
  forall name,
    is_ascii name ->
    _canon_name_for_match (lower name) = _canon_name_for_match name
    /\ _canon_name_for_match
         (map_chars (fun c => if isalpha c then c else " "%char) name)
       = _canon_name_for_match name.
Proof.
  intros name _. split.
  - apply canon_name_related. intros c.
    destruct c as [[] [] [] [] [] [] [] []];
      (left; reflexivity) || (right; split; reflexivity).
  - apply canon_name_related. intros c.
    destruct (isalpha c) eqn:E; [left; reflexivity|].
    right. split; reflexivity.
Qed.

Lemma canon_name_for_match_ignores_case_and_punctuation_witness :
  is_ascii "O'Brien-Smith, J."
  /\ _canon_name_for_match (lower "O'Brien-Smith, J.")
     = _canon_name_for_match "O'Brien-Smith, J."
  /\ _canon_name_for_match
       (map_chars (fun c => if isalpha c then c else " "%char)
          "O'Brien-Smith, J.")
     = _canon_name_for_match "O'Brien-Smith, J.".
Proof.
  assert (H : is_ascii "O'Brien-Smith, J.") by (vm_compute; reflexivity).
  split; [exact H|].
  exact (canon_name_for_match_ignores_case_and_punctuation _ H).
Defined.

(** ** The provider name of a page *)

(** X10: on a page none of whose lines mentions NETWORK BASE RATE PAYMENT,
    [extract_provider_name_from_page] returns "Unknown Provider": the
    fallback of the function sets the index to 0, above which no line is
    scanned. *)
Theorem extract_provider_name_needs_marker :
  forall page_text,
    Forall (fun ln => marker_line ln = false) (page_lines page_text) ->
    extract_provider_name_from_page page_text = "Unknown Provider".
Proof.
  intros page H. unfold extract_provider_name_from_page.
  unfold page_lines in H. cbv zeta.
  rewrite (find_index_none
             (fun ln => contains "NETWORK BASE RATE PAYMENT" (upper ln))
             0 _ H).
  destruct (existsb _ _); reflexivity.
Qed.

Lemma extract_provider_name_needs_marker_witness :
  Forall (fun ln => marker_line ln = false)
    (page_lines ("JOHN SMITH" ++ newline ++ "ACCESS BONUS PAYMENT 1.00 2.00"))
  /\ extract_provider_name_from_page
       ("JOHN SMITH" ++ newline ++ "ACCESS BONUS PAYMENT 1.00 2.00")
     = "Unknown Provider".
Proof.
  assert (H : Forall (fun ln => marker_line ln = false)
                (page_lines ("JOHN SMITH" ++ newline
                               ++ "ACCESS BONUS PAYMENT 1.00 2.00"))).
  { apply Forall_forall. intros ln Hin. vm_compute in Hin.
    destruct Hin as [<-|[<-|[]]]; vm_compute; reflexivity. }
  split; [exact H|].
  exact (extract_provider_name_needs_marker _ H).
Defined.

(** The loop that scans the lines above the marker keeps the last cleaned
    name that is not empty. *)
Lemma fold_name_from :
  forall window init,
    fold_left
      (fun name ln =>
         match clean_provider_name_raw (strip ln) with
         | EmptyString => name
         | cleaned => Some cleaned
         end)
      window init = init
    \/ exists ln,
         In ln window
         /\ fold_left
              (fun name ln =>
                 match clean_provider_name_raw (strip ln) with
                 | EmptyString => name
                 | cleaned => Some cleaned
                 end)
              window init
            = Some (clean_provider_name_raw (strip ln))
         /\ clean_provider_name_raw (strip ln) <> "".
Proof.
  induction window as [|x window IH]; intros init; [left; reflexivity|].
  cbn [fold_left].
  match goal with
  | |- context [fold_left ?f window ?i] =>
      destruct (IH i) as [E|(ln & Hin & E & N)]
  end.
  - rewrite E.
    destruct (clean_provider_name_raw (strip x)) as [|c s] eqn:Ex.
    + left; reflexivity.
    + right. exists x. split; [left; reflexivity|].
      rewrite Ex. split; [reflexivity | discriminate].
  - right. exists ln. split; [right; exact Hin|]. split; [exact E | exact N].
Qed.

(** X11: the name that [extract_provider_name_from_page] returns is never
    empty: it is "Unknown Provider", or the cleaned form of one of the six
    lines at most that stand above the first line mentioning NETWORK BASE
    RATE PAYMENT. *)
Theorem extract_provider_name_from_lines_above_marker :
  forall page_text,
    extract_provider_name_from_page page_text <> ""
    /\ (extract_provider_name_from_page page_text = "Unknown Provider"
        \/ exists i j ln,
             find_index marker_line 0 (page_lines page_text) = Some i
             /\ j < i /\ i <= j + 6
             /\ nth_error (page_lines page_text) j = Some ln
             /\ extract_provider_name_from_page page_text
                = clean_provider_name_raw (strip ln)).
Proof.
  intros page. unfold extract_provider_name_from_page, page_lines.
  cbv zeta.
  change (fun ln => contains "NETWORK BASE RATE PAYMENT" (upper ln))
    with marker_line.
  destruct (find_index marker_line 0 (splitlines (control_to_space page)))
    as [i|] eqn:Ei.
  - match goal with
    | |- context [fold_left ?f ?w None] =>
        destruct (fold_name_from w None) as [E|(ln & Hin & E & N)];
        rewrite E
    end.
    + split; [discriminate | left; reflexivity].
    + split; [exact N|]. right.
      destruct (in_firstn_skipn _ _ _ _ _ Hin) as (j & H1 & H2 & Hj).
      exists i, j, ln. split; [reflexivity|].
      split; [lia|]. split; [lia|]. split; [exact Hj | reflexivity].
  - split; [destruct (existsb _ _); discriminate|].
    left. destruct (existsb _ _); reflexivity.
Qed.

(** ** The page-based provider totals *)

Lemma totals_fold_spec :
  forall rows,
    match fold_left totals_step rows (None, None, fzero, fzero) with
    | (tc, ty, sc, sy) =>
        sc = pysum (map row_cur rows) /\ sy = pysum (map row_ytd rows)
        /\ ((exists pre r post,
                rows = (pre ++ r :: post)%list
                /\ is_total_claims_row r = true /\ Forall not_total post
                /\ tc = Some (row_cur r) /\ ty = Some (row_ytd r))
            \/ (Forall not_total rows /\ tc = None /\ ty = None))
    end.
Proof.
  induction rows as [|r rows IH] using rev_ind.
  - simpl. split; [reflexivity|]. split; [reflexivity|]. right.
    split; [constructor|]. split; reflexivity.
  - rewrite fold_left_app. cbn [fold_left].
    destruct (fold_left totals_step rows (None, None, fzero, fzero))
      as [[[tc ty] sc] sy].
    destruct IH as (Hc & Hy & Ht).
    unfold totals_step, pysum. rewrite !map_app, !fold_left_app.
    cbn [map fold_left]. fold (pysum (map row_cur rows)).
    fold (pysum (map row_ytd rows)). rewrite <- Hc, <- Hy.
    destruct (is_total_claims_row r) eqn:Er.
    + split; [reflexivity|]. split; [reflexivity|]. left.
      exists rows, r, []. split; [reflexivity|]. split; [exact Er|].
      split; [constructor|]. split; reflexivity.
    + split; [reflexivity|]. split; [reflexivity|].
      destruct Ht as [(pre & r0 & post & -> & H0 & Hp & -> & ->)
                     |(Hn & -> & ->)].
      * left. exists pre, r0, (post ++ [r])%list.
        rewrite <- app_assoc. cbn [app]. split; [reflexivity|].
        split; [exact H0|]. split; [|split; reflexivity].
        apply Forall_app. split; [exact Hp|]. constructor; [exact Er|].
        constructor.
      * right. split; [|split; reflexivity].
        apply Forall_app. split; [exact Hn|].
        constructor; [exact Er | constructor].
Qed.

Lemma page_totals_by_last_row :
  forall rows,
    totals_by_last_row rows (fst (page_totals rows)) (snd (page_totals rows)).
Proof.
  intros rows. unfold page_totals. pose proof (totals_fold_spec rows) as H.
  destruct (fold_left totals_step rows (None, None, fzero, fzero))
    as [[[tc ty] sc] sy].
  destruct H as (Hc & Hy & [(pre & r & post & E & Hr & Hp & -> & ->)
                           |(Hn & -> & ->)]).
  - left. exists pre, r, post. cbn [fst snd]. auto.
  - right. cbn [fst snd]. auto.
Qed.

(** X12: every line that [write_provider_csvs] writes to
    [provider_totals.csv] after the header belongs to one of the pages and
    holds the provider name of the page and the [.2f] renderings of the
    amounts of the last row of the page whose category, in upper case,
    contains "TOTAL CLAIMS PAYABLE", or of the sums of all the rows of the
    page when there is no such row. *)
Theorem write_provider_csvs_totals_by_last_row :
  forall provider_pages line,
    In line (tl (snd (write_provider_csvs provider_pages))) ->
    exists page c y,
      In page provider_pages
      /\ line = [fst (parse_provider_page page); format_2f c; format_2f y]
      /\ totals_by_last_row (snd (parse_provider_page page)) c y.
Proof.
  intros pages line H. unfold write_provider_csvs in H. cbn [snd tl] in H.
  apply in_map_iff in H. destruct H as (page & <- & Hin).
  exists page. unfold page_totals_line.
  destruct (parse_provider_page page) as [provider rows]. cbn [fst snd].
  pose proof (page_totals_by_last_row rows) as Ht.
  destruct (page_totals rows) as [c y]. exists c, y. auto.
Qed.

Lemma write_provider_csvs_totals_by_last_row_witness :
  In ["Unknown Provider"; "3.00"; "4.00"]
    (tl (snd (write_provider_csvs
                ["TOTAL CLAIMS PAYABLE 1.00 2.00" ++ newline
                   ++ "TOTAL CLAIMS PAYABLE 3.00 4.00"])))
  /\ exists page c y,
       In page ["TOTAL CLAIMS PAYABLE 1.00 2.00" ++ newline
                  ++ "TOTAL CLAIMS PAYABLE 3.00 4.00"]
       /\ ["Unknown Provider"; "3.00"; "4.00"]
          = [fst (parse_provider_page page); format_2f c; format_2f y]
       /\ totals_by_last_row (snd (parse_provider_page page)) c y.
Proof.
  assert (H : In ["Unknown Provider"; "3.00"; "4.00"]
                (tl (snd (write_provider_csvs
                            ["TOTAL CLAIMS PAYABLE 1.00 2.00" ++ newline
                               ++ "TOTAL CLAIMS PAYABLE 3.00 4.00"]))))
    by (vm_compute; left; reflexivity).
  split; [exact H|].
  exact (write_provider_csvs_totals_by_last_row _ _ H).
Defined.

Lemma only_total_unique :
  forall pre r post pre' r' post',
    (pre ++ r :: post)%list = (pre' ++ r' :: post')%list ->
    Forall not_total pre -> Forall not_total post ->
    is_total_claims_row r' = true ->
    r' = r.
Proof.
  induction pre as [|x pre IH]; intros r post pre' r' post' E Hp Hq Hr'.
  - destruct pre' as [|y pre'].
    + now injection E.
    + injection E as _ E. exfalso.
      assert (Hin : In r' post) by (rewrite E; apply in_elt).
      pose proof (proj1 (Forall_forall _ _) Hq _ Hin) as N.
      unfold not_total in N. congruence.
  - inversion Hp as [|? ? Hx Hp']; subst. destruct pre' as [|y pre'].
    + injection E as -> _. unfold not_total in Hx. congruence.
    + injection E as _ E. now apply (IH _ _ _ _ _ E).
Qed.

(** X13: on a row list with exactly one explicit total row, the totals
    that [write_provider_csvs] computes for a page and those that [main]
    computes for a provider entry are the same: the amounts of that row.
    (With several total rows the writer takes the last and [main] the
    first; without one the writer adds in a loop and [main] calls
    [sum].) *)
Theorem page_totals_agree_with_main :
  forall pre r post,
    Forall not_total pre -> is_total_claims_row r = true ->
    Forall not_total post ->
    page_totals (pre ++ r :: post) = (row_cur r, row_ytd r)
    /\ provider_totals (pre ++ r :: post) = (row_cur r, row_ytd r).
Proof.
  intros pre r post Hp Hr Hq. split.
  - pose proof (page_totals_by_last_row (pre ++ r :: post)) as L.
    destruct (page_totals (pre ++ r :: post)) as [c y]. cbn [fst snd] in L.
    destruct L as [(pre' & r' & post' & E & Hr' & _ & -> & ->)
                  |(Hn & _ & _)].
    + now rewrite (only_total_unique _ _ _ _ _ _ E Hp Hq Hr').
    + exfalso. apply Forall_app in Hn. destruct Hn as [_ Hn].
      inversion Hn as [|? ? Hx _]; subst. unfold not_total in Hx.
      congruence.
  - destruct (provider_totals (pre ++ r :: post)) as [c y] eqn:E2.
    pose proof (provider_totals_as_claimed _ _ _ E2) as F.
    unfold totals_as_claimed in F.
    destruct F as [(pre' & r' & post' & E & _ & Hr' & -> & ->)
                  |(Hn & _ & _)].
    + now rewrite (only_total_unique _ _ _ _ _ _ E Hp Hq Hr').
    + exfalso. apply Forall_app in Hn. destruct Hn as [_ Hn].
      inversion Hn as [|? ? Hx _]; subst. unfold not_total in Hx.
      congruence.
Qed.

Lemma page_totals_agree_with_main_witness :
  Forall not_total [("ACCESS BONUS PAYMENT", of_decimal false 100 2,
                     of_decimal false 200 2)]
  /\ is_total_claims_row ("TOTAL CLAIMS PAYABLE", of_decimal false 300 2,
                          of_decimal false 400 2) = true
  /\ Forall not_total [("NETWORK BASE RATE PAYMENT", of_decimal false 500 2,
                        of_decimal false 600 2)]
  /\ page_totals
       ([("ACCESS BONUS PAYMENT", of_decimal false 100 2,
          of_decimal false 200 2)]
        ++ ("TOTAL CLAIMS PAYABLE", of_decimal false 300 2,
            of_decimal false 400 2)
        :: [("NETWORK BASE RATE PAYMENT", of_decimal false 500 2,
             of_decimal false 600 2)])
     = (row_cur ("TOTAL CLAIMS PAYABLE", of_decimal false 300 2,
                 of_decimal false 400 2),
        row_ytd ("TOTAL CLAIMS PAYABLE", of_decimal false 300 2,
                 of_decimal false 400 2))
  /\ provider_totals
       ([("ACCESS BONUS PAYMENT", of_decimal false 100 2,
          of_decimal false 200 2)]
        ++ ("TOTAL CLAIMS PAYABLE", of_decimal false 300 2,
            of_decimal false 400 2)
        :: [("NETWORK BASE RATE PAYMENT", of_decimal false 500 2,
             of_decimal false 600 2)])
     = (row_cur ("TOTAL CLAIMS PAYABLE", of_decimal false 300 2,
                 of_decimal false 400 2),
        row_ytd ("TOTAL CLAIMS PAYABLE", of_decimal false 300 2,
                 of_decimal false 400 2)).
Proof.
  assert (H1 : Forall not_total
                 [("ACCESS BONUS PAYMENT", of_decimal false 100 2,
                   of_decimal false 200 2)])
    by (constructor; [reflexivity | constructor]).
  assert (H2 : is_total_claims_row
                 ("TOTAL CLAIMS PAYABLE", of_decimal false 300 2,
                  of_decimal false 400 2) = true) by reflexivity.
  assert (H3 : Forall not_total
                 [("NETWORK BASE RATE PAYMENT", of_decimal false 500 2,
                   of_decimal false 600 2)])
    by (constructor; [reflexivity | constructor]).
  split; [exact H1|]. split; [exact H2|]. split; [exact H3|].
  exact (page_totals_agree_with_main _ _ _ H1 H2 H3).
Defined.

(** ** The Markdown export, read back *)

Lemma markdown_lines_head :
  forall meta grp index entries,
    exists rest,
      markdown_lines meta grp index entries
      = "# OHIP Payment Summary" :: rest.
Proof.
  intros. unfold markdown_lines. cbn [List.concat app].
  eexists. reflexivity.
Qed.

Lemma md_group_row_line_in :
  forall meta grp index entries r,
    In r grp -> In (row_line "" r) (markdown_lines meta grp index entries).
Proof.
  intros meta grp index entries r H. unfold markdown_lines.
  apply in_concat. exists (map (row_line "") grp).
  split; [simpl; auto | now apply in_map].
Qed.

Lemma md_provider_row_line_in :
  forall meta grp index entries p r,
    In p entries -> In r (p_rows p) -> is_meta_row r = false ->
    In (row_line "" r) (markdown_lines meta grp index entries).
Proof.
  intros meta grp index entries p r Hp Hr Hm. unfold markdown_lines.
  apply in_concat. exists (flat_map md_detail_lines entries).
  split; [simpl; auto 10|].
  apply in_flat_map. exists p. split; [exact Hp|].
  unfold md_detail_lines. right. apply in_or_app. left.
  apply in_map. apply filter_In. split; [exact Hr | now rewrite Hm].
Qed.

(** A rendered row line is found again in the Markdown text and read
    back. *)
Lemma md_rendered_line_read_back :
  forall meta grp entries index cat cur ytd,
    label_clean cat -> reads_back cur -> reads_back ytd ->
    In (row_line "" (cat, cur, ytd)) (markdown_lines meta grp index entries) ->
    In (cat, cur, ytd)
      (reextract
         (strip (join newline (markdown_lines meta grp index entries))
            ++ newline)).
Proof.
  intros meta grp entries index cat cur ytd Hcat Hc Hy Hin.
  destruct (row_line_shape "" cat cur ytd Hcat Hc Hy eq_refl) as [Hl Hd].
  unfold reextract.
  apply (rows_of_lines_in _ (row_line "" (cat, cur, ytd))).
  - destruct (markdown_lines_head meta grp index entries) as (rest & Eh).
    destruct (in_split _ _ Hin) as (L1 & L2 & E).
    assert (HL1 : L1 <> []).
    { intros ->. rewrite Eh in E. cbn [app] in E. injection E as E _.
      unfold row_line in E. discriminate E. }
    rewrite E. apply line_in_stripped_text; auto.
    rewrite <- E, Eh.
    destruct (join_head newline "# OHIP Payment Summary" rest) as (y & ->).
    exact (eq_refl : isspace "#" = false).
  - now apply (row_line_reads_back_core "").
Qed.

(** X14: in every run that returns, whatever the metadata, each triple of
    the parsed records that [build_markdown] renders (every group row, and
    every provider row whose category holds no meta token) is among the
    triples that [line_to_category_and_numbers] reads from the lines of
    [combined_readable.md], provided its two amounts read back from their
    [,.2f] renderings. *)
Theorem combined_markdown_rows_read_back :
  forall w out meta text cat cur ytd,
    main w = Returned out ->
    build_markdown meta (out_group_rows out) (out_provider_entries out)
    = Some text ->
    In (cat, cur, ytd) (out_group_rows out)
    \/ (exists p, In p (out_provider_entries out)
                  /\ In (cat, cur, ytd) (p_rows p)
                  /\ is_meta_row (cat, cur, ytd) = false) ->
    reads_back cur -> reads_back ytd ->
    In (cat, cur, ytd) (reextract text).
Proof.
  intros w out meta text cat cur ytd Hmain Htext Hin Hc Hy.
  destruct (main_rows_clean _ _ Hmain) as [Hg Hp].
  unfold build_markdown in Htext.
  destruct (index_lines (out_provider_entries out)) as [index|];
    [|discriminate].
  injection Htext as <-.
  destruct Hin as [Hin|(p & Hpin & Hrin & Hm)].
  - apply md_rendered_line_read_back; auto.
    + exact (proj1 (Forall_forall _ _) Hg _ Hin).
    + now apply md_group_row_line_in.
  - apply md_rendered_line_read_back; auto.
    + pose proof (proj1 (Forall_forall _ _) Hp _ Hpin) as Hrows.
      exact (proj1 (Forall_forall _ _) Hrows _ Hrin).
    + now apply (md_provider_row_line_in _ _ _ _ p).
Qed.

Lemma combined_markdown_rows_read_back_witness :
  exists out text,
    main (plain_world true sample_report) = Returned out
    /\ build_markdown no_metadata (out_group_rows out)
         (out_provider_entries out)
       = Some text
    /\ In ("NETWORK BASE RATE PAYMENT",
           of_decimal false 100 2, of_decimal false 200 2)
         (reextract text).
Proof.
  eexists. eexists.
  assert (E1 : main (plain_world true sample_report) = Returned
    ltac:(let r := eval vm_compute in
            (match main (plain_world true sample_report) with
             | Returned o => o
             | _ => {| out_group_rows := []; out_provider_entries := [];
                       out_provider_categories_csv := [];
                       out_provider_totals_csv := [] |}
             end) in exact r)) by (vm_compute; reflexivity).
  split; [exact E1|]. split; [vm_compute; reflexivity|].
  eapply (combined_markdown_rows_read_back _ _ no_metadata _ _ _ _ E1).
  - vm_compute. reflexivity.
  - right. eexists. split; [left; reflexivity|].
    split; [left; reflexivity | vm_compute; reflexivity].
  - split; vm_compute; reflexivity.
  - split; vm_compute; reflexivity.
Defined.

(** ** The text cleaned for reading *)

Lemma count_chars_none :
  forall p s, any_char p s = false -> count_chars p s = 0%N.
Proof.
  intros p. induction s as [|c s IH]; [reflexivity|].
  cbn [any_char count_chars]. intros H.
  apply orb_false_iff in H. destruct H as [Hc Hs].
  now rewrite Hc, (IH Hs).
Qed.

(** X15: [_looks_like_noise] holds of every ASCII line without a letter
    or a digit, whatever its length and its punctuation. *)
Theorem looks_like_noise_without_letters_and_digits :
  forall line,
    is_ascii line -> any_char isalnum line = false ->
    _looks_like_noise line = true.
Proof.
  intros line _ H. unfold _looks_like_noise.
  pose proof (any_char_strip_false isalnum isspace line H) as Hs.
  fold (strip line) in Hs.
  destruct (strip line) as [|c s]; [reflexivity|].
  destruct (all_chars is_decoration _); [reflexivity|].
  destruct (_ || _); [reflexivity|].
  destruct (_ && _); [reflexivity|].
  cbv zeta. rewrite (count_chars_none _ _ Hs). reflexivity.
Qed.

Lemma looks_like_noise_without_letters_and_digits_witness :
  is_ascii ". : . : ."
  /\ any_char isalnum ". : . : ." = false
  /\ _looks_like_noise ". : . : ." = true.
Proof.
  assert (A : is_ascii ". : . : .") by (vm_compute; reflexivity).
  assert (H : any_char isalnum ". : . : ." = false) by reflexivity.
  split; [exact A|]. split; [exact H|].
  exact (looks_like_noise_without_letters_and_digits _ A H).
Defined.

Lemma kept_line_plain :
  forall l, kept_line l -> no_linebreak l /\ l <> "".
Proof.
  intros l (N & E & _). split; [|exact N].
  apply tidy_no_linebreak. rewrite <- E. unfold _normalize_spaces.
  apply tidy_strip_chars, tidy_collapse_ws.
Qed.

Lemma kept_lines_plain :
  forall ks,
    Forall kept_line ks -> Forall (fun l => no_linebreak l /\ l <> "") ks.
Proof.
  intros ks H. eapply Forall_impl; [|exact H]. exact kept_line_plain.
Qed.

Lemma clean_lines_kept : forall lines, Forall kept_line (clean_lines lines).
Proof.
  induction lines as [|ln rest IH]; [constructor|].
  cbn [clean_lines]. unfold _normalize_unicode_punct.
  fold (_normalize_spaces ln).
  destruct (_normalize_spaces ln) as [|c s] eqn:E; [exact IH|].
  destruct (_looks_like_noise (String c s)) eqn:En; [exact IH|].
  constructor; [|exact IH].
  split; [discriminate|]. split; [|exact En].
  rewrite <- E. apply normalize_spaces_idem.
Qed.

Lemma clean_lines_fixed :
  forall ks, Forall kept_line ks -> clean_lines ks = ks.
Proof.
  induction ks as [|k ks IH]; intros H; [reflexivity|].
  inversion H as [|? ? (N & E & En) Hks]; subst.
  cbn [clean_lines]. unfold _normalize_unicode_punct.
  fold (_normalize_spaces k). rewrite E.
  destruct k as [|c s]; [congruence|]. rewrite En. now rewrite (IH Hks).
Qed.

Lemma clean_lines_app :
  forall a b, clean_lines (a ++ b) = (clean_lines a ++ clean_lines b)%list.
Proof.
  induction a as [|x a IH]; intros b; [reflexivity|].
  cbn [app clean_lines].
  destruct (strip (collapse_ws (_normalize_unicode_punct x)));
    [apply IH|].
  destruct (_looks_like_noise _); [apply IH|].
  cbn [app]. now rewrite IH.
Qed.

Lemma clean_lines_blank :
  forall a, Forall (eq "") a -> clean_lines a = [].
Proof.
  induction a as [|x a IH]; intros H; [reflexivity|].
  inversion H as [|? ? <- Ha]; subst. cbn [clean_lines]. simpl. now apply IH.
Qed.

Lemma splitlines_decorated :
  forall ks pg,
    Forall kept_line ks -> decorated pg (join newline ks) ->
    exists a b,
      splitlines pg = (a ++ ks ++ b)%list
      /\ Forall (eq "") a /\ Forall (eq "") b.
Proof.
  intros ks pg Hk (pre & post & Hpre & Hpost & ->).
  pose proof (kept_lines_plain _ Hk) as Hp.
  destruct ks as [|k ks].
  - exists (splitlines (pre ++ post)), []. cbn [join app].
    rewrite app_nil_r. split; [reflexivity|]. split; [|constructor].
    destruct Hpre as [-> | ->], Hpost as [-> | ->]; repeat constructor.
  - assert (Hbody : splitlines (join newline (k :: ks) ++ post) = k :: ks).
    { destruct Hpost as [-> | ->].
      - rewrite append_nil_r. now apply splitlines_join.
      - apply splitlines_join_newline; [discriminate | exact Hp]. }
    destruct Hpre as [-> | ->].
    + exists [], []. cbn [app]. rewrite app_nil_r.
      split; [exact Hbody|]. split; constructor.
    + exists [""], []. rewrite app_nil_r.
      split; [|split; repeat constructor].
      change (newline ++ join newline (k :: ks) ++ post)
        with ("" ++ newline ++ (join newline (k :: ks) ++ post)).
      rewrite (splitlines_line "" _ eq_refl), Hbody. reflexivity.
Qed.

Lemma clean_page_decorated :
  forall ks pg,
    Forall kept_line ks -> decorated pg (join newline ks) ->
    clean_page pg = join newline ks.
Proof.
  intros ks pg Hk Hd. unfold clean_page.
  destruct (splitlines_decorated _ _ Hk Hd) as (a & b & -> & Ha & Hb).
  rewrite !clean_lines_app, (clean_lines_blank _ Ha), (clean_lines_blank _ Hb).
  rewrite (clean_lines_fixed _ Hk). cbn [app]. now rewrite app_nil_r.
Qed.

Lemma no_form_feed_line :
  forall l, no_linebreak l -> no_char form_feed l.
Proof.
  intros l H. unfold no_char.
  apply (any_char_none _ (fun c => negb (islinebreak c))).
  - intros c Hc. apply Ascii.eqb_neq. intros ->. discriminate.
  - clear -H. unfold no_linebreak in H.
    induction l as [|c l IH]; [reflexivity|]. simpl in *.
    apply orb_false_iff in H. destruct H as [Hc Hl].
    now rewrite Hc, (IH Hl).
Qed.

Lemma no_form_feed_page :
  forall ks, Forall kept_line ks -> no_char form_feed (join newline ks).
Proof.
  induction ks as [|k ks IH]; intros H; [reflexivity|].
  inversion H as [|? ? Hk Hks]; subst.
  pose proof (no_form_feed_line _ (proj1 (kept_line_plain _ Hk))) as Hf.
  destruct ks as [|k' t]; [exact Hf|].
  rewrite join_cons by discriminate.
  apply no_char_append; [exact Hf|].
  apply no_char_append; [reflexivity | now apply IH].
Qed.

(** The pages of a cleaned text, split again. *)
Lemma split_joined_pages :
  forall cps pre,
    cps <> [] -> Forall (no_char form_feed) cps ->
    pre = "" \/ pre = newline ->
    Forall2 decorated (split form_feed (pre ++ join page_break cps)) cps.
Proof.
  induction cps as [|c cps IH]; intros pre N H Hpre; [congruence|].
  inversion H as [|? ? Hc Hcps]; subst.
  assert (Hp : no_char form_feed pre)
    by (destruct Hpre as [-> | ->]; reflexivity).
  destruct cps as [|c2 rest].
  - cbn [join]. rewrite split_no_sep by now apply no_char_append.
    constructor; [|constructor].
    exists pre, "". rewrite append_nil_r. auto.
  - rewrite join_cons by discriminate. unfold page_break at 1.
    replace (pre ++ c ++ (newline ++ String form_feed newline)
               ++ join page_break (c2 :: rest))
      with ((pre ++ c ++ newline)
              ++ String form_feed (newline ++ join page_break (c2 :: rest)))
      by (now rewrite !append_assoc).
    rewrite split_at_sep.
    2:{ apply no_char_append; [exact Hp|].
        apply no_char_append; [exact Hc | reflexivity]. }
    constructor.
    + exists pre, newline. auto.
    + apply IH; [discriminate | exact Hcps | now right].
Qed.

Lemma cleaned_pages :
  forall raw,
    let cps := map clean_page (split form_feed raw) in
    clean_ocr_text raw = join page_break cps
    /\ cps <> []
    /\ Forall (fun c => exists ks, Forall kept_line ks /\ c = join newline ks)
         cps.
Proof.
  intros raw cps. split; [reflexivity|]. split.
  - unfold cps. pose proof (split_not_nil form_feed raw) as N.
    destruct (split form_feed raw); [congruence | discriminate].
  - unfold cps. apply Forall_map_intro. intros pg.
    exists (clean_lines (splitlines pg)).
    split; [apply clean_lines_kept | reflexivity].
Qed.

Lemma cleaned_pages_split :
  forall raw,
    Forall2 decorated (split form_feed (clean_ocr_text raw))
      (map clean_page (split form_feed raw)).
Proof.
  intros raw. destruct (cleaned_pages raw) as (E & N & H). cbv zeta in *.
  rewrite E. apply (split_joined_pages _ "" N); [|now left].
  eapply Forall_impl; [|exact H].
  intros c (ks & Hk & ->). now apply no_form_feed_page.
Qed.

(** X16: [clean_ocr_text] is idempotent: cleaning a text that was cleaned
    changes nothing. *)
Theorem clean_ocr_text_idempotent :
  forall raw_text,
    clean_ocr_text (clean_ocr_text raw_text) = clean_ocr_text raw_text.
Proof.
  intros raw. destruct (cleaned_pages raw) as (E & N & H). cbv zeta in *.
  pose proof (cleaned_pages_split raw) as F.
  rewrite E at 2. unfold clean_ocr_text at 1. f_equal.
  change (fun pg => join newline (clean_lines (splitlines pg)))
    with clean_page.
  revert F H.
  generalize (split form_feed (clean_ocr_text raw)) as pgs.
  generalize (map clean_page (split form_feed raw)) as cps.
  intros cps pgs F. induction F as [|pg c pgs cps Hd F IH]; intros H;
    [reflexivity|].
  inversion H as [|? ? (ks & Hk & ->) Hcps]; subst.
  cbn [map]. rewrite (clean_page_decorated _ _ Hk Hd). now rewrite IH.
Qed.

(** X17: [clean_ocr_text] keeps the pages: the cleaned text has as many
    pages between form feeds as the raw text, also when a page loses all
    its lines. *)
Theorem clean_ocr_text_keeps_page_count :
  forall raw_text,
    List.length (split form_feed (clean_ocr_text raw_text))
    = List.length (split form_feed raw_text).
Proof.
  intros raw. pose proof (cleaned_pages_split raw) as F.
  apply Forall2_length in F. now rewrite length_map in F.
Qed.

(** X18: every line of every page of the cleaned text is empty (beside a
    page break) or a kept line: not empty, with normalized spacing, and
    not noise for [_looks_like_noise]. *)
Theorem clean_ocr_text_lines_kept :
  forall raw_text pg l,
    In pg (split form_feed (clean_ocr_text raw_text)) ->
    In l (splitlines pg) ->
    l = "" \/ kept_line l.
Proof.
  intros raw pg l Hpg Hl.
  destruct (cleaned_pages raw) as (_ & _ & H). cbv zeta in H.
  pose proof (cleaned_pages_split raw) as F.
  revert F H Hpg.
  generalize (split form_feed (clean_ocr_text raw)) as pgs.
  generalize (map clean_page (split form_feed raw)) as cps.
  intros cps pgs F. induction F as [|pg' c pgs cps Hd F IH]; intros H Hpg;
    [destruct Hpg|].
  inversion H as [|? ? (ks & Hk & ->) Hcps]; subst.
  destruct Hpg as [->|Hpg]; [|now apply IH].
  destruct (splitlines_decorated _ _ Hk Hd) as (a & b & E & Ha & Hb).
  rewrite E in Hl. apply in_app_or in Hl. destruct Hl as [Hl|Hl].
  - left. symmetry. exact (proj1 (Forall_forall _ _) Ha _ Hl).
  - apply in_app_or in Hl. destruct Hl as [Hl|Hl].
    + right. exact (proj1 (Forall_forall _ _) Hk _ Hl).
    + left. symmetry. exact (proj1 (Forall_forall _ _) Hb _ Hl).
Qed.

Lemma clean_ocr_text_lines_kept_witness :
  In "a b" (split form_feed (clean_ocr_text ("a  b" ++ newline ++ "~~~~")))
  /\ In "a b" (splitlines "a b")
  /\ ("a b" = "" \/ kept_line "a b").
Proof.
  assert (H1 : In "a b"
                 (split form_feed
                    (clean_ocr_text ("a  b" ++ newline ++ "~~~~"))))
    by (vm_compute; left; reflexivity).
  assert (H2 : In "a b" (splitlines "a b")) by (left; reflexivity).
  split; [exact H1|]. split; [exact H2|].
  exact (clean_ocr_text_lines_kept _ _ _ H1 H2).
Defined.

(** ** Pages of a decoded text *)

Lemma decode_char_form_feed :
  forall shift low high c,
    (12 < low)%N -> (high + shift < 256)%N ->
    Ascii.eqb (decode_char shift low high c) form_feed
    = Ascii.eqb c form_feed.
Proof.
  intros shift low high c Hl Hh. unfold decode_char.
  destruct (N.leb_spec low (ord c)) as [L|L]; [|reflexivity].
  destruct (N.leb_spec (ord c) high) as [U|U]; [|reflexivity].
  cbn [andb].
  assert (E1 : Ascii.eqb c form_feed = false).
  { apply Ascii.eqb_neq. intros ->. unfold ord in L. simpl in L. lia. }
  rewrite E1. apply Ascii.eqb_neq. intros E.
  apply (f_equal N_of_ascii) in E. unfold chr in E.
  rewrite N_ascii_embedding in E by lia.
  unfold form_feed in E. simpl in E. unfold ord in *. lia.
Qed.

(** X19: when the shifted range lies above the form feed and the shift keeps
    its characters below 256, as with the arguments 29, 19 and 94 that
    [main] passes and with the defaults of the signature,
    [decode_caesar_shift] keeps the page breaks: the pages of the decoded
    text are the decoded pages of the text. *)
Theorem decode_caesar_shift_keeps_pages :
  forall shift low high text,
    (12 < low)%N -> (high + shift < 256)%N ->
    split form_feed (decode_caesar_shift_with shift low high text)
    = map (decode_caesar_shift_with shift low high) (split form_feed text).
Proof.
  intros shift low high text Hl Hh. unfold decode_caesar_shift_with.
  apply split_map_chars. intros c. now apply decode_char_form_feed.
Qed.

Lemma decode_caesar_shift_keeps_pages_witness :
  (12 < 19)%N /\ (94 + 29 < 256)%N
  /\ split form_feed
       (decode_caesar_shift_with 29 19 94 (String "(" (String form_feed "2")))
     = map (decode_caesar_shift_with 29 19 94)
         (split form_feed (String "(" (String form_feed "2"))).
Proof.
  assert (H1 : (12 < 19)%N) by reflexivity.
  assert (H2 : (94 + 29 < 256)%N) by reflexivity.
  split; [exact H1|]. split; [exact H2|].
  exact (decode_caesar_shift_keeps_pages 29 19 94 _ H1 H2).
Defined.

(** ** Name and identifier of a decoded provider page *)

Lemma span_digits_stop :
  forall x y,
    digit_stop y ->
    String.length (fst (span_digits (x ++ y)))
    = String.length (fst (span_digits x)).
Proof.
  induction x as [|c x IH]; intros y Hy.
  - cbn [append]. destruct y as [|c y]; [reflexivity|].
    cbn [digit_stop] in Hy. cbn [span_digits]. now rewrite Hy.
  - change (String c x ++ y) with (String c (x ++ y)). cbn [span_digits].
    destruct (isdigit c); [|reflexivity].
    specialize (IH _ Hy).
    destruct (span_digits (x ++ y)), (span_digits x). cbn [fst] in *.
    cbn [String.length]. now rewrite IH.
Qed.

Lemma longest_digit_run_stop :
  forall x y,
    digit_stop y ->
    longest_digit_run (x ++ y)
    = Nat.max (longest_digit_run x) (longest_digit_run y).
Proof.
  induction x as [|c x IH]; intros y Hy; [reflexivity|].
  change (String c x ++ y) with (String c (x ++ y)).
  cbn [longest_digit_run].
  change (String c (x ++ y)) with (String c x ++ y).
  rewrite (span_digits_stop _ _ Hy), (IH _ Hy). lia.
Qed.

Lemma longest_digit_run_length :
  forall s, longest_digit_run s <= String.length s.
Proof.
  assert (H : forall s, String.length (fst (span_digits s))
                        <= String.length s).
  { induction s as [|c s IH]; [apply le_n|]. cbn [span_digits].
    destruct (isdigit c); [|simpl; lia].
    destruct (span_digits s). cbn [fst String.length] in *. lia. }
  induction s as [|c s IH]; [apply le_n|].
  cbn [longest_digit_run]. specialize (H (String c s)).
  cbn [String.length] in *. lia.
Qed.

Lemma longest_digit_run_no_digit :
  forall s, no_digit s -> longest_digit_run s = 0.
Proof.
  induction s as [|c s IH]; intros H; [reflexivity|].
  unfold no_digit in *. cbn [any_char] in H.
  apply orb_false_iff in H. destruct H as [Hc Hs].
  cbn [longest_digit_run span_digits]. rewrite Hc. cbn [fst String.length].
  now rewrite (IH Hs).
Qed.

Lemma no_digit_stop : forall s, no_digit s -> digit_stop s.
Proof.
  intros [|c s] H; [exact I|]. unfold no_digit in H. cbn [any_char] in H.
  now apply orb_false_iff in H.
Qed.

Lemma lead_digits_run :
  forall s d r, lead_digits s = Some (d, r) -> String.length d <= 3.
Proof.
  intros s d r H. unfold lead_digits in H.
  destruct s as [|a [|b [|c r3]]]; try discriminate;
    repeat match type of H with
           | (if ?b then _ else _) = _ => destruct b
           end;
    try discriminate; injection H as <- <-; simpl; lia.
Qed.

Lemma comma_groups_run :
  forall n s g r,
    String.length s <= n -> comma_groups s = (g, r) ->
    longest_digit_run g <= 3 /\ digit_stop g.
Proof.
  induction n as [|n IH]; intros s g r Hn H.
  - destruct s; [|simpl in Hn; lia]. injection H as <- <-.
    split; [apply Nat.le_0_l | exact I].
  - destruct s as [|p [|a [|b [|c s']]]];
      try (injection H as <- <-; split; [apply Nat.le_0_l | exact I]).
    cbn [comma_groups] in H.
    destruct (Ascii.eqb p "," && isdigit a && isdigit b && isdigit c)
      eqn:E.
    + destruct (comma_groups s') as [g' r'] eqn:E'.
      injection H as <- <-.
      assert (Hs : String.length s' <= n) by (simpl in Hn; lia).
      destruct (IH _ _ _ Hs E') as [Hr Hst].
      apply andb_true_iff in E. destruct E as [E Ec].
      apply andb_true_iff in E. destruct E as [E Eb].
      apply andb_true_iff in E. destruct E as [Ep Ea].
      apply Ascii.eqb_eq in Ep. subst p. split; [|reflexivity].
      change (String "," (String a (String b (String c g'))))
        with (String "," (String a (String b (String c ""))) ++ g').
      rewrite (longest_digit_run_stop _ _ Hst).
      assert (L : longest_digit_run
                    (String "," (String a (String b (String c "")))) = 3).
      { cbn [longest_digit_run span_digits]. rewrite Ea, Eb, Ec.
        reflexivity. }
      rewrite L. lia.
    + injection H as <- <-. split; [apply Nat.le_0_l | exact I].
Qed.

Lemma fraction_run :
  forall s f r,
    fraction s = (f, r) -> longest_digit_run f <= 3 /\ digit_stop f.
Proof.
  intros s f r H.
  destruct (fraction_spec _ _ _ H) as [_ [->|(a & b & -> & Ha & Hb)]].
  - split; [apply Nat.le_0_l | exact I].
  - split; [|reflexivity].
    cbn [longest_digit_run span_digits]. rewrite Ha, Hb. cbn. lia.
Qed.

Lemma digit_stop_append :
  forall x y, digit_stop x -> digit_stop y -> digit_stop (x ++ y).
Proof.
  intros [|c x] y Hx Hy; [exact Hy | exact Hx].
Qed.

Lemma unsigned_match_run :
  forall s tok r,
    unsigned_match s = Some (tok, r) -> longest_digit_run tok <= 3.
Proof.
  intros s tok r H. unfold unsigned_match in H.
  destruct (lead_digits s) as [[d r1]|] eqn:Ed; [|discriminate].
  destruct (comma_groups r1) as [g r2] eqn:Eg.
  destruct (fraction r2) as [f r3] eqn:Ef.
  injection H as <- <-.
  destruct (comma_groups_run _ _ _ _ (le_n _) Eg) as [Hg Sg].
  destruct (fraction_run _ _ _ Ef) as [Hf Sf].
  rewrite (longest_digit_run_stop d (g ++ f))
    by now apply digit_stop_append.
  rewrite (longest_digit_run_stop g f Sf).
  pose proof (longest_digit_run_length d) as Ld.
  pose proof (lead_digits_run _ _ _ Ed). lia.
Qed.

(** No token holds four digits in a row. *)
Lemma match_at_run :
  forall s tok r, match_at s = Some (tok, r) -> longest_digit_run tok <= 3.
Proof.
  intros s tok r H. unfold match_at in H.
  destruct s as [|c s']; [discriminate|].
  destruct (Ascii.eqb c "-") eqn:E.
  - destruct (unsigned_match s') as [[t r']|] eqn:Eu; [|discriminate].
    injection H as <- <-. apply Ascii.eqb_eq in E. subst c.
    cbn [longest_digit_run span_digits].
    change (isdigit "-") with false. cbn [fst String.length].
    exact (unsigned_match_run _ _ _ Eu).
  - exact (unsigned_match_run _ _ _ H).
Qed.

(** A text with four digits in a row holds two tokens at least. *)
Lemma long_run_two_tokens :
  forall n s pos,
    String.length s <= n -> 4 <= longest_digit_run s ->
    2 <= List.length (finditer_from pos 0 s).
Proof.
  induction n as [|n IH]; intros s pos Hn H.
  - destruct s; [simpl in H; lia | simpl in Hn; lia].
  - rewrite finditer_from_step.
    destruct (match_at s) as [[tok r]|] eqn:E.
    + destruct (match_at_spec _ _ _ E) as [-> _].
      pose proof (match_at_run _ _ _ E) as Ht.
      destruct (finditer_from (pos + String.length tok) 0 r) as [|x l] eqn:Er;
        [|simpl; lia].
      exfalso.
      pose proof (finditer_nil_no_digit _ _ _ (le_n _) Er) as Nd.
      rewrite (longest_digit_run_stop _ _ (no_digit_stop _ Nd)) in H.
      rewrite (longest_digit_run_no_digit _ Nd) in H. lia.
    + destruct s as [|c s']; [simpl in H; lia|].
      pose proof (match_at_none_not_digit _ _ E) as Hc.
      cbn [longest_digit_run span_digits] in H. rewrite Hc in H.
      cbn [fst String.length] in H.
      apply IH; [simpl in Hn; lia | lia].
Qed.

Lemma search_long_number_run :
  forall s pw d,
    search_long_number pw s = Some d -> 5 <= longest_digit_run s.
Proof.
  induction s as [|c s IH]; intros pw d H; [discriminate|].
  cbn [search_long_number] in H.
  destruct (span_digits (String c s)) as [d0 r0] eqn:E.
  match type of H with
  | (if ?b then _ else _) = _ => destruct b eqn:B
  end.
  - apply andb_true_iff in B. destruct B as [B _].
    apply andb_true_iff in B. destruct B as [_ B].
    apply Nat.leb_le in B. cbn [longest_digit_run]. rewrite E.
    cbn [fst]. lia.
  - specialize (IH _ _ H). cbn [longest_digit_run]. lia.
Qed.

(** A line in which the search for an identifier succeeds holds two
    numeric tokens at least. *)
Lemma search_long_number_two_tokens :
  forall ln d,
    search_long_number false ln = Some d ->
    2 <= List.length (findall ln).
Proof.
  intros ln d H. rewrite findall_finditer, length_map. unfold finditer.
  apply (long_run_two_tokens _ _ _ (le_n _)).
  pose proof (search_long_number_run _ _ _ H). lia.
Qed.

Lemma find_from_none :
  forall (A : Type) (p : A -> bool) l i,
    Forall (fun x => p x = false) l -> find_from p i l = None.
Proof.
  intros A p. induction l as [|x l IH]; intros i H; [reflexivity|].
  inversion H as [|? ? Hx Hl]; subst. cbn [find_from].
  rewrite Hx. now apply IH.
Qed.

(** X20: the name that [extract_provider_name_and_id_from_decoded]
    returns is never empty, and the identifier it returns is always
    [None]: a line with five digits in a row holds two tokens of
    [_NUM_RE] at least, so the search for an identifier skips every line
    on which it could succeed. *)
Theorem extract_provider_name_and_id_shape :
  forall page_text,
    fst (extract_provider_name_and_id_from_decoded page_text) <> ""
    /\ snd (extract_provider_name_and_id_from_decoded page_text) = None.
Proof.
  intros page. unfold extract_provider_name_and_id_from_decoded.
  cbv zeta. cbn [fst snd].
  assert (Hid : forall w,
             find_from
               (fun ln => match search_long_number false ln with
                          | Some _ => true
                          | None => false
                          end)
               0
               (filter
                  (fun ln => negb (2 <=? List.length (findall ln))%nat) w)
             = None).
  { intros w. apply find_from_none. apply Forall_forall. intros ln Hin.
    apply filter_In in Hin. destruct Hin as [_ Hf].
    apply negb_true_iff in Hf. apply Nat.leb_gt in Hf.
    destruct (search_long_number false ln) as [d|] eqn:E; [|reflexivity].
    pose proof (search_long_number_two_tokens _ _ E). lia. }
  destruct (find_from is_provider_header 0 _) as [[i up]|].
  2:{ split; [destruct (clean_provider_name_raw _); discriminate|].
      reflexivity. }
  match goal with
  | |- context [find_from ?p (i + 1) ?w] =>
      destruct (find_from p (i + 1) w) as [[j cand]|] eqn:E
  end.
  2:{ split; [destruct (clean_provider_name_raw _); discriminate|].
      reflexivity. }
  apply find_from_some in E. destruct E as [E _].
  apply andb_true_iff in E. destruct E as [_ E].
  apply negb_true_iff in E. split.
  - intros N. rewrite N in E. discriminate.
  - now rewrite Hid.
Qed.

(** ** Numbers of the decoded text *)

Lemma span_digits_split :
  forall s d r, span_digits s = (d, r) -> s = d ++ r.
Proof.
  induction s as [|c s IH]; intros d r H.
  - injection H as <- <-. reflexivity.
  - cbn [span_digits] in H. destruct (isdigit c).
    + destruct (span_digits s) as [d' r'] eqn:E. injection H as <- <-.
      simpl. now rewrite (IH _ _ eq_refl).
    + injection H as <- <-. reflexivity.
Qed.

Lemma span_digits_no_digit :
  forall s, any_char isdigit s = false -> span_digits s = ("", s).
Proof.
  intros [|c s] H; [reflexivity|]. simpl in H.
  apply orb_false_iff in H. simpl. now rewrite (proj1 H).
Qed.

Lemma split_sign_split :
  forall s sign r, split_sign s = (sign, r) -> s = sign ++ r.
Proof.
  intros s sign r H. unfold split_sign in H.
  destruct s as [|c s]; [injection H as <- <-; reflexivity|].
  destruct (Ascii.eqb_spec c "-") as [->|N].
  - injection H as <- <-. reflexivity.
  - assert (E : match c with
                | "-"%char => ("-", s)
                | _ => ("", String c s)
                end = ("", String c s)).
    { destruct c as [[] [] [] [] [] [] [] []]; try reflexivity.
      congruence. }
    rewrite E in H. injection H as <- <-. reflexivity.
Qed.

Lemma spaced_groups_no_space :
  forall s, any_char isspace s = false -> spaced_groups s = ("", s).
Proof.
  intros [|w [|a [|b [|c r]]]] H; try reflexivity.
  simpl in H. apply orb_false_iff in H. cbn [spaced_groups].
  now rewrite (proj1 H).
Qed.

Lemma fullmatch_grouped_no_space :
  forall s, any_char isspace s = false -> fullmatch_grouped s = None.
Proof.
  intros s H. unfold fullmatch_grouped.
  destruct (split_sign s) as [sign r0] eqn:E0.
  destruct (span_digits r0) as [d r1] eqn:E1.
  destruct d as [|c d]; [reflexivity|].
  rewrite (split_sign_split _ _ _ E0) in H.
  apply any_char_suffix_false in H.
  rewrite (span_digits_split _ _ _ E1) in H.
  apply any_char_suffix_false in H.
  now rewrite (spaced_groups_no_space _ H).
Qed.

Lemma fullmatch_spaced_no_space :
  forall s, any_char isspace s = false -> fullmatch_spaced s = None.
Proof.
  intros s H. unfold fullmatch_spaced.
  destruct (split_sign s) as [sign r0] eqn:E0.
  destruct (span_digits r0) as [d r1] eqn:E1.
  destruct d as [|c d]; [reflexivity|].
  rewrite (split_sign_split _ _ _ E0) in H.
  apply any_char_suffix_false in H.
  rewrite (span_digits_split _ _ _ E1) in H.
  apply any_char_suffix_false in H.
  destruct r1 as [|w r2]; [reflexivity|].
  simpl in H. apply orb_false_iff in H. now rewrite (proj1 H).
Qed.

Lemma fullmatch_grouped_no_digit :
  forall s, any_char isdigit s = false -> fullmatch_grouped s = None.
Proof.
  intros s H. unfold fullmatch_grouped.
  destruct (split_sign s) as [sign r0] eqn:E0.
  rewrite (split_sign_split _ _ _ E0) in H.
  apply any_char_suffix_false in H.
  now rewrite (span_digits_no_digit _ H).
Qed.

Lemma fullmatch_spaced_no_digit :
  forall s, any_char isdigit s = false -> fullmatch_spaced s = None.
Proof.
  intros s H. unfold fullmatch_spaced.
  destruct (split_sign s) as [sign r0] eqn:E0.
  rewrite (split_sign_split _ _ _ E0) in H.
  apply any_char_suffix_false in H.
  now rewrite (span_digits_no_digit _ H).
Qed.

Lemma float_of_string_no_digit :
  forall s, any_char isdigit s = false -> float_of_string s = None.
Proof.
  intros s H. unfold float_of_string.
  assert (B : forall neg body,
             any_char isdigit body = false ->
             (let (ip, r1) := span_digits body in
              let (fp, r2) :=
                match r1 with
                | String c r => if Ascii.eqb c "." then span_digits r
                                else (EmptyString, r1)
                | EmptyString => (EmptyString, r1)
                end in
              match r2 with
              | EmptyString =>
                  if (String.length ip + String.length fp =? 0)%nat then None
                  else Some (of_decimal neg (digits_value 0 (ip ++ fp))
                               (String.length fp))
              | _ => None
              end) = None).
  { intros neg body Hb. rewrite (span_digits_no_digit _ Hb).
    destruct body as [|c r]; [reflexivity|].
    simpl in Hb. apply orb_false_iff in Hb. destruct Hb as [_ Hr].
    destruct (Ascii.eqb c ".").
    - rewrite (span_digits_no_digit _ Hr). destruct r; reflexivity.
    - reflexivity. }
  destruct s as [|c r]; [exact (B false "" eq_refl)|].
  destruct (Ascii.eqb c "-").
  - apply B. simpl in H. now apply orb_false_iff in H.
  - now apply B.
Qed.

Lemma decoded_num_by_orig :
  forall t1 t2,
    t1 <> "" -> t2 <> "" ->
    replace (String "016" "") "-"
      (replace (String "017" "") "." (replace (String "015" "") "," t1))
    = replace (String "016" "") "-"
        (replace (String "017" "") "." (replace (String "015" "") "," t2)) ->
    _decoded_num_to_float t1 = _decoded_num_to_float t2.
Proof.
  intros [|c1 t1] [|c2 t2] H1 H2 E; try congruence.
  unfold _decoded_num_to_float. cbv zeta. rewrite E. reflexivity.
Qed.

(** X21: [_decoded_num_to_float] reads the control characters [\x0f],
    [\x11] and [\x10] as the comma, the point and the minus: writing the
    separators of a token as these control characters does not change the
    result. *)
Theorem decoded_num_to_float_control_separators :
  forall token,
    _decoded_num_to_float (with_control_separators token)
    = _decoded_num_to_float token.
Proof.
  intros [|c s]; [reflexivity|].
  apply decoded_num_by_orig; [discriminate | discriminate |].
  unfold with_control_separators.
  rewrite !replace_char_map, !map_chars_map_chars.
  apply map_chars_ext. intros x. unfold control_separator.
  destruct x as [[] [] [] [] [] [] [] []]; reflexivity.
Qed.

Lemma token_not_special :
  forall s v,
    float_of_string s = Some v ->
    String.eqb s "" || String.eqb s "-" || String.eqb s "."
      || String.eqb s "-." = false.
Proof.
  intros s v H.
  destruct (String.eqb_spec s "") as [->|_]; [discriminate|].
  destruct (String.eqb_spec s "-") as [->|_]; [discriminate|].
  destruct (String.eqb_spec s ".") as [->|_]; [discriminate|].
  destruct (String.eqb_spec s "-.") as [->|_]; [discriminate|].
  reflexivity.
Qed.

(** X22: on a token of [_NUM_RE] written with the ASCII digits,
    [_decoded_num_to_float] returns what [line_to_category_and_numbers]
    computes for it: the float of the token without its commas. *)
Theorem decoded_num_to_float_on_token :
  forall tok,
    is_ascii tok -> is_token tok ->
    _decoded_num_to_float tok = float_of_string (replace "," "" tok).
Proof.
  intros tok _ Htok.
  pose proof (token_chars _ Htok) as Hc.
  destruct (float_of_token _ Htok) as (v & Hv).
  assert (Hne : tok <> "")
    by (apply ends_digit_not_nil, is_token_ends_digit, Htok).
  assert (Hsp : any_char isspace tok = false)
    by (exact (any_char_none _ _ _ token_char_not_space Hc)).
  assert (Horig :
    replace (String "016" "") "-"
      (replace (String "017" "") "." (replace (String "015" "") "," tok))
    = tok).
  { rewrite !replace_char_map, !map_chars_map_chars.
    apply (map_chars_fixed is_token_char); [|exact Hc].
    intros c. destruct c as [[] [] [] [] [] [] [] []];
      try discriminate; reflexivity. }
  assert (Hu : all_chars is_num_char (replace "," "" tok) = true).
  { apply (all_chars_replace_delete is_token_char); [|exact Hc].
    intros c H E. unfold is_token_char in H. unfold is_num_char.
    rewrite E, orb_false_r in H. exact H. }
  assert (Hgen :
    (let s := replace " " "" (replace "," "" tok) in
     let s := remove_chars (fun c => negb (is_num_char c)) s in
     if String.eqb s "" || String.eqb s "-" || String.eqb s "."
        || String.eqb s "-."
     then None
     else float_of_string s) = float_of_string (replace "," "" tok)).
  { cbv zeta.
    rewrite (replace_char_absent " " "" (replace "," "" tok)).
    2:{ apply (all_chars_impl is_num_char); [|exact Hu].
        intros c H. apply negb_true_iff. apply Ascii.eqb_neq. intros ->.
        discriminate. }
    rewrite remove_chars_none.
    2:{ apply (all_chars_impl is_num_char); [|exact Hu].
        intros c H. now rewrite H. }
    now rewrite (token_not_special _ _ Hv). }
  destruct tok as [|c0 t0]; [congruence|].
  unfold _decoded_num_to_float. cbv zeta. rewrite Horig.
  rewrite (strip_chars_none isspace _ Hsp : strip (String c0 t0) = _).
  rewrite (fullmatch_grouped_no_space _ Hsp).
  rewrite (fullmatch_spaced_no_space _ Hsp).
  cbv zeta in Hgen. rewrite Hgen.
  destruct (contains "." (String c0 t0)); reflexivity.
Qed.

Lemma decoded_num_to_float_on_token_witness :
  is_ascii "-1,234.56"
  /\ is_token "-1,234.56"
  /\ _decoded_num_to_float "-1,234.56"
     = float_of_string (replace "," "" "-1,234.56").
Proof.
  assert (A : is_ascii "-1,234.56") by (vm_compute; reflexivity).
  assert (H : is_token "-1,234.56").
  { exists "-1,234.56", "". reflexivity. }
  split; [exact A|]. split; [exact H|].
  exact (decoded_num_to_float_on_token _ A H).
Defined.

(** X23: [_decoded_num_to_float] returns [None] on every token without a
    decimal digit. *)
Theorem decoded_num_to_float_needs_digit :
  forall token,
    any_char isdigit token = false -> _decoded_num_to_float token = None.
Proof.
  intros [|c0 t0] H; [reflexivity|].
  unfold _decoded_num_to_float. cbv zeta.
  set (orig := replace (String "016" "") "-"
                 (replace (String "017" "") "."
                    (replace (String "015" "") "," (String c0 t0)))).
  assert (Ho : any_char isdigit orig = false).
  { unfold orig. rewrite !replace_char_map, !map_chars_map_chars.
    apply any_char_map_chars; [|exact H].
    intros c. destruct c as [[] [] [] [] [] [] [] []];
      try discriminate; reflexivity. }
  assert (Ht : any_char isdigit (strip orig) = false)
    by (now apply any_char_strip_false).
  rewrite (fullmatch_grouped_no_digit _ Ht).
  rewrite (fullmatch_spaced_no_digit _ Ht).
  assert (G : forall s, any_char isdigit s = false ->
                (if String.eqb s "" || String.eqb s "-" || String.eqb s "."
                    || String.eqb s "-."
                 then None else float_of_string s) = None).
  { intros s Hs. rewrite (float_of_string_no_digit _ Hs).
    destruct (_ || _); reflexivity. }
  rewrite G.
  - destruct (contains "." (strip orig)); reflexivity.
  - apply any_char_remove_chars.
    now apply any_char_replace_delete, any_char_replace_delete.
Qed.

Lemma decoded_num_to_float_needs_digit_witness :
  any_char isdigit "n/a" = false /\ _decoded_num_to_float "n/a" = None.
Proof.
  assert (H : any_char isdigit "n/a" = false) by reflexivity.
  split; [exact H|].
  exact (decoded_num_to_float_needs_digit _ H).
Defined.

(** ** Sections of the decoded text *)

Lemma section_step_type :
  forall st raw st' y,
    state_ok st -> section_step st raw = (st', y) ->
    state_ok st'
    /\ match y with
       | Some r => In (section_type r) payment_types
       | None => True
       end.
Proof.
  intros [pt em] raw st' y Hst. unfold section_step.
  repeat match goal with
         | |- context [if ?b then _ else _] => destruct b
         end;
    try (intros [= <- <-]; split; [|exact I]; unfold state_ok; simpl;
         auto 10; fail).
  destruct pt as [ptype|].
  2:{ intros [= <- <-]. split; [exact Hst | exact I]. }
  repeat match goal with
         | |- context [if ?b then _ else _] => destruct b
         end;
    try (intros [= <- <-]; split; [exact Hst | exact I]).
  destruct (last_two _) as [[c y']|];
    [|intros [= <- <-]; split; [exact Hst | exact I]].
  destruct (_decoded_num_to_float c), (_decoded_num_to_float y');
    intros [= <- <-]; split; try exact Hst; try exact I.
Qed.

Lemma section_lines_type :
  forall lines st st' ys,
    state_ok st -> section_lines st lines = (st', ys) ->
    state_ok st' /\ Forall (fun r => In (section_type r) payment_types) ys.
Proof.
  induction lines as [|raw rest IH]; intros st st' ys Hst.
  - intros [= <- <-]. split; [exact Hst | constructor].
  - cbn [section_lines].
    destruct (section_step st raw) as [st1 y] eqn:E1.
    destruct (section_lines st1 rest) as [st2 ys2] eqn:E2.
    intros [= <- <-].
    destruct (section_step_type _ _ _ _ Hst E1) as [H1 Hy].
    destruct (IH _ _ _ H1 E2) as [H2 Hys]. split; [exact H2|].
    destruct y; [constructor; assumption | exact Hys].
Qed.

Lemma section_pages_type :
  forall pages st,
    state_ok st ->
    Forall (fun r => In (section_type r) payment_types)
      (section_pages st pages).
Proof.
  induction pages as [|pg rest IH]; intros st Hst; [constructor|].
  cbn [section_pages].
  destruct (section_lines st _) as [st1 ys] eqn:E.
  destruct (section_lines_type _ _ _ _ Hst E) as [H1 Hys].
  apply Forall_app. split; [exact Hys | now apply IH].
Qed.

(** X24: the payment type of every row that
    [_iter_group_sections_from_decoded] yields is one of GROUP PAYMENTS,
    EXCEPTION PAYMENTS, GROUP PAYMENTS ALL PROVIDERS and SUMMARY ALL
    PROVIDERS. *)
Theorem iter_group_sections_payment_types :
  forall pages_dec,
    Forall (fun r => In (section_type r) payment_types)
      (_iter_group_sections_from_decoded pages_dec).
Proof.
  intros pages. apply section_pages_type. exact I.
Qed.

Lemma provider_section_step_label :
  forall name em raw em' r,
    provider_section_step name em raw = (em', Some r) ->
    contains "TOTAL" (upper (row_cat r)) = false
    /\ em = true /\ matrix_header_line raw = false.
Proof.
  intros name em raw em' r. unfold provider_section_step, matrix_header_line.
  repeat match goal with
         | |- context [if ?b then _ else _] => destruct b eqn:?
         end; try discriminate.
  destruct (last_two _) as [[c y]|]; [|discriminate].
  destruct (_decoded_num_to_float c), (_decoded_num_to_float y);
    try discriminate.
  intros [= <- <-]. unfold row_cat. cbn [fst].
  repeat split; try assumption.
  destruct em; [reflexivity | discriminate].
Qed.

Lemma provider_section_lines_labels :
  forall name lines em,
    Forall (fun r => contains "TOTAL" (upper (row_cat r)) = false)
      (provider_section_lines name em lines).
Proof.
  intros name. induction lines as [|raw rest IH]; intros em; [constructor|].
  cbn [provider_section_lines].
  destruct (provider_section_step name em raw) as [em' [r|]] eqn:E;
    [|apply IH].
  constructor; [|apply IH].
  exact (proj1 (provider_section_step_label _ _ _ _ _ E)).
Qed.

(** X25: no row that [_iter_provider_section_rows_from_decoded] returns has
    a label that contains TOTAL, in any case of the letters. *)
Theorem iter_provider_section_rows_exclude_totals :
  forall page_text section_name,
    Forall (fun r => contains "TOTAL" (upper (row_cat r)) = false)
      (_iter_provider_section_rows_from_decoded page_text section_name).
Proof.
  intros page name. apply provider_section_lines_labels.
Qed.

Lemma provider_section_step_off :
  forall name raw,
    matrix_header_line raw = false ->
    provider_section_step name false raw = (false, None).
Proof.
  intros name raw H. unfold provider_section_step.
  unfold matrix_header_line in H. rewrite H. cbn [negb].
  destruct (String.eqb name "GROUP PAYMENTS TO PROVIDER" && _);
    [reflexivity|].
  destruct (String.eqb name "PROVIDER SUMMARY" && _); reflexivity.
Qed.

(** X26: on a page none of whose lines carries both CURRENT MONTH and YEAR
    TO DATE, [_iter_provider_section_rows_from_decoded] returns no row,
    whatever the section asked for. *)
Theorem iter_provider_section_rows_need_matrix_header :
  forall page_text section_name,
    Forall (fun raw => matrix_header_line raw = false)
      (decoded_lines page_text) ->
    _iter_provider_section_rows_from_decoded page_text section_name = [].
Proof.
  intros page name H. unfold _iter_provider_section_rows_from_decoded.
  unfold decoded_lines in H.
  induction H as [|raw rest Hr _ IH]; [reflexivity|].
  cbn [provider_section_lines].
  rewrite (provider_section_step_off _ _ Hr). exact IH.
Qed.

Lemma iter_provider_section_rows_need_matrix_header_witness :
  Forall (fun raw => matrix_header_line raw = false)
    (decoded_lines ("PROVIDER SUMMARY" ++ newline ++ "A=1.00=2.00"))
  /\ _iter_provider_section_rows_from_decoded
       ("PROVIDER SUMMARY" ++ newline ++ "A=1.00=2.00") "PROVIDER SUMMARY"
     = [].
Proof.
  assert (H : Forall (fun raw => matrix_header_line raw = false)
                (decoded_lines
                   ("PROVIDER SUMMARY" ++ newline ++ "A=1.00=2.00"))).
  { apply Forall_forall. intros ln Hin. vm_compute in Hin.
    destruct Hin as [<-|[<-|[]]]; vm_compute; reflexivity. }
  split; [exact H|].
  exact (iter_provider_section_rows_need_matrix_header _ _ H).
Defined.

(** ** Runs of the program *)

(** X27: every provider page index of a hybrid run is at least 1 and is a
    valid index of both page lists: the first page is never a provider
    page, and neither list is read out of range. *)
Theorem hybrid_provider_indices_in_range :
  forall pages_ocr pages_dec i,
    In i (hybrid_provider_indices pages_ocr pages_dec) ->
    1 <= i /\ i < List.length pages_ocr /\ i < List.length pages_dec.
Proof.
  intros pages_ocr pages_dec i. unfold hybrid_provider_indices.
  set (n := Nat.min (List.length pages_ocr) (List.length pages_dec)).
  assert (Hn : n <= List.length pages_ocr /\ n <= List.length pages_dec)
    by (unfold n; lia).
  destruct (filter _ (seq 1 (n - 1))) as [|a l] eqn:E.
  - intros H. apply in_seq in H. lia.
  - intros H. rewrite <- E in H. apply filter_In in H.
    destruct H as [H _]. apply in_seq in H. lia.
Qed.

Lemma hybrid_provider_indices_in_range_witness :
  In 2 (hybrid_provider_indices ["a"; "b"; "c"] ["a"; "b"; "c"; "d"])
  /\ 1 <= 2 /\ 2 < List.length ["a"; "b"; "c"]
  /\ 2 < List.length ["a"; "b"; "c"; "d"].
Proof.
  assert (H : In 2 (hybrid_provider_indices ["a"; "b"; "c"]
                      ["a"; "b"; "c"; "d"]))
    by (vm_compute; left; reflexivity).
  split; [exact H|].
  exact (hybrid_provider_indices_in_range _ _ _ H).
Defined.

Lemma category_lines_without_id :
  forall p, p_id p = None -> Forall without_id (category_lines p).
Proof.
  intros p H. unfold category_lines. apply Forall_map_intro.
  intros r. unfold without_id. now rewrite H.
Qed.

(** X28: in a run without [--hybrid] that returns, the [provider_id] field
    of every data line of [provider_categories.csv] and of
    [provider_totals.csv] is empty. *)
Theorem main_plain_run_has_no_ids :
  forall w out,
    main w = Returned out -> arg_hybrid w = false ->
    Forall without_id (tl (out_provider_categories_csv out))
    /\ Forall without_id (tl (out_provider_totals_csv out)).
Proof.
  intros w out. unfold main.
  destruct (negb (input_exists w)); [discriminate|].
  intros H Hh. rewrite Hh in H.
  match type of H with
  | match ?t with _ => _ end = _ => destruct t as [text|]
  end; [|discriminate].
  destruct (split form_feed text) as [|a l]; [discriminate|].
  unfold export, write_provider_csvs_from_entries in H.
  injection H as <-.
  cbn [out_provider_categories_csv out_provider_totals_csv tl].
  assert (Hid : forall page, p_id (plain_entry page) = None).
  { intros page. unfold plain_entry.
    destruct (parse_provider_page page). destruct (provider_totals _).
    reflexivity. }
  split.
  - apply Forall_forall. intros line Hin. apply in_flat_map in Hin.
    destruct Hin as (p & Hp & Hin). apply in_map_iff in Hp.
    destruct Hp as (page & <- & _).
    exact (proj1 (Forall_forall _ _)
             (category_lines_without_id _ (Hid page)) _ Hin).
  - rewrite map_map. apply Forall_map_intro. intros page.
    unfold without_id, totals_line. rewrite (Hid page).
    destruct (p_total_cur (plain_entry page)),
      (p_total_ytd (plain_entry page)); reflexivity.
Qed.

Lemma main_plain_run_has_no_ids_witness :
  exists out,
    main (plain_world true sample_report) = Returned out
    /\ arg_hybrid (plain_world true sample_report) = false
    /\ Forall without_id (tl (out_provider_categories_csv out))
    /\ Forall without_id (tl (out_provider_totals_csv out)).
Proof.
  eexists.
  assert (E1 : main (plain_world true sample_report) = Returned
    ltac:(let r := eval vm_compute in
            (match main (plain_world true sample_report) with
             | Returned o => o
             | _ => {| out_group_rows := []; out_provider_entries := [];
                       out_provider_categories_csv := [];
                       out_provider_totals_csv := [] |}
             end) in exact r)) by (vm_compute; reflexivity).
  split; [exact E1|]. split; [reflexivity|].
  exact (main_plain_run_has_no_ids _ _ E1 eq_refl).
Defined.
